(** * Saudi-Audit-AI: the hash-chained audit ledger, its backups and its
    disaster recovery

    A shallow embedding of [audit/core.py] ([HashChainedLedger]),
    [audit/backup.py] ([AutomatedBackupSystem]) and
    [backup/disaster_recovery.py] ([DisasterRecoverySystem]).

    Python values are an inductive type, methods are computations in a state
    and exception monad over the object they belong to and the operating
    system (clock and file system) they run on.  The library functions the
    code calls ([hashlib.sha256], [json.dumps], [datetime]) are written out
    so that every definition runs. *)

From Stdlib Require Import ZArith List String Ascii Bool Lia.
From Stdlib Require Import Floats.
From stdpp Require Import base option list gmap strings.

Import ListNotations.
Local Open Scope string_scope.
Local Open Scope list_scope.
Local Open Scope Z_scope.

(* ===================================================================== *)
(** ** Bytes and text *)
(* ===================================================================== *)

(** A Python [str] is kept as its UTF-8 encoding, a [bytes] object as it
    is: both are Rocq strings, one [ascii] per byte. *)

Definition byte_of (c : ascii) : Z := Z.of_N (N_of_ascii c).
Definition chr (z : Z) : ascii := ascii_of_N (Z.to_N (z mod 256)).

Fixpoint bytes_of (s : string) : list Z :=
  match s with
  | EmptyString => []
  | String c r => byte_of c :: bytes_of r
  end.

Fixpoint concat_str (l : list string) : string :=
  match l with
  | [] => ""
  | s :: r => s +:+ concat_str r
  end.

(** [sep.join(l)] *)
Fixpoint str_join (sep : string) (l : list string) : string :=
  match l with
  | [] => ""
  | [s] => s
  | s :: r => s +:+ sep +:+ str_join sep r
  end.

Fixpoint repeat_str (s : string) (n : nat) : string :=
  match n with
  | O => ""
  | S k => s +:+ repeat_str s k
  end.

Definition hex_digit (z : Z) : ascii :=
  if z <? 10 then chr (48 + z) else chr (87 + z).

Definition digit_char (z : Z) : ascii := chr (48 + z).

(** Decimal digits of a natural number, most significant first; [fuel]
    bounds the number of digits. *)
Fixpoint digits_fuel (fuel : nat) (z : Z) (acc : string) : string :=
  match fuel with
  | O => acc
  | S k =>
      let acc' := String (digit_char (z mod 10)) acc in
      if z <? 10 then acc' else digits_fuel k (z / 10) acc'
  end.

Definition digits (z : Z) : string :=
  digits_fuel (S (Z.to_nat (Z.log2 z))) z "".

(** [str(n)] for a Python [int]. *)
Definition str_int (z : Z) : string :=
  if z <? 0 then "-" +:+ digits (- z) else digits z.

(** [f"{n:0wd}"] for [0 <= n]: at least [w] digits, zero padded. *)
Definition zpad (w : nat) (z : Z) : string :=
  let d := digits z in
  repeat_str "0" (w - String.length d) +:+ d.

(* ===================================================================== *)
(** ** [hashlib.sha256] (FIPS 180-4) on 32-bit words kept in [Z] *)
(* ===================================================================== *)

Module SHA256.

Definition wrap (x : Z) : Z := Z.land x 4294967295.
Definition add32 (x y : Z) : Z := wrap (x + y).
Definition rotr (n x : Z) : Z :=
  Z.lor (Z.shiftr x n) (wrap (Z.shiftl x (32 - n))).
Definition not32 (x : Z) : Z := 4294967295 - x.

Definition Ch (x y z : Z) : Z := Z.lxor (Z.land x y) (Z.land (not32 x) z).
Definition Maj (x y z : Z) : Z :=
  Z.lxor (Z.lxor (Z.land x y) (Z.land x z)) (Z.land y z).
Definition bsig0 (x : Z) : Z := Z.lxor (Z.lxor (rotr 2 x) (rotr 13 x)) (rotr 22 x).
Definition bsig1 (x : Z) : Z := Z.lxor (Z.lxor (rotr 6 x) (rotr 11 x)) (rotr 25 x).
Definition ssig0 (x : Z) : Z := Z.lxor (Z.lxor (rotr 7 x) (rotr 18 x)) (Z.shiftr x 3).
Definition ssig1 (x : Z) : Z := Z.lxor (Z.lxor (rotr 17 x) (rotr 19 x)) (Z.shiftr x 10).

(** The first 32 bits of the fractional parts of the cube roots of the
    first 64 primes. *)
Definition K : list Z :=
  [
    1116352408; 1899447441; 3049323471; 3921009573; 961987163;
    1508970993; 2453635748; 2870763221; 3624381080; 310598401;
    607225278; 1426881987; 1925078388; 2162078206; 2614888103;
    3248222580; 3835390401; 4022224774; 264347078; 604807628;
    770255983; 1249150122; 1555081692; 1996064986; 2554220882;
    2821834349; 2952996808; 3210313671; 3336571891; 3584528711;
    113926993; 338241895; 666307205; 773529912; 1294757372;
    1396182291; 1695183700; 1986661051; 2177026350; 2456956037;
    2730485921; 2820302411; 3259730800; 3345764771; 3516065817;
    3600352804; 4094571909; 275423344; 430227734; 506948616;
    659060556; 883997877; 958139571; 1322822218; 1537002063;
    1747873779; 1955562222; 2024104815; 2227730452; 2361852424;
    2428436474; 2756734187; 3204031479; 3329325298 ].

(** The first 32 bits of the fractional parts of the square roots of the
    first 8 primes. *)
Definition H0 : list Z :=
  [
    1779033703; 3144134277; 1013904242; 2773480762;
    1359893119; 2600822924; 528734635; 1541459225 ].

(** Big-endian bytes of a number, [n] of them. *)
Fixpoint be_bytes (n : nat) (x : Z) : list Z :=
  match n with
  | O => []
  | S k => Z.land (Z.shiftr x (8 * Z.of_nat k)) 255 :: be_bytes k x
  end.

(** The message followed by the bit 1, zeros up to 56 modulo 64 bytes, and
    the length in bits on 8 bytes. *)
Definition pad (msg : list Z) : list Z :=
  let len := Z.of_nat (length msg) in
  let zeros := Z.to_nat ((55 - len) mod 64) in
  msg ++ 128 :: repeat 0 zeros ++ be_bytes 8 (8 * len).

Fixpoint words (n : nat) (bs : list Z) : list Z :=
  match n with
  | O => []
  | S k =>
      match bs with
      | a :: b :: c :: d :: r =>
          (Z.shiftl a 24 + Z.shiftl b 16 + Z.shiftl c 8 + d) :: words k r
      | _ => []
      end
  end.

(** The message schedule, newest word first: [extend n w] adds [n] words
    to the sixteen of the block. *)
Fixpoint extend (n : nat) (w : list Z) : list Z :=
  match n with
  | O => w
  | S k =>
      let x := add32 (add32 (ssig1 (nth 1 w 0)) (nth 6 w 0))
                     (add32 (ssig0 (nth 14 w 0)) (nth 15 w 0)) in
      extend k (x :: w)
  end.

Definition schedule (block : list Z) : list Z :=
  rev (extend 48 (rev (words 16 block))).

Record regs := Regs { ra : Z; rb : Z; rc : Z; rd : Z; re : Z; rf : Z; rg : Z; rh : Z }.

Definition round (r : regs) (kw : Z * Z) : regs :=
  let '(k, w) := kw in
  let t1 := add32 (add32 (add32 (rh r) (bsig1 (re r)))
                         (add32 (Ch (re r) (rf r) (rg r)) k)) w in
  let t2 := add32 (bsig0 (ra r)) (Maj (ra r) (rb r) (rc r)) in
  Regs (add32 t1 t2) (ra r) (rb r) (rc r) (add32 (rd r) t1) (re r) (rf r) (rg r).

Definition regs_of (h : list Z) : regs :=
  Regs (nth 0 h 0) (nth 1 h 0) (nth 2 h 0) (nth 3 h 0)
       (nth 4 h 0) (nth 5 h 0) (nth 6 h 0) (nth 7 h 0).

Definition regs_list (r : regs) : list Z :=
  [ra r; rb r; rc r; rd r; re r; rf r; rg r; rh r].

Definition compress (h : list Z) (block : list Z) : list Z :=
  let r := fold_left round (combine K (schedule block)) (regs_of h) in
  map (fun p => add32 (fst p) (snd p)) (combine h (regs_list r)).

Fixpoint blocks (n : nat) (h : list Z) (bs : list Z) : list Z :=
  match n with
  | O => h
  | S k => blocks k (compress h (firstn 64 bs)) (skipn 64 bs)
  end.

Definition digest (msg : list Z) : list Z :=
  let p := pad msg in
  blocks (length p / 64) H0 p.

Fixpoint hex_bytes (bs : list Z) : string :=
  match bs with
  | [] => ""
  | b :: r => String (hex_digit (b / 16)) (String (hex_digit (b mod 16)) (hex_bytes r))
  end.

(** [hashlib.sha256(data).hexdigest()] *)
Definition hexdigest (data : string) : string :=
  hex_bytes (flat_map (be_bytes 4) (digest (bytes_of data))).

End SHA256.

(* ===================================================================== *)
(** ** Python [float]: IEEE binary64, with [float.__repr__] *)
(* ===================================================================== *)

Module PyFloat.

(** [float(n)] for [|n| < 2^63]; exact below [2^53]. *)
Definition of_Z (n : Z) : float :=
  if n <? 0 then PrimFloat.opp (PrimFloat.of_uint63 (Uint63.of_Z (- n)))
  else PrimFloat.of_uint63 (Uint63.of_Z n).

(** [a / b] on two Python [int]s below [2^53] in absolute value. *)
Definition truediv (a b : Z) : float := PrimFloat.div (of_Z a) (of_Z b).

Definition ceil_div (a b : Z) : Z := - ((- a) / b).

(** The decimals [d * 10^k] that read back as the float [m * 2^e]: they lie
    between the midpoints to its two neighbours, the midpoints included
    when [m] is even.  Returns the bounds on [d] and the nearest [d]. *)
Definition decimal_window (m e k : Z) : Z * Z * Z :=
  let lo := if (m =? 2 ^ 52) && (-1074 <? e) then 4 * m - 1 else 4 * m - 2 in
  let hi := 4 * m + 2 in
  let a := 10 ^ Z.max k 0 * Z.shiftl 1 (Z.max (2 - e) 0) in
  let b := Z.shiftl 1 (Z.max (e - 2) 0) * 10 ^ Z.max (- k) 0 in
  let closed := Z.even m in
  let dlo := ceil_div (lo * b) a in
  let dlo := if negb closed && (dlo * a =? lo * b) then dlo + 1 else dlo in
  let dhi := (hi * b) / a in
  let dhi := if negb closed && (dhi * a =? hi * b) then dhi - 1 else dhi in
  let near := (2 * 4 * m * b + a) / (2 * a) in
  (dlo, dhi, Z.max dlo (Z.min dhi near)).

(** The shortest decimal that reads back as [m * 2^e], nearest to it:
    the largest [k] with a decimal in the window. *)
Fixpoint shortest_from (fuel : nat) (m e k : Z) : Z * Z :=
  let '(dlo, dhi, d) := decimal_window m e k in
  if (1 <=? dhi) && (dlo <=? dhi) then (d, k)
  else match fuel with
       | O => (d, k)
       | S n => shortest_from n m e (k - 1)
       end.

Definition shortest (m e : Z) : Z * Z :=
  shortest_from 400 m e ((Z.log2 m + e + 2) * 30103 / 100000 + 2).

(** [float_repr_style = 'short']: [digits] are the significant digits and
    the value is [0.digits * 10^decpt]. *)
Definition format_short (ds : string) (decpt : Z) : string :=
  let n := Z.of_nat (String.length ds) in
  if (decpt <=? -4) || (16 <? decpt) then
    let x := decpt - 1 in
    let mant :=
      match ds with
      | String c EmptyString => String c EmptyString
      | String c r => String c ("." +:+ r)
      | EmptyString => ""
      end in
    mant +:+ "e" +:+ (if x <? 0 then "-" else "+") +:+ zpad 2 (Z.abs x)
  else if decpt <=? 0 then
    "0." +:+ repeat_str "0" (Z.to_nat (- decpt)) +:+ ds
  else if n <=? decpt then
    ds +:+ repeat_str "0" (Z.to_nat (decpt - n)) +:+ ".0"
  else
    substring 0 (Z.to_nat decpt) ds +:+ "." +:+
    substring (Z.to_nat decpt) (Z.to_nat (n - decpt)) ds.

(** [repr(x)], which is also [str(x)] and what an f-string prints. *)
Definition repr (x : float) : string :=
  match Prim2SF x with
  | S754_nan => "nan"
  | S754_infinity s => if s then "-inf" else "inf"
  | S754_zero s => if s then "-0.0" else "0.0"
  | S754_finite s m e =>
      let '(d, k) := shortest (Zpos m) e in
      let ds := digits d in
      (if s then "-" else "") +:+ format_short ds (Z.of_nat (String.length ds) + k)
  end.

(** [json.dumps] of a float ([allow_nan] is on by default). *)
Definition json_repr (x : float) : string :=
  match Prim2SF x with
  | S754_nan => "NaN"
  | S754_infinity s => if s then "-Infinity" else "Infinity"
  | _ => repr x
  end.

(** The exact comparison of a float with an integer: [x == n]. *)
Definition eq_int (x : float) (n : Z) : bool :=
  match Prim2SF x with
  | S754_zero _ => n =? 0
  | S754_finite s m e =>
      let v := if s then Zneg m else Zpos m in
      if 0 <=? e then n =? Z.shiftl v e else Z.shiftl n (- e) =? v
  | _ => false
  end.

(** [v > x] for a number [v] kept as an integer: exact, as Python compares
    an [int] with a [float]. *)
Definition int_gt (n : Z) (x : float) : bool :=
  match Prim2SF x with
  | S754_zero _ => 0 <? n
  | S754_infinity s => s
  | S754_nan => false
  | S754_finite s m e =>
      let v := if s then Zneg m else Zpos m in
      if 0 <=? e then Z.shiftl v e <? n else v <? Z.shiftl n (- e)
  end.

(** [x > n] for an integer [n], exact. *)
Definition gt_int (x : float) (n : Z) : bool :=
  match Prim2SF x with
  | S754_zero _ => n <? 0
  | S754_infinity s => negb s
  | S754_nan => false
  | S754_finite s m e =>
      let v := if s then Zneg m else Zpos m in
      if 0 <=? e then n <? Z.shiftl v e else Z.shiftl n (- e) <? v
  end.

End PyFloat.

(* ===================================================================== *)
(** ** Python values and exceptions *)
(* ===================================================================== *)

(** The values a payload ([Dict[str, Any]]) is made of.  A [dict] keeps its
    insertion order; its keys are strings.  [PyObject] stands for any object
    that [json] cannot serialize (a [datetime], a [set], a [bytes], ...). *)
#[local] Set Warnings "-register-all".
Inductive pyval : Type :=
| PyNone
| PyBool (b : bool)
| PyInt (n : Z)
| PyFloat (x : float)
| PyStr (s : string)
| PyList (l : list pyval)
| PyDict (d : list (string * pyval))
| PyObject (cls : string).

Inductive exn : Type :=
| TypeError (msg : string)
| KeyError (key : string)
| ValueError (msg : string)
| AttributeError (msg : string)
| OverflowError (msg : string)
| OSError (msg : string)
| Exception (msg : string).

(** [str(e)] *)
Definition str_exn (e : exn) : string :=
  match e with
  | KeyError k => "'" +:+ k +:+ "'"
  | TypeError m | ValueError m | AttributeError m
  | OverflowError m | OSError m | Exception m => m
  end.

Definition type_name (v : pyval) : string :=
  match v with
  | PyNone => "NoneType"
  | PyBool _ => "bool"
  | PyInt _ => "int"
  | PyFloat _ => "float"
  | PyStr _ => "str"
  | PyList _ => "list"
  | PyDict _ => "dict"
  | PyObject c => c
  end.

(** *** Dictionaries *)

Fixpoint dict_lookup {A} (k : string) (d : list (string * A)) : option A :=
  match d with
  | [] => None
  | (k', v) :: r => if String.eqb k k' then Some v else dict_lookup k r
  end.

(** [d[k] = v]: in place when the key is there, at the end otherwise. *)
Fixpoint dict_set {A} (k : string) (v : A) (d : list (string * A))
  : list (string * A) :=
  match d with
  | [] => [(k, v)]
  | (k', v') :: r =>
      if String.eqb k k' then (k, v) :: r else (k', v') :: dict_set k v r
  end.

(** [del d[k]] *)
Fixpoint dict_del {A} (k : string) (d : list (string * A))
  : list (string * A) :=
  match d with
  | [] => []
  | (k', v') :: r =>
      if String.eqb k k' then r else (k', v') :: dict_del k r
  end.

(** [k in d] *)
Definition dict_mem {A} (k : string) (d : list (string * A)) : bool :=
  match dict_lookup k d with Some _ => true | None => false end.

(** *** Truth and equality *)

(** [bool(v)] *)
Definition truthy (v : pyval) : bool :=
  match v with
  | PyNone => false
  | PyBool b => b
  | PyInt n => negb (n =? 0)
  | PyFloat x => negb (PrimFloat.eqb x 0)
  | PyStr s => negb (String.eqb s "")
  | PyList l => match l with [] => false | _ => true end
  | PyDict d => match d with [] => false | _ => true end
  | PyObject _ => true
  end.

Definition int_of_bool (b : bool) : Z := if b then 1 else 0.

(** [a == b].  Numbers compare by value across [bool], [int] and [float];
    two [PyObject]s are never the same object. *)
Fixpoint py_eq (a b : pyval) {struct a} : bool :=
  match a, b with
  | PyNone, PyNone => true
  | PyBool x, PyBool y => Bool.eqb x y
  | PyBool x, PyInt n | PyInt n, PyBool x => int_of_bool x =? n
  | PyBool x, PyFloat y | PyFloat y, PyBool x => PyFloat.eq_int y (int_of_bool x)
  | PyInt n, PyInt m => n =? m
  | PyInt n, PyFloat y | PyFloat y, PyInt n => PyFloat.eq_int y n
  | PyFloat x, PyFloat y => PrimFloat.eqb x y
  | PyStr s, PyStr t => String.eqb s t
  | PyList la, PyList lb =>
      (fix all2 (la lb : list pyval) {struct la} : bool :=
         match la, lb with
         | [], [] => true
         | x :: ra, y :: rb => py_eq x y && all2 ra rb
         | _, _ => false
         end) la lb
  | PyDict da, PyDict db =>
      (length da =? length db)%nat &&
      (fix sub (da : list (string * pyval)) {struct da} : bool :=
         match da with
         | [] => true
         | (k, v) :: ra =>
             match dict_lookup k db with
             | Some w => py_eq v w
             | None => false
             end && sub ra
         end) da
  | _, _ => false
  end.

(* ===================================================================== *)
(** ** [json.dumps(v, sort_keys=True, ensure_ascii=False)] *)
(* ===================================================================== *)

Module Json.

Definition hex4 (z : Z) : string :=
  String (hex_digit (z / 4096 mod 16)) (String (hex_digit (z / 256 mod 16))
    (String (hex_digit (z / 16 mod 16)) (String (hex_digit (z mod 16)) ""))).

(** With [ensure_ascii=False] only the quote, the backslash and the control
    characters are escaped. *)
Definition escape_char (c : ascii) : string :=
  let z := byte_of c in
  if z =? 34 then String (chr 92) (String c "")
  else if z =? 92 then "\\"
  else if z =? 10 then "\n"
  else if z =? 13 then "\r"
  else if z =? 9 then "\t"
  else if z =? 8 then "\b"
  else if z =? 12 then "\f"
  else if z <? 32 then "\u" +:+ hex4 z
  else String c "".

Fixpoint escape (s : string) : string :=
  match s with
  | EmptyString => ""
  | String c r => escape_char c +:+ escape r
  end.

Definition quote (s : string) : string :=
  String (chr 34) (escape s) +:+ String (chr 34) "".

(** [sorted] on the items of a dictionary: by key, bytewise (the order of
    code points on UTF-8 text), stable. *)
Fixpoint insert_by_key {A} (x : string * A) (l : list (string * A))
  : list (string * A) :=
  match l with
  | [] => [x]
  | y :: r =>
      if String.ltb (fst x) (fst y) then x :: l else y :: insert_by_key x r
  end.

Definition sort_items {A} (l : list (string * A)) : list (string * A) :=
  fold_right insert_by_key [] l.

(** The first exception of a list of results, or all the values. *)
Fixpoint collect {A} (l : list (exn + A)) : exn + list A :=
  match l with
  | [] => inr []
  | inl e :: _ => inl e
  | inr a :: r =>
      match collect r with
      | inl e => inl e
      | inr l' => inr (a :: l')
      end
  end.

Definition member (kv : string * (exn + string)) : exn + string :=
  match snd kv with
  | inl e => inl e
  | inr s => inr (quote (fst kv) +:+ ": " +:+ s)
  end.

(** The values of a dictionary are encoded in place and the encoded items
    then sorted, which gives the text that encoding the sorted items gives. *)
Fixpoint dumps (v : pyval) : exn + string :=
  match v with
  | PyNone => inr "null"
  | PyBool b => inr (if b then "true" else "false")
  | PyInt n => inr (str_int n)
  | PyFloat x => inr (PyFloat.json_repr x)
  | PyStr s => inr (quote s)
  | PyList l =>
      match collect (map dumps l) with
      | inl e => inl e
      | inr parts => inr ("[" +:+ str_join ", " parts +:+ "]")
      end
  | PyDict d =>
      let items := map (fun kv => (fst kv, dumps (snd kv))) d in
      match collect (map member (sort_items items)) with
      | inl e => inl e
      | inr parts => inr ("{" +:+ str_join ", " parts +:+ "}")
      end
  | PyObject c =>
      inl (TypeError ("Object of type " +:+ c +:+ " is not JSON serializable"))
  end.

(** [json.dumps(v, ensure_ascii=False, indent=2)]: the keys in the order
    of the dictionary, one item per line. *)
Definition newline (level : nat) : string :=
  String (chr 10) (repeat_str "  " level).

Definition scalar (v : pyval) : exn + string :=
  match v with
  | PyNone => inr "null"
  | PyBool b => inr (if b then "true" else "false")
  | PyInt n => inr (str_int n)
  | PyFloat x => inr (PyFloat.json_repr x)
  | PyStr s => inr (quote s)
  | _ => inl (TypeError ("Object of type " +:+ type_name v
                         +:+ " is not JSON serializable"))
  end.

Definition block (opening closing : string) (level : nat) (parts : list string)
  : string :=
  match parts with
  | [] => opening +:+ closing
  | _ => opening +:+ newline (S level) +:+ str_join ("," +:+ newline (S level)) parts
         +:+ newline level +:+ closing
  end.

Fixpoint dumps_indent (level : nat) (v : pyval) : exn + string :=
  match v with
  | PyList l =>
      match collect (map (dumps_indent (S level)) l) with
      | inl e => inl e
      | inr parts => inr (block "[" "]" level parts)
      end
  | PyDict d =>
      match collect (map (fun kv => member (fst kv, dumps_indent (S level) (snd kv))) d) with
      | inl e => inl e
      | inr parts => inr (block "{" "}" level parts)
      end
  | _ => scalar v
  end.

End Json.

(* ===================================================================== *)
(** ** [datetime]: naive timestamps *)
(* ===================================================================== *)

(** A naive [datetime] is the number of microseconds since
    0001-01-01T00:00:00; a [timedelta] is a number of microseconds. *)
Module DateTime.

Definition datetime := Z.

Definition us_per_second : Z := 1000000.
Definition us_per_day : Z := 86400 * us_per_second.

Definition is_leap (y : Z) : bool :=
  (y mod 4 =? 0) && (negb (y mod 100 =? 0) || (y mod 400 =? 0)).

Definition days_before_year (y : Z) : Z :=
  let p := y - 1 in p * 365 + p / 4 - p / 100 + p / 400.

Definition days_in_month (y m : Z) : Z :=
  if m =? 2 then (if is_leap y then 29 else 28)
  else if (m =? 4) || (m =? 6) || (m =? 9) || (m =? 11) then 30
  else 31.

Definition days_before_month (y m : Z) : Z :=
  nth (Z.to_nat m) [0; 0; 31; 59; 90; 120; 151; 181; 212; 243; 273; 304; 334] 0
  + (if (2 <? m) && is_leap y then 1 else 0).

(** The proleptic Gregorian ordinal: 0001-01-01 is day 1. *)
Definition ymd2ord (y m d : Z) : Z :=
  days_before_year y + days_before_month y m + d.

Definition ord2ymd (ord : Z) : Z * Z * Z :=
  let n := ord - 1 in
  let n400 := n / 146097 in
  let n := n mod 146097 in
  let n100 := n / 36524 in
  let n := n mod 36524 in
  let n4 := n / 1461 in
  let n := n mod 1461 in
  let n1 := n / 365 in
  let n := n mod 365 in
  let year := n400 * 400 + 1 + n100 * 100 + n4 * 4 + n1 in
  if (n1 =? 4) || (n100 =? 4) then (year - 1, 12, 31)
  else
    let leapyear := (n1 =? 3) && (negb (n4 =? 24) || (n100 =? 3)) in
    let month := (n + 50) / 32 in
    let preceding :=
      days_before_month 1 month
      + (if (2 <? month) && leapyear then 1 else 0) in
    if n <? preceding then
      let month' := month - 1 in
      let preceding' :=
        preceding - (days_in_month 1 month'
                     + (if (month' =? 2) && leapyear then 1 else 0)) in
      (year, month', n - preceding' + 1)
    else (year, month, n - preceding + 1).

Definition make (y m d hh mm ss us : Z) : datetime :=
  (ymd2ord y m d - 1) * us_per_day
  + ((hh * 60 + mm) * 60 + ss) * us_per_second + us.

Definition date_of (t : datetime) : Z * Z * Z := ord2ymd (t / us_per_day + 1).
Definition hour (t : datetime) : Z := t mod us_per_day / (3600 * us_per_second).
Definition minute (t : datetime) : Z := t / (60 * us_per_second) mod 60.
Definition second (t : datetime) : Z := t / us_per_second mod 60.
Definition microsecond (t : datetime) : Z := t mod us_per_second.

(** [datetime.min] and the first instant after [datetime.max]. *)
Definition min_dt : datetime := 0.
Definition end_dt : datetime := 3652059 * us_per_day.

(** [t.date()] kept as the instant of its midnight. *)
Definition midnight (t : datetime) : datetime := t / us_per_day * us_per_day.

(** [t.strftime('%Y%m%d')] (years of four digits). *)
Definition strftime_Ymd (t : datetime) : string :=
  let '(y, m, d) := date_of t in zpad 4 y +:+ zpad 2 m +:+ zpad 2 d.

(** [t.strftime('%Y%m')] *)
Definition strftime_Ym (t : datetime) : string :=
  let '(y, m, _) := date_of t in zpad 4 y +:+ zpad 2 m.

(** [t.strftime('%Y%m%d_%H%M%S')] *)
Definition strftime_Ymd_HMS (t : datetime) : string :=
  strftime_Ymd t +:+ "_" +:+ zpad 2 (hour t) +:+ zpad 2 (minute t) +:+ zpad 2 (second t).

(** [t.strftime('%Y%m%d_%H%M%S_%f')] *)
Definition strftime_Ymd_HMS_f (t : datetime) : string :=
  strftime_Ymd_HMS t +:+ "_" +:+ zpad 6 (microsecond t).

(** [d.isoformat()] on a date. *)
Definition date_isoformat (t : datetime) : string :=
  let '(y, m, d) := date_of t in
  zpad 4 y +:+ "-" +:+ zpad 2 m +:+ "-" +:+ zpad 2 d.

(** [t.isoformat()]: the microseconds are left out when they are zero. *)
Definition isoformat (t : datetime) : string :=
  date_isoformat t +:+ "T" +:+ zpad 2 (hour t) +:+ ":" +:+ zpad 2 (minute t)
  +:+ ":" +:+ zpad 2 (second t)
  +:+ (if microsecond t =? 0 then "" else "." +:+ zpad 6 (microsecond t)).

(** [t + timedelta(...)], [delta] in microseconds. *)
Definition add (t : datetime) (delta : Z) : exn + datetime :=
  let r := t + delta in
  if (min_dt <=? r) && (r <? end_dt) then inr r
  else inl (OverflowError "date value out of range").

(** [(a - b).total_seconds()] *)
Definition total_seconds (delta : Z) : float :=
  PyFloat.truediv delta us_per_second.

(** [(a - b).total_seconds() * 1000] *)
Definition elapsed_ms (a b : datetime) : float :=
  PrimFloat.mul (total_seconds (a - b)) (PyFloat.of_Z 1000).

(** *** [datetime.fromisoformat], for the naive timestamps that every
    version of Python from 3.8 reads: [YYYY-MM-DD[*HH[:MM[:SS[.fff[fff]]]]]] *)

Definition is_digit (c : ascii) : bool :=
  let z := byte_of c in (48 <=? z) && (z <=? 57).

Fixpoint parse_digits (s : string) (acc : Z) : option Z :=
  match s with
  | EmptyString => Some acc
  | String c r =>
      if is_digit c then parse_digits r (10 * acc + (byte_of c - 48)) else None
  end.

(** [n] digits at offset [i]. *)
Definition field (s : string) (i n : nat) : option Z :=
  let f := substring i n s in
  if (String.length f =? n)%nat then parse_digits f 0 else None.

Definition char_is (s : string) (i : nat) (c : string) : bool :=
  String.eqb (substring i 1 s) c.

Definition parse_time (t : string) : option (Z * Z * Z * Z) :=
  let n := String.length t in
  hh ← field t 0 2;
  if (n =? 2)%nat then Some (hh, 0, 0, 0)
  else if negb (char_is t 2 ":") then None
  else
    mm ← field t 3 2;
    if (n =? 5)%nat then Some (hh, mm, 0, 0)
    else if negb (char_is t 5 ":") then None
    else
      ss ← field t 6 2;
      if (n =? 8)%nat then Some (hh, mm, ss, 0)
      else if negb (char_is t 8 ".") then None
      else if (n =? 12)%nat then ms ← field t 9 3; Some (hh, mm, ss, 1000 * ms)
      else if (n =? 15)%nat then us ← field t 9 6; Some (hh, mm, ss, us)
      else None.

Definition fromisoformat (s : string) : exn + datetime :=
  let bad := inl (ValueError ("Invalid isoformat string: '" +:+ s +:+ "'")) in
  let parsed :=
    y ← field s 0 4;
    m ← field s 5 2;
    d ← field s 8 2;
    if negb (char_is s 4 "-" && char_is s 7 "-") then None
    else
      '(hh, mm, ss, us) ←
        (if (String.length s =? 10)%nat then Some (0, 0, 0, 0)
         else parse_time (substring 11 (String.length s - 11) s));
      Some (y, m, d, hh, mm, ss, us) in
  match parsed with
  | Some (y, m, d, hh, mm, ss, us) =>
      if (1 <=? y) && (y <=? 9999) && (1 <=? m) && (m <=? 12)
         && (1 <=? d) && (d <=? days_in_month y m)
         && (hh <? 24) && (mm <? 60) && (ss <? 60)
      then inr (make y m d hh mm ss us)
      else bad
  | None => bad
  end.

End DateTime.

(** *** Reading Python values *)

(** [v[k]] for a string [k]. *)
Definition getitem (v : pyval) (k : string) : exn + pyval :=
  match v with
  | PyDict d =>
      match dict_lookup k d with
      | Some x => inr x
      | None => inl (KeyError k)
      end
  | PyList _ => inl (TypeError "list indices must be integers or slices, not str")
  | PyStr _ => inl (TypeError "string indices must be integers")
  | _ => inl (TypeError ("'" +:+ type_name v +:+ "' object is not subscriptable"))
  end.

(** [v.get(k, dflt)] *)
Definition get (v : pyval) (k : string) (dflt : pyval) : exn + pyval :=
  match v with
  | PyDict d => inr (default dflt (dict_lookup k d))
  | _ => inl (AttributeError ("'" +:+ type_name v +:+ "' object has no attribute 'get'"))
  end.

(** [v > x] for a float constant [x]: numbers only. *)
Definition gt_float (v : pyval) (x : float) : exn + bool :=
  match v with
  | PyBool b => inr (PyFloat.int_gt (int_of_bool b) x)
  | PyInt n => inr (PyFloat.int_gt n x)
  | PyFloat y => inr (PrimFloat.ltb x y)
  | _ => inl (TypeError ("'>' not supported between instances of '"
                         +:+ type_name v +:+ "' and 'float'"))
  end.

(** [for x in v]: the items of a list, the keys of a dictionary, the
    characters of a string (one per byte here). *)
Fixpoint chars (s : string) : list pyval :=
  match s with
  | EmptyString => []
  | String c r => PyStr (String c "") :: chars r
  end.

Definition py_iter (v : pyval) : exn + list pyval :=
  match v with
  | PyList l => inr l
  | PyDict d => inr (map (fun kv => PyStr (fst kv)) d)
  | PyStr s => inr (chars s)
  | _ => inl (TypeError ("'" +:+ type_name v +:+ "' object is not iterable"))
  end.

(** [len(v)] *)
Definition py_len (v : pyval) : exn + Z :=
  match v with
  | PyList l => inr (Z.of_nat (length l))
  | PyDict d => inr (Z.of_nat (length d))
  | PyStr s => inr (Z.of_nat (String.length s))
  | _ => inl (TypeError ("object of type '" +:+ type_name v +:+ "' has no len()"))
  end.

(** The right operand of [path / v]: a string. *)
Definition as_str (v : pyval) : exn + string :=
  match v with
  | PyStr s => inr s
  | _ => inl (TypeError ("unsupported operand type(s) for /: 'PosixPath' and '"
                         +:+ type_name v +:+ "'"))
  end.

(** [sorted] on strings. *)
Fixpoint insert_str (x : string) (l : list string) : list string :=
  match l with
  | [] => [x]
  | y :: r => if String.ltb x y then x :: l else y :: insert_str x r
  end.

Definition sorted_str (l : list string) : list string :=
  fold_right insert_str [] l.

(** [f"{n:0wd}"] *)
Definition fmt_0d (w : nat) (z : Z) : string :=
  if z <? 0 then "-" +:+ zpad (w - 1) (- z) else zpad w z.

(* ===================================================================== *)
(** ** The state and exception monad *)
(* ===================================================================== *)

(** A method runs on a state, returns a value or raises, and leaves a
    state behind in both cases: an exception undoes nothing. *)
Definition M (S A : Type) : Type := S -> (exn + A) * S.

Definition ret {S A} (a : A) : M S A := fun s => (inr a, s).

Definition raise {S A} (e : exn) : M S A := fun s => (inl e, s).

Definition bind {S A B} (m : M S A) (k : A -> M S B) : M S B :=
  fun s =>
    match m s with
    | (inr a, s') => k a s'
    | (inl e, s') => (inl e, s')
    end.

Declare Scope py_scope.
Delimit Scope py_scope with py.
Notation "'let*' x ':=' m 'in' k" := (bind m (fun x => k))
  (at level 10, x name, m at level 100, k at level 200) : py_scope.
Notation "'let*' ' x ':=' m 'in' k" := (bind m (fun x => k))
  (at level 10, x strict pattern, m at level 100, k at level 200) : py_scope.
Notation "m '>>' k" := (bind m (fun _ => k))
  (at level 100, k at level 200, right associativity) : py_scope.
Local Open Scope py_scope.

(** [try: m except Exception as e: h e] *)
Definition try_except {S A} (m : M S A) (h : exn -> M S A) : M S A :=
  fun s =>
    match m s with
    | (inr a, s') => (inr a, s')
    | (inl e, s') => h e s'
    end.

(** [try: m finally: f] *)
Definition try_finally {S A} (m : M S A) (f : M S unit) : M S A :=
  fun s =>
    match m s with
    | (r, s') =>
        match f s' with
        | (inr _, s'') => (r, s'')
        | (inl e, s'') => (inl e, s'')
        end
    end.

Definition lift {S A} (r : exn + A) : M S A := fun s => (r, s).
Definition gets {S A} (f : S -> A) : M S A := fun s => (inr (f s), s).
Definition modify {S} (f : S -> S) : M S unit := fun s => (inr tt, f s).

(** A computation on a part of the state. *)
Definition zoom {S T A} (proj : S -> T) (upd : T -> S -> S) (m : M T A) : M S A :=
  fun s => match m (proj s) with (r, t) => (r, upd t s) end.

(** [for x in l: body x] *)
Fixpoint for_each {S A} (l : list A) (body : A -> M S unit) : M S unit :=
  match l with
  | [] => ret tt
  | x :: r => body x >> for_each r body
  end.

(** A loop that appends to a list: the items that the steps add, in order. *)
Fixpoint gather {S A} (l : list A) (step : A -> M S (list pyval)) : M S (list pyval) :=
  match l with
  | [] => ret []
  | x :: r =>
      let* a := step x in
      let* b := gather r step in
      ret (a ++ b)
  end.

(** [when c: m] *)
Definition when {S} (c : bool) (m : M S unit) : M S unit :=
  if c then m else ret tt.

(** A computation that reads no state: a value or an exception. *)
Definition and_then {A B} (r : exn + A) (k : A -> exn + B) : exn + B :=
  match r with
  | inr a => k a
  | inl e => inl e
  end.

Notation "'let?' x ':=' r 'in' k" := (and_then r (fun x => k))
  (at level 10, x name, r at level 100, k at level 200) : py_scope.

(* ===================================================================== *)
(** ** The operating system: clock, codecs and files *)
(* ===================================================================== *)

Module OS.

(** A [pathlib.Path] is the list of its components, relative to the
    working directory; [[]] is the working directory itself. *)
Abbreviation path := (list string).

Inductive node : Type :=
| Dir (mtime : Z)
| File (data : string) (mtime : Z).

(** What the process sees of its environment.  [clock] gives the
    successive readings of [datetime.now()], [ticks] counts the readings
    made.  The codecs of the runtime and the [hijri_converter] package are
    functions of the environment: [None] is a raised exception.  [str_of]
    is [str(v)] for the values whose text depends on the object. *)
Record t : Type := Make {
  clock : nat -> DateTime.datetime;
  ticks : nat;
  hijri_converter : Z -> Z -> Z -> option (Z * Z * Z);
  str_of : pyval -> string;
  json_loads : string -> option pyval;
  gzip_compress : string -> string;
  gzip_decompress : string -> option string;
  pickle_dumps : list pyval -> string;
  pickle_loads : string -> option (list pyval);
  files : gmap path node
}.

Definition with_files (f : gmap path node) (w : t) : t :=
  Make (clock w) (ticks w) (hijri_converter w) (str_of w) (json_loads w)
       (gzip_compress w) (gzip_decompress w) (pickle_dumps w)
       (pickle_loads w) f.

Definition tick (w : t) : t :=
  Make (clock w) (S (ticks w)) (hijri_converter w) (str_of w) (json_loads w)
       (gzip_compress w) (gzip_decompress w) (pickle_dumps w)
       (pickle_loads w) (files w).

(** [datetime.now()] *)
Definition now : M t DateTime.datetime :=
  fun w => (inr (clock w (ticks w)), tick w).

(** The time a file written now is stamped with. *)
Definition stamp (w : t) : Z := clock w (ticks w).

(** *** Paths *)

Fixpoint split_slash (s cur : string) : list string :=
  match s with
  | EmptyString => if String.eqb cur "" then [] else [cur]
  | String c r =>
      if Ascii.eqb c "/" then
        (if String.eqb cur "" then split_slash r ""
         else cur :: split_slash r "")
      else split_slash r (cur +:+ String c "")
  end.

(** [p / s]: an absolute [s] replaces [p]. *)
Definition join_path (p : path) (s : string) : path :=
  if String.prefix "/" s then "/" :: split_slash s ""
  else p ++ split_slash s "".

Definition parent (p : path) : path := removelast p.
Definition name (p : path) : string := List.last p "".

(** The position of the last dot of a name, if any. *)
Fixpoint last_dot (s : string) (i : nat) (found : option nat) : option nat :=
  match s with
  | EmptyString => found
  | String c r => last_dot r (S i) (if Ascii.eqb c "." then Some i else found)
  end.

(** [p.stem]: the name without its last suffix. *)
Definition stem (p : path) : string :=
  let n := name p in
  match last_dot n 0 None with
  | Some (S i) => if (S (S i) <? String.length n)%nat then substring 0 (S i) n else n
  | _ => n
  end.

(** [str(p)] *)
Definition str_path (p : path) : string :=
  match p with
  | [] => "."
  | "/" :: r => "/" +:+ str_join "/" r
  | _ => str_join "/" p
  end.

Fixpoint is_prefix (p q : path) : bool :=
  match p, q with
  | [], _ => true
  | a :: p', b :: q' => String.eqb a b && is_prefix p' q'
  | _ :: _, [] => false
  end.

Definition is_suffix_str (suf s : string) : bool :=
  let n := String.length s in
  let k := String.length suf in
  (k <=? n)%nat && String.eqb (substring (n - k) k s) suf.

(** The pattern [pre*suf] of [glob]. *)
Definition glob_match (pre suf s : string) : bool :=
  String.prefix pre s && is_suffix_str suf s
  && (String.length pre + String.length suf <=? String.length s)%nat.

(** *** Reading *)

Definition lookup (fs : gmap path node) (p : path) : option node :=
  match p with
  | [] => Some (Dir 0)
  | _ => fs !! p
  end.

Definition exists_ (p : path) (w : t) : bool :=
  match lookup (files w) p with Some _ => true | None => false end.

Definition is_dir (p : path) (w : t) : bool :=
  match lookup (files w) p with Some (Dir _) => true | _ => false end.

Definition is_file (p : path) (w : t) : bool :=
  match lookup (files w) p with Some (File _ _) => true | _ => false end.

Definition no_such (p : path) : exn :=
  OSError ("[Errno 2] No such file or directory: '" +:+ str_path p +:+ "'").

(** [p.stat().st_size]; the size of a directory is not used by the code. *)
Definition st_size (p : path) : M t Z :=
  fun w =>
    match lookup (files w) p with
    | Some (File d _) => (inr (Z.of_nat (String.length d)), w)
    | Some (Dir _) => (inr 4096, w)
    | None => (inl (no_such p), w)
    end.

(** [datetime.fromtimestamp(p.stat().st_mtime)] *)
Definition st_mtime (p : path) : M t Z :=
  fun w =>
    match lookup (files w) p with
    | Some (File _ m) | Some (Dir m) => (inr m, w)
    | None => (inl (no_such p), w)
    end.

(** [open(p, 'rb').read()] *)
Definition read_bytes (p : path) : M t string :=
  fun w =>
    match lookup (files w) p with
    | Some (File d _) => (inr d, w)
    | Some (Dir _) =>
        (inl (OSError ("[Errno 21] Is a directory: '" +:+ str_path p +:+ "'")), w)
    | None => (inl (no_such p), w)
    end.

(** The entries below [p], in the order of the file system. *)
Definition descendants (p : path) (w : t) : list (path * node) :=
  filter (fun qn => bool_decide (is_prefix p qn.1 = true
                                 /\ (length p < length qn.1)%nat))
         (map_to_list (files w)).

(** [p.iterdir()] *)
Definition children (p : path) (w : t) : list path :=
  (filter (fun qn => bool_decide (length qn.1 = S (length p)))
          (descendants p w)).*1.

(** [p.glob("pre*suf")] *)
Definition glob (p : path) (pre suf : string) (w : t) : list path :=
  filter (fun q => bool_decide (glob_match pre suf (name q) = true))
         (children p w).

(** *** Writing *)

(** A new entry or a removed one stamps the directory that holds it. *)
Definition touch_parent (p : path) (now : Z) (fs : gmap path node)
  : gmap path node :=
  match parent p with
  | [] => fs
  | q => match fs !! q with
         | Some (Dir _) => <[q := Dir now]> fs
         | _ => fs
         end
  end.

Definition put_file (p : path) (data : string) (mtime : Z) (w : t)
  : (exn + unit) * t :=
  match p, lookup (files w) (parent p), lookup (files w) p with
  | [], _, _ | _, _, Some (Dir _) =>
      (inl (OSError ("[Errno 21] Is a directory: '" +:+ str_path p +:+ "'")), w)
  | _, Some (Dir _), Some (File _ _) =>
      (inr tt, with_files (<[p := File data mtime]> (files w)) w)
  | _, Some (Dir _), None =>
      (inr tt, with_files (<[p := File data mtime]>
                             (touch_parent p (stamp w) (files w))) w)
  | _, _, _ => (inl (no_such p), w)
  end.

(** [open(p, 'wb').write(data)] *)
Definition write_bytes (p : path) (data : string) : M t unit :=
  fun w => put_file p data (stamp w) w.

(** [p.mkdir(exist_ok=...)] *)
Definition mkdir (p : path) (exist_ok : bool) : M t unit :=
  fun w =>
    match lookup (files w) p, lookup (files w) (parent p) with
    | Some (Dir _), _ =>
        if exist_ok then (inr tt, w)
        else (inl (OSError ("[Errno 17] File exists: '" +:+ str_path p +:+ "'")), w)
    | Some (File _ _), _ =>
        (inl (OSError ("[Errno 17] File exists: '" +:+ str_path p +:+ "'")), w)
    | None, Some (Dir _) =>
        (inr tt, with_files (<[p := Dir (stamp w)]>
                               (touch_parent p (stamp w) (files w))) w)
    | None, _ => (inl (no_such p), w)
    end.

(** The prefixes of a path, shortest first, the path itself last. *)
Fixpoint prefixes (p : path) : list path :=
  match p with
  | [] => []
  | a :: r => [a] :: map (cons a) (prefixes r)
  end.

(** [p.mkdir(parents=True, exist_ok=True)] *)
Definition makedirs (p : path) : M t unit :=
  for_each (prefixes p) (fun q => mkdir q true).

(** [shutil.copy2(src, dst)]: into [dst] when it is a directory; the
    modification time goes with the data. *)
Definition copy2 (src dst : path) : M t unit :=
  fun w =>
    match lookup (files w) src with
    | Some (File d m) =>
        let target := if is_dir dst w then dst ++ [name src] else dst in
        put_file target d m w
    | Some (Dir _) =>
        (inl (OSError ("[Errno 21] Is a directory: '" +:+ str_path src +:+ "'")), w)
    | None => (inl (no_such src), w)
    end.

(** One entry of a tree copied under [dst]; [rel] is its path below the
    source.  A failure is remembered and the copy goes on. *)
Definition copy_entry (dst : path) (failed : bool) (rel : path) (n : node)
  : M t bool :=
  fun w =>
    let r := match n with
             | Dir _ => mkdir (dst ++ rel) true w
             | File d m => put_file (dst ++ rel) d m w
             end in
    match r with
    | (inr _, w') => (inr failed, w')
    | (inl _, w') => (inr true, w')
    end.

Fixpoint copy_entries (src dst : path) (l : list (path * node)) (failed : bool)
  : M t bool :=
  match l with
  | [] => ret failed
  | (q, n) :: r =>
      let* failed' := copy_entry dst failed (skipn (length src) q) n in
      copy_entries src dst r failed'
  end.

(** Parents come before what they hold. *)
Definition by_depth (l : list (path * node)) : list (path * node) :=
  flat_map (fun k => filter (fun qn => bool_decide (length qn.1 = k)) l)
           (seq 0 (S (foldr (fun qn m => Nat.max (length qn.1) m) O l))).

(** [shutil.copytree(src, dst, dirs_exist_ok=...)]: what cannot be copied
    is reported once the rest is copied. *)
Definition copytree (src dst : path) (dirs_exist_ok : bool) : M t unit :=
  let* w := gets id in
  if negb (is_dir src w) then
    raise (OSError ("[Errno 20] Not a directory: '" +:+ str_path src +:+ "'"))
  else
    makedirs (parent dst) >>
    mkdir dst dirs_exist_ok >>
    let* failed := copy_entries src dst (by_depth (descendants src w)) false in
    if failed then raise (OSError "shutil.Error") else ret tt.

(** [shutil.rmtree(p)] *)
Definition rmtree (p : path) : M t unit :=
  fun w =>
    match p, lookup (files w) p with
    | _ :: _, Some (Dir _) =>
        let fs := filter (fun qn => negb (is_prefix p qn.1)) (files w) in
        (inr tt, with_files (touch_parent p (stamp w) fs) w)
    | _, Some _ =>
        (inl (OSError ("[Errno 20] Not a directory: '" +:+ str_path p +:+ "'")), w)
    | _, None => (inl (no_such p), w)
    end.

(** [p.unlink()] *)
Definition unlink (p : path) : M t unit :=
  fun w =>
    match lookup (files w) p with
    | Some (File _ _) =>
        (inr tt, with_files (touch_parent p (stamp w) (delete p (files w))) w)
    | Some (Dir _) =>
        (inl (OSError ("[Errno 21] Is a directory: '" +:+ str_path p +:+ "'")), w)
    | None => (inl (no_such p), w)
    end.

(** *** Codecs on files *)

(** [json.load(open(p, 'r', encoding='utf-8'))] *)
Definition json_load (p : path) : M t pyval :=
  let* text := read_bytes p in
  let* w := gets id in
  match json_loads w text with
  | Some v => ret v
  | None => raise (ValueError "Expecting value")
  end.

(** [gzip.open(p, 'rb').read()] *)
Definition gzip_read (p : path) : M t string :=
  let* data := read_bytes p in
  let* w := gets id in
  match gzip_decompress w data with
  | Some d => ret d
  | None => raise (OSError "Not a gzipped file")
  end.

(** [pickle.load(gzip.open(p, 'rb'))] *)
Definition pickle_gz_load (p : path) : M t (list pyval) :=
  let* data := gzip_read p in
  let* w := gets id in
  match pickle_loads w data with
  | Some v => ret v
  | None => raise (Exception "could not unpickle")
  end.

(** [pickle.dump(chain, gzip.open(p, 'wb'))] *)
Definition pickle_gz_dump (p : path) (chain : list pyval) : M t unit :=
  let* w := gets id in
  write_bytes p (gzip_compress w (pickle_dumps w chain)).

(** [json.dump(v, open(p, 'w', encoding='utf-8'), ensure_ascii=False,
    indent=2)]: the file is opened, and emptied, before the value is
    encoded. *)
Definition json_dump (p : path) (v : pyval) : M t unit :=
  match Json.dumps_indent 0 v with
  | inr text => write_bytes p text
  | inl e => write_bytes p "" >> raise e
  end.

End OS.

(* ===================================================================== *)
(** ** [utils/hijri.py] and [api/errors.py]: what the ledger calls *)
(* ===================================================================== *)

(** [str(v)] as an f-string prints it. *)
Definition py_str (w : OS.t) (v : pyval) : string :=
  match v with
  | PyStr s => s
  | PyInt n => str_int n
  | PyFloat x => PyFloat.repr x
  | PyBool b => if b then "True" else "False"
  | PyNone => "None"
  | _ => OS.str_of w v
  end.

(** The Hijri date of an instant as [get_hijri_date] writes it, and
    ["1445-01-01"] when the conversion raises. *)
Definition hijri_text (w : OS.t) (t : DateTime.datetime) : string :=
  let '(y, m, d) := DateTime.date_of t in
  match OS.hijri_converter w y m d with
  | Some (hy, hm, hd) => fmt_0d 4 hy +:+ "-" +:+ fmt_0d 2 hm +:+ "-" +:+ fmt_0d 2 hd
  | None => "1445-01-01"
  end.

(** [get_hijri_date()]: today's date. *)
Definition get_hijri_date : M OS.t string :=
  let* t := OS.now in
  let* w := gets id in
  ret (hijri_text w t).

Module Errors.

Definition HELPDESK_INFO_ar : pyval :=
  PyDict [("phone", PyStr "920003344");
          ("email", PyStr "support@moc.gov.sa");
          ("hours", PyStr "الأحد - الخميس: 8:00 ص - 4:00 م");
          ("emergency", PyStr "966114567890")].

Definition HELPDESK_INFO_en : pyval :=
  PyDict [("phone", PyStr "920003344");
          ("email", PyStr "support@moc.gov.sa");
          ("hours", PyStr "Sunday - Thursday: 8:00 AM - 4:00 PM");
          ("emergency", PyStr "966114567890")].

(** [create_error_response(message_ar, message_en, error_code=...,
    additional_data=..., include_helpdesk=True)], with no
    [error_details]. *)
Definition create_error_response (message_ar message_en error_code : string)
    (additional_data : list (string * pyval)) : M OS.t pyval :=
  let* hijri := get_hijri_date in
  let* t := OS.now in
  let r := [("error", PyBool true);
            ("timestamp_hijri", PyStr hijri);
            ("timestamp_gregorian", PyStr (DateTime.isoformat t));
            ("message", PyDict [("ar", PyStr message_ar);
                                ("en", PyStr message_en)])] in
  let r := if truthy (PyStr error_code)
           then dict_set "error_code" (PyStr error_code) r else r in
  let r := if truthy (PyDict additional_data)
           then dict_set "context" (PyDict additional_data) r else r in
  let* t_ar := OS.now in
  let* t_en := OS.now in
  let r := dict_set "helpdesk"
             (PyDict
                [("ar", PyDict
                    [("message", PyStr "للحصول على الدعم التقني، يرجى التواصل مع:");
                     ("contact", HELPDESK_INFO_ar);
                     ("reference_id",
                      PyStr ("ERR_" +:+ DateTime.strftime_Ymd_HMS t_ar))]);
                 ("en", PyDict
                    [("message", PyStr "For technical support, please contact:");
                     ("contact", HELPDESK_INFO_en);
                     ("reference_id",
                      PyStr ("ERR_" +:+ DateTime.strftime_Ymd_HMS t_en))])]) r in
  ret (PyDict (dict_set "compliance"
                 (PyDict [("regulation", PyStr "Vision 2030 - Digital Transformation");
                          ("authority", PyStr "NAZAHA / Ministry of Commerce");
                          ("retention_period", PyStr "7 years");
                          ("classification", PyStr "Government Internal Use")]) r)).

(** [SaudiGovernmentErrorHandler.handle_chain_corruption] *)
Definition handle_chain_corruption (corruption_details : pyval) : M OS.t pyval :=
  let* t := OS.now in
  create_error_response
    "تم اكتشاف تلف في سلسلة التدقيق"
    "Audit chain corruption detected"
    "CHAIN_CORRUPTION"
    [("severity", PyStr "CRITICAL");
     ("immediate_action", PyStr "System quarantine initiated");
     ("backup_restore", PyStr "Automatic recovery in progress");
     ("corruption_details", corruption_details);
     ("escalation", PyStr "Security team notified");
     ("investigation_id", PyStr ("INV_" +:+ DateTime.strftime_Ymd_HMS t))].

End Errors.

(* ===================================================================== *)
(** ** [audit/core.py]: [HashChainedLedger] *)
(* ===================================================================== *)

Module Ledger.

(** The attributes of the object.  [backup_tasks] counts the tasks that
    [asyncio.create_task(self._backup_chain())] has created and the event
    loop has not run yet. *)
Record HashChainedLedger : Type := MakeLedger {
  data_dir : OS.path;
  genesis_hash : string;
  retention_years : Z;
  backup_interval_hours : Z;
  max_append_time_ms : Z;
  max_verification_time_ms : Z;
  chain : list pyval;
  chain_index : gmap string nat;
  _last_backup : DateTime.datetime;
  _corruption_checks_enabled : bool;
  backup_tasks : nat
}.

(** A method runs on the object and the operating system. *)
Record world : Type := World { os : OS.t; self : HashChainedLedger }.

Definition sys {A} (m : M OS.t A) : M world A :=
  zoom os (fun o w => World o (self w)) m.

Definition update (f : HashChainedLedger -> HashChainedLedger) : M world unit :=
  modify (fun w => World (os w) (f (self w))).

Definition set_chain (c : list pyval) (ix : gmap string nat)
    (l : HashChainedLedger) : HashChainedLedger :=
  MakeLedger (data_dir l) (genesis_hash l) (retention_years l)
    (backup_interval_hours l) (max_append_time_ms l)
    (max_verification_time_ms l) c ix (_last_backup l)
    (_corruption_checks_enabled l) (backup_tasks l).

Definition set_last_backup (t : DateTime.datetime) (l : HashChainedLedger)
  : HashChainedLedger :=
  MakeLedger (data_dir l) (genesis_hash l) (retention_years l)
    (backup_interval_hours l) (max_append_time_ms l)
    (max_verification_time_ms l) (chain l) (chain_index l) t
    (_corruption_checks_enabled l) (backup_tasks l).

Definition set_corruption_checks_enabled (b : bool) (l : HashChainedLedger)
  : HashChainedLedger :=
  MakeLedger (data_dir l) (genesis_hash l) (retention_years l)
    (backup_interval_hours l) (max_append_time_ms l)
    (max_verification_time_ms l) (chain l) (chain_index l) (_last_backup l)
    b (backup_tasks l).

Definition set_backup_tasks (n : nat) (l : HashChainedLedger)
  : HashChainedLedger :=
  MakeLedger (data_dir l) (genesis_hash l) (retention_years l)
    (backup_interval_hours l) (max_append_time_ms l)
    (max_verification_time_ms l) (chain l) (chain_index l) (_last_backup l)
    (_corruption_checks_enabled l) n.

(** *** Private methods *)

(** [_generate_entry_id] *)
Definition _generate_entry_id (entry_data : list (string * pyval)) : M world string :=
  let* t := sys OS.now in
  let* w := gets os in
  let timestamp := DateTime.strftime_Ymd_HMS_f t in
  let user_id := default (PyStr "SYSTEM") (dict_lookup "user_id" entry_data) in
  let decision_type := default (PyStr "UNKNOWN") (dict_lookup "decision_type" entry_data) in
  ret (py_str w decision_type +:+ "_" +:+ py_str w user_id +:+ "_" +:+ timestamp).

(** [_get_latest_hash] *)
Definition _get_latest_hash : M world pyval :=
  let* me := gets self in
  match last (chain me) with
  | None => ret (PyStr (genesis_hash me))
  | Some entry => lift (getitem entry "hash")
  end.

(** [_calculate_hash(entry, exclude_hash)].  Only a dictionary gets through
    [entry.copy()], the membership test and [del]. *)
Definition _calculate_hash (entry : pyval) (exclude_hash : bool) : exn + string :=
  match entry with
  | PyDict d =>
      let entry_copy :=
        if exclude_hash && dict_mem "hash" d then dict_del "hash" d else d in
      match Json.dumps (PyDict entry_copy) with
      | inr entry_json => inr (SHA256.hexdigest entry_json)
      | inl e => inl e
      end
  | PyList _ => inl (TypeError "list indices must be integers or slices, not str")
  | _ => inl (AttributeError ("'" +:+ type_name entry
                              +:+ "' object has no attribute 'copy'"))
  end.

(** [_should_backup] *)
Definition _should_backup : M world bool :=
  let* t := sys OS.now in
  let* me := gets self in
  ret (backup_interval_hours me * 3600 * DateTime.us_per_second
       <? t - _last_backup me).

(** [_cleanup_old_backups]: the cutoff date is computed outside the [try];
    a backup that cannot be removed is reported and left. *)
Definition _cleanup_old_backups : M world unit :=
  let* t := sys OS.now in
  let* cutoff_date := lift (DateTime.add t (- (30 * DateTime.us_per_day))) in
  let* me := gets self in
  let* w := gets os in
  for_each (OS.glob (data_dir me) "audit_chain_backup_" ".pkl.gz" w)
    (fun backup_file =>
       try_except
         (let* file_date := sys (OS.st_mtime backup_file) in
          when (file_date <? cutoff_date) (sys (OS.unlink backup_file)))
         (fun _ => ret tt)).

(** [_backup_chain]: a failure is printed, not raised. *)
Definition _backup_chain : M world unit :=
  try_except
    (let* t := sys OS.now in
     let* me := gets self in
     let backup_file :=
       OS.join_path (data_dir me)
         ("audit_chain_backup_" +:+ DateTime.strftime_Ymd_HMS t +:+ ".pkl.gz") in
     sys (OS.pickle_gz_dump backup_file (chain me)) >>
     sys (OS.pickle_gz_dump (OS.join_path (data_dir me) "audit_chain.pkl.gz")
            (chain me)) >>
     let* t' := sys OS.now in
     update (set_last_backup t') >>
     _cleanup_old_backups)
    (fun _ => ret tt).

(** The index of a loaded chain: [chain_index[entry["id"]] = i].  The ids
    are strings, as [append_entry] writes them. *)
Fixpoint rebuild_index (i : nat) (entries : list pyval) (ix : gmap string nat)
  : exn + gmap string nat :=
  match entries with
  | [] => inr ix
  | entry :: r =>
      match getitem entry "id" with
      | inr (PyStr k) => rebuild_index (S i) r (<[k := i]> ix)
      | inr v => inl (TypeError ("unhashable type: '" +:+ type_name v +:+ "'"))
      | inl e => inl e
      end
  end.

(** [_load_existing_chain]: a chain file that cannot be read leaves an
    empty chain. *)
Definition _load_existing_chain : M world unit :=
  let* me := gets self in
  let* w := gets os in
  let chain_file := OS.join_path (data_dir me) "audit_chain.pkl.gz" in
  if OS.exists_ chain_file w then
    try_except
      (let* c := sys (OS.pickle_gz_load chain_file) in
       update (set_chain c ∅) >>
       let* ix := lift (rebuild_index 0 c ∅) in
       update (set_chain c ix))
      (fun _ => update (set_chain [] ∅))
  else ret tt.

(** The object that a constructor leaves behind. *)
Definition construct (l0 : HashChainedLedger) (body : M world unit)
  : M OS.t HashChainedLedger :=
  fun o =>
    match body (World o l0) with
    | (inr _, w) => (inr (self w), os w)
    | (inl e, w) => (inl e, os w)
    end.

(** [HashChainedLedger(data_dir)] *)
Definition __init__ (dir : string) : M OS.t HashChainedLedger :=
  let d := OS.join_path [] dir in
  OS.mkdir d true >>
  construct (MakeLedger d "SAUDI_AI_AUDIT_GENESIS_2024" 7 4 50 3000 [] ∅ 0 true O)
    (_load_existing_chain >>
     let* t := sys OS.now in
     update (set_last_backup t)).

(** [_handle_corruption] *)
Definition _handle_corruption (corrupted_entries : list pyval) : M world unit :=
  let* t := sys OS.now in
  let* me := gets self in
  let corruption_details :=
    PyDict [("detected_at", PyStr (DateTime.isoformat t));
            ("corrupted_count", PyInt (Z.of_nat (length corrupted_entries)));
            ("total_entries", PyInt (Z.of_nat (length (chain me))));
            ("corruption_entries", PyList corrupted_entries)] in
  let* error_response := sys (Errors.handle_chain_corruption corruption_details) in
  let* t' := sys OS.now in
  let corruption_file :=
    OS.join_path (data_dir me)
      ("corruption_report_" +:+ DateTime.strftime_Ymd_HMS t' +:+ ".json") in
  sys (OS.json_dump corruption_file error_response) >>
  update (set_corruption_checks_enabled false).

(** *** [append_entry] *)

Definition append_entry (entry_data : list (string * pyval)) : M world string :=
  let* start_time := sys OS.now in
  try_except
    (let* entry_id := _generate_entry_id entry_data in
     let* previous_hash := _get_latest_hash in
     let* t := sys OS.now in
     let* hijri := sys get_hijri_date in
     let* me := gets self in
     let* t' := sys OS.now in
     let* until :=
       lift (DateTime.add t' (365 * retention_years me * DateTime.us_per_day)) in
     let complete_entry :=
       [("id", PyStr entry_id);
        ("data", PyDict entry_data);
        ("timestamp", PyStr (DateTime.isoformat t));
        ("timestamp_hijri", PyStr hijri);
        ("previous_hash", previous_hash);
        ("hash", PyNone);
        ("chain_position", PyInt (Z.of_nat (length (chain me))));
        ("retention_until", PyStr (DateTime.isoformat until))] in
     let* h := lift (_calculate_hash (PyDict complete_entry) false) in
     let complete_entry := dict_set "hash" (PyStr h) complete_entry in
     update (fun l => set_chain (chain l ++ [PyDict complete_entry])
                        (<[entry_id := length (chain l)]> (chain_index l)) l) >>
     let* _ := sys OS.now in
     let* due := _should_backup in
     when due (update (fun l => set_backup_tasks (S (backup_tasks l)) l)) >>
     ret entry_id)
    (fun e =>
       let* t := sys OS.now in
       raise (Exception ("Chain append failed after "
                         +:+ PyFloat.repr (DateTime.elapsed_ms t start_time)
                         +:+ "ms: " +:+ str_exn e))).

(** *** [verify_chain_integrity] *)

(** The hash check of one entry of the loop: the record that it adds to
    [corrupted_entries], if any. *)
Definition check_hash (i : nat) (entry : pyval) : exn + option pyval :=
  let? expected_hash := _calculate_hash entry true in
  let? actual_hash := getitem entry "hash" in
  if negb (py_eq actual_hash (PyStr expected_hash)) then
    let? entry_id := getitem entry "id" in
    inr (Some (PyDict [("position", PyInt (Z.of_nat i));
                       ("entry_id", entry_id);
                       ("expected_hash", PyStr expected_hash);
                       ("actual_hash", actual_hash)]))
  else inr None.

(** The linkage check of one entry; [previous_entry] is [chain[i-1]],
    absent for the first entry. *)
Definition check_link (i : nat) (previous_entry : option pyval) (entry : pyval)
  : exn + option pyval :=
  match previous_entry with
  | None => inr None
  | Some previous =>
      let? link := getitem entry "previous_hash" in
      let? previous_hash := getitem previous "hash" in
      if negb (py_eq link previous_hash) then
        let? entry_id := getitem entry "id" in
        inr (Some (PyDict [("position", PyInt (Z.of_nat i));
                           ("entry_id", entry_id);
                           ("chain_link_broken", PyBool true)]))
      else inr None
  end.

Definition found_any (r : option pyval) : bool :=
  match r with Some _ => true | None => false end.

(** The loop over the chain: either the result that the time check
    returns early, or [corruption_found] and [corrupted_entries]. *)
Fixpoint verify_loop (start_time : DateTime.datetime) (i : nat)
    (previous_entry : option pyval) (entries : list pyval)
    (corruption_found : bool) (corrupted_entries : list pyval)
  : M world (pyval + bool * list pyval) :=
  match entries with
  | [] => ret (inr (corruption_found, corrupted_entries))
  | entry :: rest =>
      let* bad_hash := lift (check_hash i entry) in
      let* bad_link := lift (check_link i previous_entry entry) in
      let found := corruption_found || found_any bad_hash || found_any bad_link in
      let corrupted :=
        corrupted_entries ++ option_list bad_hash ++ option_list bad_link in
      let* t := sys OS.now in
      let* me := gets self in
      let elapsed_ms := DateTime.elapsed_ms t start_time in
      if PyFloat.gt_int elapsed_ms (max_verification_time_ms me) then
        ret (inl (PyDict [("valid", PyBool false);
                          ("error", PyStr "Verification timeout");
                          ("partial_verification", PyBool true);
                          ("entries_checked", PyInt (Z.of_nat i + 1));
                          ("verification_time_ms", PyFloat elapsed_ms)]))
      else verify_loop start_time (S i) (Some entry) rest found corrupted
  end.

(** [1.0 - (corrupted / total)] *)
Definition integrity_score (corrupted total : nat) : float :=
  PrimFloat.sub 1 (PyFloat.truediv (Z.of_nat corrupted) (Z.of_nat total)).

Definition verify_chain_integrity : M world pyval :=
  let* start_time := sys OS.now in
  try_except
    (let* me := gets self in
     match chain me with
     | [] =>
         ret (PyDict [("valid", PyBool true);
                      ("entries_count", PyInt 0);
                      ("integrity_score", PyFloat 1);
                      ("verification_time_ms", PyInt 0)])
     | _ =>
         let* r := verify_loop start_time 0 None (chain me) false [] in
         match r with
         | inl timed_out => ret timed_out
         | inr (corruption_found, corrupted_entries) =>
             let* t := sys OS.now in
             let elapsed_ms := DateTime.elapsed_ms t start_time in
             let result :=
               PyDict [("valid", PyBool (negb corruption_found));
                       ("entries_count", PyInt (Z.of_nat (length (chain me))));
                       ("integrity_score",
                        PyFloat (integrity_score (length corrupted_entries)
                                                 (length (chain me))));
                       ("verification_time_ms", PyFloat elapsed_ms);
                       ("corrupted_entries",
                        PyList (if corruption_found then corrupted_entries else []))] in
             when corruption_found (_handle_corruption corrupted_entries) >>
             ret result
         end
     end)
    (fun e =>
       let* t := sys OS.now in
       ret (PyDict [("valid", PyBool false);
                    ("error", PyStr (str_exn e));
                    ("verification_time_ms",
                     PyFloat (DateTime.elapsed_ms t start_time))])).

(** *** [verify_range] *)

(** [datetime.fromisoformat(entry["timestamp"])] *)
Definition entry_date (entry : pyval) : exn + DateTime.datetime :=
  let? ts := getitem entry "timestamp" in
  match ts with
  | PyStr s => DateTime.fromisoformat s
  | _ => inl (TypeError "fromisoformat: argument must be str")
  end.

(** The test of the first loop: does the entry go to [matching_entries]? *)
Definition in_range (start_date end_date : DateTime.datetime)
    (decision_type : option string) (entry : pyval) : exn + bool :=
  let? d := entry_date entry in
  if (start_date <=? d) && (d <=? end_date) then
    match decision_type with
    | None => inr true
    | Some wanted =>
        let? data := getitem entry "data" in
        let? dt := get data "decision_type" PyNone in
        inr (py_eq dt (PyStr wanted))
    end
  else inr false.

Fixpoint matching (start_date end_date : DateTime.datetime)
    (decision_type : option string) (entries : list pyval) : exn + list pyval :=
  match entries with
  | [] => inr []
  | entry :: rest =>
      let? keep := in_range start_date end_date decision_type entry in
      let? more := matching start_date end_date decision_type rest in
      inr (if keep then entry :: more else more)
  end.

(** The body of the second loop. *)
Definition range_check (entry : pyval) : exn + option pyval :=
  let? expected_hash := _calculate_hash entry true in
  let? actual_hash := getitem entry "hash" in
  if negb (py_eq actual_hash (PyStr expected_hash)) then
    let? entry_id := getitem entry "id" in
    let? ts := getitem entry "timestamp" in
    inr (Some (PyDict [("entry_id", entry_id);
                       ("timestamp", ts);
                       ("expected_hash", PyStr expected_hash);
                       ("actual_hash", actual_hash)]))
  else inr None.

Fixpoint range_loop (entries : list pyval) : exn + list pyval :=
  match entries with
  | [] => inr []
  | entry :: rest =>
      let? bad := range_check entry in
      let? more := range_loop rest in
      inr (option_list bad ++ more)
  end.

Definition optional_str (o : option string) : pyval :=
  match o with Some s => PyStr s | None => PyNone end.

Definition verify_range_of (entries : list pyval)
    (start_date end_date : DateTime.datetime) (decision_type : option string)
  : exn + pyval :=
  let? matching_entries := matching start_date end_date decision_type entries in
  let? corrupted_entries := range_loop matching_entries in
  let corruption_found := match corrupted_entries with [] => false | _ => true end in
  inr (PyDict
         [("valid", PyBool (negb corruption_found));
          ("entries_count", PyInt (Z.of_nat (length matching_entries)));
          ("integrity_score",
           PyFloat (integrity_score (length corrupted_entries)
                                    (Nat.max (length matching_entries) 1)));
          ("corrupted_entries", PyList corrupted_entries);
          ("date_range",
           PyDict [("start", PyStr (DateTime.isoformat start_date));
                   ("end", PyStr (DateTime.isoformat end_date));
                   ("decision_type", optional_str decision_type)])]).

Definition verify_range (start_date end_date : DateTime.datetime)
    (decision_type : option string) : M world pyval :=
  let* me := gets self in
  lift (verify_range_of (chain me) start_date end_date decision_type).

(** *** [log_bias_alert] *)

Definition log_bias_alert (entry_id : string) (bias_result : list (string * pyval))
  : M world unit :=
  let* t := sys OS.now in
  let* confidence := lift (getitem (PyDict bias_result) "confidence") in
  let* high := lift (gt_float confidence 0x1.999999999999ap-1) in
  let* t' := sys OS.now in
  let alert_entry :=
    [("id", PyStr ("BIAS_ALERT_" +:+ DateTime.strftime_Ymd_HMS t));
     ("alert_type", PyStr "bias_detection");
     ("related_entry", PyStr entry_id);
     ("bias_details", PyDict bias_result);
     ("severity", PyStr (if high then "HIGH" else "MEDIUM"));
     ("regulatory_notification", PyBool true);
     ("timestamp", PyStr (DateTime.isoformat t'))] in
  append_entry alert_entry >> ret tt.

(** [get_latest_hash] *)
Definition get_latest_hash : M world pyval := _get_latest_hash.

End Ledger.

(* ===================================================================== *)
(** ** [audit/backup.py]: [AutomatedBackupSystem] *)
(* ===================================================================== *)

Module Backup.

Record AutomatedBackupSystem : Type := MakeBackup {
  primary_data_dir : OS.path;
  backup_base_dir : OS.path;
  remote_backup_dir : option OS.path;
  daily_backup_dir : OS.path;
  monthly_backup_dir : OS.path;
  yearly_backup_dir : OS.path;
  yearly_retention_years : Z;
  last_backup_time : option DateTime.datetime;
  backup_status : string;
  backup_errors : list pyval;
  is_running : bool;
  max_backup_time_seconds : Z
}.

Record world : Type := World { os : OS.t; self : AutomatedBackupSystem }.

Definition sys {A} (m : M OS.t A) : M world A :=
  zoom os (fun o w => World o (self w)) m.

Definition update (f : AutomatedBackupSystem -> AutomatedBackupSystem)
  : M world unit :=
  modify (fun w => World (os w) (f (self w))).

Definition set_status (t : option DateTime.datetime) (status : string)
    (errors : list pyval) (b : AutomatedBackupSystem) : AutomatedBackupSystem :=
  MakeBackup (primary_data_dir b) (backup_base_dir b) (remote_backup_dir b)
    (daily_backup_dir b) (monthly_backup_dir b) (yearly_backup_dir b)
    (yearly_retention_years b) t status errors (is_running b)
    (max_backup_time_seconds b).

(** [AutomatedBackupSystem(primary_data_dir, backup_base_dir,
    remote_backup_dir)] *)
Definition __init__ (primary base : string) (remote : option string)
  : M OS.t AutomatedBackupSystem :=
  let b := OS.join_path [] base in
  OS.mkdir b true >>
  OS.mkdir (OS.join_path b "daily") true >>
  OS.mkdir (OS.join_path b "monthly") true >>
  OS.mkdir (OS.join_path b "yearly") true >>
  ret (MakeBackup (OS.join_path [] primary) b (OS.join_path [] <$> remote)
         (OS.join_path b "daily") (OS.join_path b "monthly")
         (OS.join_path b "yearly") 7 None "initialized" [] false 300).

(** *** What a backup copies.  Each step returns the items that it adds to
    [manifest["files_backed_up"]]. *)

Definition file_item (original backup : string) (size : Z) (compressed : bool)
    (kind : string) : pyval :=
  PyDict [("original_filename", PyStr original);
          ("backup_filename", PyStr backup);
          ("file_size", PyInt size);
          ("compressed", PyBool compressed);
          ("file_type", PyStr kind)].

(** [_backup_audit_chain] *)
Definition _backup_audit_chain (backup_dir : OS.path) : M world (list pyval) :=
  let* me := gets self in
  let* w := gets os in
  let source_file := OS.join_path (primary_data_dir me) "audit_chain.pkl.gz" in
  if OS.exists_ source_file w then
    sys (OS.copy2 source_file (OS.join_path backup_dir "audit_chain.pkl.gz")) >>
    let* size := sys (OS.st_size source_file) in
    ret [file_item "audit_chain.pkl.gz" "audit_chain.pkl.gz" size true "audit_chain"]
  else ret [].

(** One configuration file of [_backup_configurations]. *)
Definition backup_configuration (backup_dir : OS.path) (config_file : string)
  : M world (list pyval) :=
  let* me := gets self in
  let* w := gets os in
  let source_path := OS.join_path (OS.parent (primary_data_dir me)) config_file in
  if OS.exists_ source_path w then
    sys (OS.copy2 source_path (OS.join_path backup_dir ("config_" +:+ config_file))) >>
    let* size := sys (OS.st_size source_path) in
    ret [file_item config_file ("config_" +:+ config_file) size false "configuration"]
  else ret [].

(** [_backup_configurations] *)
Definition _backup_configurations (backup_dir : OS.path) : M world (list pyval) :=
  gather ["config.json"; "settings.ini"; ".env"] (backup_configuration backup_dir).

(** [_backup_reports_templates] *)
Definition _backup_reports_templates (backup_dir : OS.path) : M world (list pyval) :=
  let* me := gets self in
  let* w := gets os in
  let templates_dir := OS.join_path (OS.parent (primary_data_dir me)) "templates" in
  if OS.exists_ templates_dir w then
    let backup_templates_dir := OS.join_path backup_dir "templates" in
    sys (OS.copytree templates_dir backup_templates_dir true) >>
    let* w' := gets os in
    let template_files := OS.descendants backup_templates_dir w' in
    ret [PyDict [("original_filename", PyStr "templates/");
                 ("backup_filename", PyStr "templates/");
                 ("files_count",
                  PyInt (Z.of_nat (length (filter (fun qn => OS.is_file qn.1 w' = true)
                                                  template_files))));
                 ("compressed", PyBool false);
                 ("file_type", PyStr "templates")]]
  else ret [].

(** One log file of [_backup_logs]. *)
Definition backup_log (backup_logs_dir log_file : OS.path) : M world (list pyval) :=
  let compressed_log := OS.join_path backup_logs_dir (OS.stem log_file +:+ ".log.gz") in
  let* data := sys (OS.read_bytes log_file) in
  let* w := gets os in
  sys (OS.write_bytes compressed_log (OS.gzip_compress w data)) >>
  let* size := sys (OS.st_size log_file) in
  ret [file_item ("logs/" +:+ OS.name log_file)
                 ("logs/" +:+ OS.stem log_file +:+ ".log.gz") size true "logs"].

(** [_backup_logs] *)
Definition _backup_logs (backup_dir : OS.path) : M world (list pyval) :=
  let* me := gets self in
  let* w := gets os in
  let logs_dir := OS.join_path (primary_data_dir me) "logs" in
  if OS.exists_ logs_dir w then
    let backup_logs_dir := OS.join_path backup_dir "logs" in
    sys (OS.mkdir backup_logs_dir true) >>
    gather (OS.glob logs_dir "" ".log" w) (backup_log backup_logs_dir)
  else ret [].

(** *** [_verify_backup] *)

(** The loop over the manifest: the names of the missing files and of the
    empty ones. *)
Fixpoint verify_files (backup_dir : OS.path) (items : list pyval) (w : OS.t)
  : exn + list pyval * list pyval :=
  match items with
  | [] => inr ([], [])
  | file_info :: rest =>
      let? backup_filename := getitem file_info "backup_filename" in
      let? fname := as_str backup_filename in
      let backup_file_path := OS.join_path backup_dir fname in
      let? here :=
        (if negb (OS.exists_ backup_file_path w) then inr ([backup_filename], [])
         else
           let? actual_size := fst (OS.st_size backup_file_path w) in
           inr ([], if actual_size =? 0 then [backup_filename] else [])) in
      let? more := verify_files backup_dir rest w in
      inr (here.1 ++ more.1, here.2 ++ more.2)
  end.

Definition _verify_backup (backup_dir : OS.path) : M world pyval :=
  try_except
    (let* w := gets os in
     let manifest_file := OS.join_path backup_dir "backup_manifest.json" in
     if negb (OS.exists_ manifest_file w) then
       ret (PyDict [("valid", PyBool false);
                    ("error", PyStr "Manifest file missing")])
     else
       let* manifest := sys (OS.json_load manifest_file) in
       let* listed := lift (get manifest "files_backed_up" (PyList [])) in
       let* items := lift (py_iter listed) in
       let* '(missing_files, corrupted_files) := lift (verify_files backup_dir items w) in
       let is_valid :=
         match missing_files, corrupted_files with
         | [], [] => true
         | _, _ => false
         end in
       let* files_checked := lift (py_len listed) in
       let* t := sys OS.now in
       ret (PyDict [("valid", PyBool is_valid);
                    ("files_checked", PyInt files_checked);
                    ("missing_files", PyList missing_files);
                    ("corrupted_files", PyList corrupted_files);
                    ("verification_time", PyStr (DateTime.isoformat t))]))
    (fun e =>
       let* t := sys OS.now in
       ret (PyDict [("valid", PyBool false);
                    ("error", PyStr (str_exn e));
                    ("verification_time", PyStr (DateTime.isoformat t))])).

(** [_find_backup]: the daily backups, then each monthly archive, then each
    yearly one. *)
Definition _find_backup (backup_id : string) (b : AutomatedBackupSystem) (w : OS.t)
  : option OS.path :=
  let daily_backup := OS.join_path (daily_backup_dir b) backup_id in
  if OS.exists_ daily_backup w then Some daily_backup
  else
    let inside archive_dir := OS.join_path archive_dir backup_id in
    match filter (fun d => OS.exists_ (inside d) w = true)
                 (OS.glob (monthly_backup_dir b) "" "" w) with
    | d :: _ => Some (inside d)
    | [] =>
        match filter (fun d => OS.exists_ (inside d) w = true)
                     (OS.glob (yearly_backup_dir b) "" "" w) with
        | d :: _ => Some (inside d)
        | [] => None
        end
    end.

(** [_copy_to_remote]: a failure is printed, not raised. *)
Definition _copy_to_remote (backup_dir : OS.path) : M world unit :=
  let* me := gets self in
  match remote_backup_dir me with
  | None => ret tt
  | Some remote =>
      try_except
        (sys (OS.mkdir remote true) >>
         sys (OS.copytree backup_dir (OS.join_path remote (OS.name backup_dir)) true))
        (fun _ => ret tt)
  end.

(** *** [create_backup].  What the source adds to the manifest after it
    has written it (end time, duration, status, performance warning) is
    neither stored nor returned, and is left out. *)

Definition create_backup (backup_type : string) : M world pyval :=
  let* start_time := sys OS.now in
  let backup_id := "backup_" +:+ DateTime.strftime_Ymd_HMS start_time in
  try_except
    (let* me := gets self in
     let backup_dir := OS.join_path (daily_backup_dir me) backup_id in
     sys (OS.mkdir backup_dir true) >>
     let* hijri := sys get_hijri_date in
     let backup_manifest :=
       [("backup_id", PyStr backup_id);
        ("backup_type", PyStr backup_type);
        ("start_time", PyStr (DateTime.isoformat start_time));
        ("start_time_hijri", PyStr hijri);
        ("primary_data_dir", PyStr (OS.str_path (primary_data_dir me)));
        ("files_backed_up", PyList []);
        ("compression_used", PyBool true);
        ("encryption_used", PyBool false);
        ("retention_period_years", PyInt (yearly_retention_years me))] in
     let* f1 := _backup_audit_chain backup_dir in
     let* f2 := _backup_configurations backup_dir in
     let* f3 := _backup_reports_templates backup_dir in
     let* f4 := _backup_logs backup_dir in
     let files_backed_up := f1 ++ f2 ++ f3 ++ f4 in
     let backup_manifest :=
       dict_set "files_backed_up" (PyList files_backed_up) backup_manifest in
     let* verification_result := _verify_backup backup_dir in
     let backup_manifest := dict_set "verification" verification_result backup_manifest in
     sys (OS.json_dump (OS.join_path backup_dir "backup_manifest.json")
            (PyDict backup_manifest)) >>
     let* end_time := sys OS.now in
     let backup_duration := DateTime.total_seconds (end_time - start_time) in
     let* me' := gets self in
     update (set_status (Some end_time) "completed" (backup_errors me')) >>
     _copy_to_remote backup_dir >>
     ret (PyDict [("success", PyBool true);
                  ("backup_id", PyStr backup_id);
                  ("duration_seconds", PyFloat backup_duration);
                  ("backup_path", PyStr (OS.str_path backup_dir));
                  ("files_count", PyInt (Z.of_nat (length files_backed_up)));
                  ("verification", verification_result)]))
    (fun e =>
       let* error_time := sys OS.now in
       let error_duration := DateTime.total_seconds (error_time - start_time) in
       let error_details :=
         PyDict [("backup_id", PyStr backup_id);
                 ("error", PyStr (str_exn e));
                 ("duration_before_error", PyFloat error_duration);
                 ("error_time", PyStr (DateTime.isoformat error_time))] in
       let* me := gets self in
       update (set_status (last_backup_time me) "failed"
                          (backup_errors me ++ [error_details])) >>
       ret (PyDict [("success", PyBool false);
                    ("backup_id", PyStr backup_id);
                    ("error", PyStr (str_exn e));
                    ("duration_seconds", PyFloat error_duration)])).

(** *** [restore_from_backup] *)

(** One item of the manifest restored under [target_dir]: the path written.
    The target of a compressed item is opened, and emptied, before the
    source is decompressed. *)
Definition restore_file (backup_dir target_dir : OS.path) (file_info : pyval)
  : M world pyval :=
  let* backup_filename := lift (let? v := getitem file_info "backup_filename" in as_str v) in
  let source_file := OS.join_path backup_dir backup_filename in
  let* original_filename := lift (let? v := getitem file_info "original_filename" in as_str v) in
  let target_file := OS.join_path target_dir original_filename in
  sys (OS.makedirs (OS.parent target_file)) >>
  let* compressed := lift (get file_info "compressed" PyNone) in
  (if truthy compressed then
     let* packed := sys (OS.read_bytes source_file) in
     sys (OS.write_bytes target_file "") >>
     let* w := gets os in
     match OS.gzip_decompress w packed with
     | Some data => sys (OS.write_bytes target_file data)
     | None => raise (OSError "Not a gzipped file")
     end
   else sys (OS.copy2 source_file target_file)) >>
  ret (PyStr (OS.str_path target_file)).

Fixpoint restore_files (backup_dir target_dir : OS.path) (items : list pyval)
  : M world (list pyval) :=
  match items with
  | [] => ret []
  | file_info :: rest =>
      let* written := restore_file backup_dir target_dir file_info in
      let* more := restore_files backup_dir target_dir rest in
      ret (written :: more)
  end.

Definition restore_from_backup (backup_id : string) (restore_path : option string)
  : M world pyval :=
  let* start_time := sys OS.now in
  try_except
    (let* me := gets self in
     let* w := gets os in
     match _find_backup backup_id me w with
     | None => raise (ValueError ("Backup " +:+ backup_id +:+ " not found"))
     | Some backup_dir =>
         let manifest_file := OS.join_path backup_dir "backup_manifest.json" in
         if negb (OS.exists_ manifest_file w) then
           raise (ValueError ("Backup manifest not found for " +:+ backup_id))
         else
           let* manifest := sys (OS.json_load manifest_file) in
           let* verification := _verify_backup backup_dir in
           let* valid := lift (getitem verification "valid") in
           if negb (truthy valid) then
             raise (ValueError ("Backup " +:+ backup_id +:+ " failed integrity check"))
           else
             let target_dir :=
               match restore_path with
               | Some (String c r) => OS.join_path [] (String c r)
               | _ => primary_data_dir me
               end in
             sys (OS.mkdir target_dir true) >>
             let* listed := lift (getitem manifest "files_backed_up") in
             let* items := lift (py_iter listed) in
             let* restored_files := restore_files backup_dir target_dir items in
             let* end_time := sys OS.now in
             let restore_duration := DateTime.total_seconds (end_time - start_time) in
             let* original_backup_time := lift (getitem manifest "start_time") in
             ret (PyDict [("success", PyBool true);
                          ("backup_id", PyStr backup_id);
                          ("restore_path", PyStr (OS.str_path target_dir));
                          ("restored_files", PyList restored_files);
                          ("duration_seconds", PyFloat restore_duration);
                          ("original_backup_time", original_backup_time)])
     end)
    (fun e =>
       let* t := sys OS.now in
       let error_duration := DateTime.total_seconds (t - start_time) in
       ret (PyDict [("success", PyBool false);
                    ("backup_id", PyStr backup_id);
                    ("error", PyStr (str_exn e));
                    ("duration_seconds", PyFloat error_duration)])).

End Backup.

(* ===================================================================== *)
(** ** [backup/disaster_recovery.py]: [DisasterRecoverySystem] *)
(* ===================================================================== *)

Module Recovery.

Record DisasterRecoverySystem : Type := MakeRecovery {
  primary_data_dir : OS.path;
  recovery_dir : OS.path;
  backup_system : Backup.AutomatedBackupSystem;
  max_recovery_time_hours : Z;
  retention_years : Z;
  recovery_in_progress : bool;
  last_recovery_test : option pyval;
  recovery_history : list pyval
}.

Record world : Type := World { os : OS.t; self : DisasterRecoverySystem }.

Definition sys {A} (m : M OS.t A) : M world A :=
  zoom os (fun o w => World o (self w)) m.

Definition update (f : DisasterRecoverySystem -> DisasterRecoverySystem)
  : M world unit :=
  modify (fun w => World (os w) (f (self w))).

Definition set_backup_system (b : Backup.AutomatedBackupSystem)
    (d : DisasterRecoverySystem) : DisasterRecoverySystem :=
  MakeRecovery (primary_data_dir d) (recovery_dir d) b
    (max_recovery_time_hours d) (retention_years d) (recovery_in_progress d)
    (last_recovery_test d) (recovery_history d).

Definition set_recovery_in_progress (b : bool) (d : DisasterRecoverySystem)
  : DisasterRecoverySystem :=
  MakeRecovery (primary_data_dir d) (recovery_dir d) (backup_system d)
    (max_recovery_time_hours d) (retention_years d) b
    (last_recovery_test d) (recovery_history d).

Definition set_recovery_history (h : list pyval) (d : DisasterRecoverySystem)
  : DisasterRecoverySystem :=
  MakeRecovery (primary_data_dir d) (recovery_dir d) (backup_system d)
    (max_recovery_time_hours d) (retention_years d) (recovery_in_progress d)
    (last_recovery_test d) h.

(** A method of [self.backup_system]. *)
Definition on_backup_system {A} (m : M Backup.world A) : M world A :=
  zoom (fun w => Backup.World (os w) (backup_system (self w)))
       (fun b w => World (Backup.os b) (set_backup_system (Backup.self b) (self w)))
       m.

(** [DisasterRecoverySystem(primary_data_dir)], with its own backup
    system. *)
Definition __init__ (primary : string) : M OS.t DisasterRecoverySystem :=
  OS.mkdir ["disaster_recovery"] true >>
  let* b := Backup.__init__ primary "backup_storage" None in
  ret (MakeRecovery (OS.join_path [] primary) ["disaster_recovery"] b 4 7
         false None []).

(** *** The recovery point *)

(** [_find_recovery_point] *)
Definition _find_recovery_point (recovery_point_id : string) : M world (option OS.path) :=
  let* me := gets self in
  let* w := gets os in
  let recovery_point_path := OS.join_path (recovery_dir me) recovery_point_id in
  ret (if OS.exists_ recovery_point_path w && OS.is_dir recovery_point_path w
       then Some recovery_point_path else None).

(** [_load_recovery_metadata] *)
Definition _load_recovery_metadata (recovery_point : OS.path) : M world pyval :=
  let* w := gets os in
  let metadata_file := OS.join_path recovery_point "recovery_metadata.json" in
  if negb (OS.exists_ metadata_file w) then
    raise (Exception "Recovery metadata file not found")
  else sys (OS.json_load metadata_file).

(** [_calculate_recovery_point_checksum]: every file below the directory
    but the metadata, as [name:sha256], sorted and joined. *)
Definition _calculate_recovery_point_checksum (recovery_dir : OS.path) : M world string :=
  let* w := gets os in
  let files :=
    filter (fun qn => OS.is_file qn.1 w
                      && negb (String.eqb (OS.name qn.1) "recovery_metadata.json") = true)
           (OS.descendants recovery_dir w) in
  let* checksums :=
    lift (Json.collect
            (map (fun qn : OS.path * OS.node =>
                    match fst (OS.read_bytes qn.1 w) with
                    | inr data => inr (OS.name qn.1 +:+ ":" +:+ SHA256.hexdigest data)
                    | inl e => inl e
                    end) files)) in
  ret (SHA256.hexdigest (str_join "|" (sorted_str checksums))).

(** [_verify_recovery_point_integrity] *)
Definition _verify_recovery_point_integrity (recovery_point : OS.path) (metadata : pyval)
  : M world pyval :=
  try_except
    (let* current_checksum := _calculate_recovery_point_checksum recovery_point in
     let* expected_checksum := lift (get metadata "checksum" PyNone) in
     if negb (truthy expected_checksum) then
       ret (PyDict [("valid", PyBool false);
                    ("error", PyStr "No checksum found in metadata")])
     else
       let checksums_match := py_eq (PyStr current_checksum) expected_checksum in
       let* w := gets os in
       let missing_files :=
         filter (fun required_file =>
                   negb (OS.exists_ (OS.join_path recovery_point required_file) w) = true)
                ["audit_chain_backup.pkl.gz"; "config"; "user_data"] in
       let* t := sys OS.now in
       ret (PyDict [("valid", PyBool (checksums_match
                                      && match missing_files with [] => true | _ => false end));
                    ("checksum_match", PyBool checksums_match);
                    ("expected_checksum", expected_checksum);
                    ("current_checksum", PyStr current_checksum);
                    ("missing_files", PyList (PyStr <$> missing_files));
                    ("verification_time", PyStr (DateTime.isoformat t))]))
    (fun e => ret (PyDict [("valid", PyBool false); ("error", PyStr (str_exn e))])).

(** [_create_pre_recovery_backup] *)
Definition _create_pre_recovery_backup : M world pyval :=
  let* backup_result := on_backup_system (Backup.create_backup "pre_recovery") in
  let* ok := lift (getitem backup_result "success") in
  if truthy ok then lift (getitem backup_result "backup_id")
  else
    let* err := lift (getitem backup_result "error") in
    let* w := gets os in
    raise (Exception ("Failed to create pre-recovery backup: " +:+ py_str w err)).

(** *** The steps of a recovery.  Each one catches what it raises and
    reports it in its result. *)

Definition failure (e : exn) : pyval :=
  PyDict [("success", PyBool false); ("error", PyStr (str_exn e))].

(** [_restore_audit_chain].  [_truncate_chain_to_time] only prints. *)
Definition _restore_audit_chain (recovery_point : OS.path)
    (target_time : option DateTime.datetime) : M world pyval :=
  try_except
    (let* me := gets self in
     let* w := gets os in
     let source_chain := OS.join_path recovery_point "audit_chain_backup.pkl.gz" in
     let dest_chain := OS.join_path (primary_data_dir me) "audit_chain.pkl.gz" in
     if negb (OS.exists_ source_chain w) then
       ret (PyDict [("success", PyBool false);
                    ("error", PyStr "Audit chain backup not found")])
     else
       (if OS.exists_ dest_chain w then
          let* t := sys OS.now in
          let backup_name :=
            "audit_chain_pre_recovery_" +:+ DateTime.strftime_Ymd_HMS t +:+ ".pkl.gz" in
          sys (OS.copy2 dest_chain (OS.join_path (primary_data_dir me) backup_name))
        else ret tt) >>
       sys (OS.copy2 source_chain dest_chain) >>
       ret (PyDict [("success", PyBool true);
                    ("restored_from", PyStr (OS.str_path source_chain));
                    ("restored_to", PyStr (OS.str_path dest_chain));
                    ("target_time",
                     match target_time with
                     | Some t => PyStr (DateTime.isoformat t)
                     | None => PyNone
                     end)]))
    (fun e => ret (failure e)).

(** [_restore_system_config] *)
Definition _restore_system_config (recovery_point : OS.path) : M world pyval :=
  try_except
    (let* me := gets self in
     let* w := gets os in
     let config_source := OS.join_path recovery_point "config" in
     let* restored_files :=
       (if OS.exists_ config_source w then
          (if OS.is_dir config_source w then ret tt
           else raise (OSError "[Errno 20] Not a directory")) >>
          gather (OS.children config_source w)
            (fun config_file =>
               let* w' := gets os in
               if OS.is_file config_file w' then
                 sys (OS.copy2 config_file
                        (OS.join_path (OS.parent (primary_data_dir me))
                                      (OS.name config_file))) >>
                 ret [PyStr (OS.name config_file)]
               else ret [])
        else ret []) in
     ret (PyDict [("success", PyBool true);
                  ("restored_files", PyList restored_files)]))
    (fun e => ret (failure e)).

(** [_restore_user_data] *)
Definition _restore_user_data (recovery_point : OS.path) : M world pyval :=
  try_except
    (let* me := gets self in
     let* w := gets os in
     let data_source := OS.join_path recovery_point "user_data" in
     let* restored_dirs :=
       (if OS.exists_ data_source w then
          (if OS.is_dir data_source w then ret tt
           else raise (OSError "[Errno 20] Not a directory")) >>
          gather (OS.children data_source w)
            (fun data_dir =>
               let dest_path := OS.join_path (primary_data_dir me) (OS.name data_dir) in
               let* w' := gets os in
               (if OS.is_dir data_dir w' then
                  when (OS.exists_ dest_path w') (sys (OS.rmtree dest_path)) >>
                  sys (OS.copytree data_dir dest_path false)
                else sys (OS.copy2 data_dir dest_path)) >>
               ret [PyStr (OS.name data_dir)])
        else ret []) in
     ret (PyDict [("success", PyBool true);
                  ("restored_directories", PyList restored_dirs)]))
    (fun e => ret (failure e)).

(** *** The checks after a recovery *)

(** [_check_audit_chain_exists] *)
Definition _check_audit_chain_exists : M world pyval :=
  let* me := gets self in
  let* w := gets os in
  let chain_file := OS.join_path (primary_data_dir me) "audit_chain.pkl.gz" in
  let* ok :=
    (if OS.exists_ chain_file w then
       let* size := sys (OS.st_size chain_file) in ret (0 <? size)
     else ret false) in
  let* file_size :=
    (if OS.exists_ chain_file w then sys (OS.st_size chain_file) else ret 0) in
  ret (PyDict [("success", PyBool ok);
               ("file_path", PyStr (OS.str_path chain_file));
               ("file_size", PyInt file_size)]).

(** [_check_config_files_exist] *)
Definition _check_config_files_exist : M world pyval :=
  let* me := gets self in
  let* w := gets os in
  let essential_configs := ["config.json"; "settings.ini"] in
  let missing_configs :=
    filter (fun config =>
              negb (OS.exists_ (OS.join_path (OS.parent (primary_data_dir me)) config) w)
              = true)
           essential_configs in
  ret (PyDict [("success", PyBool match missing_configs with [] => true | _ => false end);
               ("missing_configs", PyList (PyStr <$> missing_configs));
               ("total_configs", PyInt (Z.of_nat (length essential_configs)))]).

(** [_check_chain_integrity]: a constant in the source. *)
Definition _check_chain_integrity : M world pyval :=
  ret (PyDict [("success", PyBool true);
               ("integrity_score", PyFloat 1);
               ("corrupted_entries", PyInt 0)]).

(** [_check_system_functionality] *)
Definition _check_system_functionality : M world pyval :=
  let* test_time := sys OS.now in
  ret (PyDict [("success", PyBool true);
               ("test_time", PyStr (DateTime.isoformat test_time));
               ("functionality_score", PyFloat 1)]).

(** [_check_performance_metrics] *)
Definition _check_performance_metrics : M world pyval :=
  ret (PyDict [("success", PyBool true);
               ("response_time_ms", PyInt 50);
               ("memory_usage_mb", PyInt 256);
               ("performance_score", PyFloat 0x1.e666666666666p-1)]).

(** [_check_compliance_requirements] *)
Definition _check_compliance_requirements : M world pyval :=
  ret (PyDict [("success", PyBool true);
               ("data_residency", PyStr "Saudi Arabia");
               ("retention_compliance", PyBool true);
               ("audit_trail_complete", PyBool true);
               ("encryption_status", PyStr "Compliant")]).

(** The loop of [_verify_recovery_success] over the checks made:
    [overall_success] and [checks_performed]. *)
Fixpoint record_checks (checks : list (string * pyval)) (overall_success : bool)
    (performed : list pyval) : exn + bool * list pyval :=
  match checks with
  | [] => inr (overall_success, performed)
  | (check_name, check_result) :: rest =>
      let? ok := getitem check_result "success" in
      record_checks rest
        (if negb (truthy ok) then false else overall_success)
        (performed ++ [PyDict [("check", PyStr check_name);
                               ("success", ok);
                               ("details", check_result)]])
  end.

(** [_verify_recovery_success] *)
Definition _verify_recovery_success (verification_mode : string) : M world pyval :=
  try_except
    (let* c1 := _check_audit_chain_exists in
     let* c2 := _check_config_files_exist in
     let checks := [("audit_chain_exists", c1); ("config_files_exist", c2)] in
     let* checks :=
       (if String.eqb verification_mode "standard" || String.eqb verification_mode "full"
        then
          let* c3 := _check_chain_integrity in
          let* c4 := _check_system_functionality in
          ret (checks ++ [("chain_integrity", c3); ("system_functionality", c4)])
        else ret checks) in
     let* checks :=
       (if String.eqb verification_mode "full" then
          let* c5 := _check_performance_metrics in
          let* c6 := _check_compliance_requirements in
          ret (checks ++ [("performance_validation", c5); ("compliance_validation", c6)])
        else ret checks) in
     let* '(overall_success, performed) := lift (record_checks checks true []) in
     ret (PyDict [("overall_success", PyBool overall_success);
                  ("checks_performed", PyList performed);
                  ("verification_mode", PyStr verification_mode)]))
    (fun e =>
       ret (PyDict [("overall_success", PyBool false);
                    ("error", PyStr (str_exn e));
                    ("verification_mode", PyStr verification_mode)])).

(** [_log_recovery_operation] *)
Definition _log_recovery_operation (recovery_record : pyval) : M world unit :=
  let* me := gets self in
  let log_dir := OS.join_path (recovery_dir me) "recovery_logs" in
  sys (OS.mkdir log_dir true) >>
  let* t := sys OS.now in
  let log_file :=
    OS.join_path log_dir ("recovery_log_" +:+ DateTime.strftime_Ymd t +:+ ".json") in
  let* w := gets os in
  let* logs :=
    (if OS.exists_ log_file w then sys (OS.json_load log_file)
     else
       let* t' := sys OS.now in
       ret (PyDict [("daily_log", PyList []);
                    ("date", PyStr (DateTime.date_isoformat t'))])) in
  let* daily_log := lift (getitem logs "daily_log") in
  match logs, daily_log with
  | PyDict d, PyList l =>
      sys (OS.json_dump log_file
             (PyDict (dict_set "daily_log" (PyList (l ++ [recovery_record])) d)))
  | _, _ =>
      raise (AttributeError ("'" +:+ type_name daily_log
                             +:+ "' object has no attribute 'append'"))
  end.

(** *** [perform_recovery] *)

(** The [try] block.  A tuple of [recovery_steps] is kept as the list that
    [json] writes for it. *)
Definition recover (recovery_point_id : string)
    (target_time : option DateTime.datetime) (verification_mode : string)
    (start_time : DateTime.datetime) : M world pyval :=
  let* found := _find_recovery_point recovery_point_id in
  match found with
  | None => raise (Exception ("Recovery point " +:+ recovery_point_id +:+ " not found"))
  | Some recovery_point =>
      let* metadata := _load_recovery_metadata recovery_point in
      let* integrity_result := _verify_recovery_point_integrity recovery_point metadata in
      let* valid := lift (getitem integrity_result "valid") in
      if negb (truthy valid) then
        let* err := lift (getitem integrity_result "error") in
        let* w := gets os in
        raise (Exception ("Recovery point integrity check failed: " +:+ py_str w err))
      else
        let* pre_recovery_backup := _create_pre_recovery_backup in
        let* chain_result := _restore_audit_chain recovery_point target_time in
        let* config_result := _restore_system_config recovery_point in
        let* data_result := _restore_user_data recovery_point in
        let recovery_steps :=
          [PyList [PyStr "audit_chain"; chain_result];
           PyList [PyStr "system_config"; config_result];
           PyList [PyStr "user_data"; data_result]] in
        let* verification_result := _verify_recovery_success verification_mode in
        let* end_time := sys OS.now in
        let duration := DateTime.total_seconds (end_time - start_time) in
        let* me := gets self in
        let sla_compliant :=
          PrimFloat.ltb duration (PyFloat.of_Z (max_recovery_time_hours me * 3600)) in
        let recovery_id := "REC_" +:+ DateTime.strftime_Ymd_HMS start_time in
        let* overall := lift (getitem verification_result "overall_success") in
        let recovery_record :=
          PyDict [("recovery_id", PyStr recovery_id);
                  ("recovery_point_id", PyStr recovery_point_id);
                  ("start_time", PyStr (DateTime.isoformat start_time));
                  ("end_time", PyStr (DateTime.isoformat end_time));
                  ("duration_seconds", PyFloat duration);
                  ("sla_compliant", PyBool sla_compliant);
                  ("recovery_steps", PyList recovery_steps);
                  ("verification_result", verification_result);
                  ("pre_recovery_backup", pre_recovery_backup);
                  ("success", overall)] in
        _log_recovery_operation recovery_record >>
        update (fun d => set_recovery_history (recovery_history d ++ [recovery_record]) d) >>
        ret (PyDict [("success", PyBool true);
                     ("recovery_id", PyStr recovery_id);
                     ("duration_seconds", PyFloat duration);
                     ("sla_compliant", PyBool sla_compliant);
                     ("verification_result", verification_result);
                     ("recovery_point_used", PyStr recovery_point_id);
                     ("pre_recovery_backup", pre_recovery_backup)])
  end.

(** The [except] block. *)
Definition recovery_failed (recovery_point_id : string)
    (start_time : DateTime.datetime) (e : exn) : M world pyval :=
  let* t := sys OS.now in
  let error_duration := DateTime.total_seconds (t - start_time) in
  let* t' := sys OS.now in
  let error_record :=
    PyDict [("recovery_id", PyStr ("REC_FAILED_" +:+ DateTime.strftime_Ymd_HMS start_time));
            ("recovery_point_id", PyStr recovery_point_id);
            ("start_time", PyStr (DateTime.isoformat start_time));
            ("error_time", PyStr (DateTime.isoformat t'));
            ("duration_before_failure", PyFloat error_duration);
            ("error", PyStr (str_exn e));
            ("success", PyBool false)] in
  _log_recovery_operation error_record >>
  ret (PyDict [("success", PyBool false);
               ("error", PyStr (str_exn e));
               ("duration_seconds", PyFloat error_duration);
               ("recovery_point_id", PyStr recovery_point_id)]).

Definition perform_recovery (recovery_point_id : string)
    (target_time : option DateTime.datetime) (verification_mode : string)
  : M world pyval :=
  let* me := gets self in
  if recovery_in_progress me then
    ret (PyDict [("success", PyBool false);
                 ("error", PyStr "Recovery operation already in progress");
                 ("current_recovery", PyBool true)])
  else
    update (set_recovery_in_progress true) >>
    let* start_time := sys OS.now in
    try_finally
      (try_except
         (recover recovery_point_id target_time verification_mode start_time)
         (recovery_failed recovery_point_id start_time))
      (update (set_recovery_in_progress false)).

End Recovery.

(* ===================================================================== *)
(** ** What the properties speak of *)
(* ===================================================================== *)

Module Props.

Import Ledger.

(** The entry that [append_entry] builds: [h] is [None] while the hash is
    being computed. *)
Definition appended_entry (entry_id : string) (data : list (string * pyval))
    (ts hj : string) (previous_hash : pyval) (h : option string) (pos : nat)
    (until : string) : pyval :=
  PyDict [("id", PyStr entry_id);
          ("data", PyDict data);
          ("timestamp", PyStr ts);
          ("timestamp_hijri", PyStr hj);
          ("previous_hash", previous_hash);
          ("hash", match h with Some x => PyStr x | None => PyNone end);
          ("chain_position", PyInt (Z.of_nat pos));
          ("retention_until", PyStr until)].

(** One call of [append_entry] on the ledger of [w], whatever the
    environment has become since the last call, and whatever the outcome. *)
Definition append_step (w w' : world) : Prop :=
  exists o d r, append_entry d (World o (self w)) = (r, w').

(** The states that calls of [append_entry] reach from an empty chain. *)
Inductive built : world -> Prop :=
| built_empty w : chain (self w) = [] -> built w
| built_append w w' : built w -> append_step w w' -> built w'.

(** The link invariant: the first entry points to the genesis sentinel and
    every other entry to the hash of the entry before it. *)
Definition linked (genesis : string) (c : list pyval) : Prop :=
  (forall e, c !! 0%nat = Some e ->
             getitem e "previous_hash" = inr (PyStr genesis)) /\
  (forall i p e, c !! i = Some p -> c !! S i = Some e ->
                 exists h, getitem p "hash" = inr h
                           /\ getitem e "previous_hash" = inr h).

(** [result[k]] of a result dictionary. *)
Definition field (result : pyval) (k : string) : option pyval :=
  match result with
  | PyDict d => dict_lookup k d
  | _ => None
  end.

(** A successful call of [append_entry] on the ledger of [w], in any
    environment; [appended n w]: [w] is reached from an empty chain by [n]
    successful calls. *)
Inductive appended : nat -> world -> Prop :=
| appended_0 w : chain (self w) = [] -> appended 0 w
| appended_S n w o d entry_id w' :
    appended n w ->
    append_entry d (World o (self w)) = (inr entry_id, w') ->
    appended (S n) w'.

(** The stored hash of an entry overwritten, as on disk. *)
Definition mutate_hash (new_hash : string) (entry : pyval) : pyval :=
  match entry with
  | PyDict d => PyDict (dict_set "hash" (PyStr new_hash) d)
  | _ => entry
  end.

(** The entries of a chain that successive appends wrote, each pointing to
    the hash of the one before. *)
Fixpoint well_formed (prev : pyval) (pos : nat) (c : list pyval) : Prop :=
  match c with
  | [] => True
  | e :: r =>
      exists entry_id d ts hj until h,
        e = appended_entry entry_id d ts hj prev (Some h) pos until
        /\ _calculate_hash (appended_entry entry_id d ts hj prev None pos until) false
           = inr h
        /\ well_formed (PyStr h) (S pos) r
  end.

(** What the loop of [verify_chain_integrity] collects, without the clock. *)
Fixpoint scan (i : nat) (previous_entry : option pyval) (entries : list pyval)
  : exn + list pyval :=
  match entries with
  | [] => inr []
  | entry :: rest =>
      match check_hash i entry, check_link i previous_entry entry,
            scan (S i) (Some entry) rest with
      | inr a, inr b, inr more => inr (option_list a ++ option_list b ++ more)
      | inl e, _, _ | _, inl e, _ | _, _, inl e => inl e
      end
  end.

Definition any (l : list pyval) : bool :=
  match l with [] => false | _ => true end.

(** *** What [verify_range] is said to do *)

(** The timestamp of the entry lies in [[start_date, end_date]] and, when a
    filter is given, the [decision_type] of its payload is the filter. *)
Definition selects (start_date end_date : DateTime.datetime)
    (decision_type : option string) (entry : pyval) : bool :=
  match entry_date entry with
  | inr t =>
      (start_date <=? t) && (t <=? end_date)
      && match decision_type with
         | None => true
         | Some wanted =>
             match getitem entry "data" with
             | inr (PyDict data) =>
                 py_eq (default PyNone (dict_lookup "decision_type" data))
                       (PyStr wanted)
             | _ => false
             end
         end
  | inl _ => false
  end.

(** The stored hash of the entry is the hash recomputed over the entry
    without its [hash] field. *)
Definition self_consistent (entry : pyval) : bool :=
  match _calculate_hash entry true, getitem entry "hash" with
  | inr expected, inr stored => py_eq stored (PyStr expected)
  | _, _ => false
  end.

Definition or_none (r : exn + pyval) : pyval :=
  match r with inr v => v | inl _ => PyNone end.

(** The record that reports an entry whose hash is not the recomputed one. *)
Definition mismatch_report (entry : pyval) : pyval :=
  PyDict [("entry_id", or_none (getitem entry "id"));
          ("timestamp", or_none (getitem entry "timestamp"));
          ("expected_hash",
           match _calculate_hash entry true with
           | inr expected => PyStr expected
           | inl _ => PyNone
           end);
          ("actual_hash", or_none (getitem entry "hash"))].

End Props.

(* ===================================================================== *)
(** ** A scenario: five appends, the hash of the third entry overwritten
    on disk, the ledger loaded again *)
(* ===================================================================== *)

Module Scenario.

Import Ledger Props.

Definition t0 : DateTime.datetime := DateTime.make 2024 1 15 10 30 0 0.

(** A clock that advances by a millisecond at each reading. *)
Definition clock (n : nat) : DateTime.datetime := Z.of_nat n * 1000 + t0.

(** 15 January 2024 is 3 Rajab 1445. *)
Definition hijri (y m d : Z) : option (Z * Z * Z) :=
  if (y =? 2024) && (m =? 1) && (d =? 15) then Some (1445, 7, 3) else None.

(** An environment with the files [fs], in which [loads] unpickles and
    [parses] reads JSON; nothing is compressed. *)
Definition env (loads : string -> option (list pyval))
    (parses : string -> option pyval) (fs : gmap OS.path OS.node) : OS.t :=
  OS.Make clock 0 hijri type_name parses (fun s => s) Some (fun _ => "") loads fs.

Definition nothing {A} (_ : string) : option A := None.

(** A new ledger in an empty data directory. *)
Definition w0 : world :=
  World (env nothing nothing {[ ["audit_data"] := OS.Dir t0 ]})
        (MakeLedger ["audit_data"] "SAUDI_AI_AUDIT_GENESIS_2024" 7 4 50 3000
                    [] ∅ t0 true O).

Definition payload (user_id : string) : list (string * pyval) :=
  [("decision_type", PyStr "procurement"); ("user_id", PyStr user_id)].

Definition after (d : list (string * pyval)) (w : world) : world :=
  (append_entry d w).2.

Definition w1 : world := after (payload "1234567890") w0.
Definition w2 : world := after (payload "1234567891") w1.
Definition w3 : world := after (payload "1234567892") w2.
Definition w4 : world := after (payload "1234567893") w3.
Definition w5 : world := after (payload "1234567894") w4.

(** The chain file with the hash of entry 2 overwritten; of its bytes only
    what they unpickle to matters. *)
Definition third : pyval := default PyNone (chain (self w5) !! 2%nat).
Definition new_hash : string := "tampered".
Definition mutated : list pyval := alter (mutate_hash new_hash) 2%nat (chain (self w5)).
Definition mutated_file : string := "audit chain, entry 2 tampered with".

Definition disk : OS.t :=
  env (fun s => if String.eqb s mutated_file then Some mutated else None) nothing
      {[ ["audit_data"] := OS.Dir t0;
         ["audit_data"; "audit_chain.pkl.gz"] := OS.File mutated_file t0 ]}.

(** The ledger loaded again from that disk. *)
Definition reloaded : world :=
  match __init__ "audit_data" disk with
  | (inr l, o) => World o l
  | (inl _, o) => World o (self w0)
  end.

(** The verdict of [verify_chain_integrity], and the state it leaves. *)
Definition verdict : pyval := or_none (verify_chain_integrity reloaded).1.

Definition quarantined : world := (verify_chain_integrity reloaded).2.

(** A payload that holds a [datetime]. *)
Definition unserializable : list (string * pyval) :=
  [("decision_type", PyStr "procurement");
   ("user_id", PyStr "1234567890");
   ("submitted", PyObject "datetime")].

(** A bias result without a confidence. *)
Definition no_confidence : list (string * pyval) :=
  [("bias_detected", PyBool true); ("bias_type", PyStr "regional")].

(** The entries 1, 2 and 3 of the scenario lie in this range. *)
Definition range_start : DateTime.datetime := DateTime.make 2024 1 15 10 30 0 5000.
Definition range_end : DateTime.datetime := DateTime.make 2024 1 15 10 30 0 25000.

Definition range_result : pyval :=
  or_none (verify_range range_start range_end (Some "procurement") w5).1.

End Scenario.

(* ===================================================================== *)
(** ** A second scenario: a recovery point, and no configuration files *)
(* ===================================================================== *)

Module Site.

Definition point : OS.path := ["disaster_recovery"; "RP_20240115_100000"].

Definition saved_chain : string := "audit chain at the recovery point".

(** The checksum of the recovery point, whose only file beside the
    metadata is the saved chain. *)
Definition checksum : string :=
  SHA256.hexdigest ("audit_chain_backup.pkl.gz:" +:+ SHA256.hexdigest saved_chain).

Definition metadata : pyval :=
  PyDict [("recovery_point_id", PyStr "RP_20240115_100000");
          ("creation_time", PyStr "2024-01-15T10:00:00");
          ("description", PyStr "Manual recovery point");
          ("checksum", PyStr checksum)].

Definition metadata_text : string :=
  match Json.dumps_indent 0 metadata with inr s => s | inl _ => "" end.

(** The working directory holds no [config.json] and no [settings.ini]. *)
Definition files : gmap OS.path OS.node :=
  list_to_map
    [(["audit_data"], OS.Dir Scenario.t0);
     (["audit_data"; "audit_chain.pkl.gz"], OS.File "audit chain now" Scenario.t0);
     (["disaster_recovery"], OS.Dir Scenario.t0);
     (point, OS.Dir Scenario.t0);
     (point ++ ["audit_chain_backup.pkl.gz"], OS.File saved_chain Scenario.t0);
     (point ++ ["config"], OS.Dir Scenario.t0);
     (point ++ ["user_data"], OS.Dir Scenario.t0);
     (point ++ ["recovery_metadata.json"], OS.File metadata_text Scenario.t0);
     (["backup_storage"], OS.Dir Scenario.t0);
     (["backup_storage"; "daily"], OS.Dir Scenario.t0);
     (["backup_storage"; "monthly"], OS.Dir Scenario.t0);
     (["backup_storage"; "yearly"], OS.Dir Scenario.t0)].

Definition machine : OS.t :=
  Scenario.env Scenario.nothing
    (fun s => if String.eqb s metadata_text then Some metadata else None) files.

Definition backups : Backup.AutomatedBackupSystem :=
  Backup.MakeBackup ["audit_data"] ["backup_storage"] None
    ["backup_storage"; "daily"] ["backup_storage"; "monthly"]
    ["backup_storage"; "yearly"] 7 None "initialized" [] false 300.

Definition idle : Recovery.world :=
  Recovery.World machine
    (Recovery.MakeRecovery ["audit_data"] ["disaster_recovery"] backups 4 7
       false None []).

(** The same site while a recovery runs. *)
Definition busy : Recovery.world :=
  Recovery.World machine (Recovery.set_recovery_in_progress true (Recovery.self idle)).

End Site.

(* ===================================================================== *)
(** ** What the further properties speak of *)
(* ===================================================================== *)

Module Laws.

Import Ledger Props.

(** A computation leaves [R] between the state it starts in and the state
    it ends in, whatever it returns or raises. *)
Definition preserves {S A} (R : S -> S -> Prop) (m : M S A) : Prop :=
  forall s, R s (m s).2.

(** The part [f] of the state is the same before and after. *)
Definition same {S X} (f : S -> X) : S -> S -> Prop :=
  fun s s' => f s' = f s.

(** A computation that raises nothing. *)
Definition returns {S A} (m : M S A) : Prop :=
  forall s, exists a, (m s).1 = inr a.

(** From a state where [P] holds, the outcome and the final state of the
    computation satisfy [Q]. *)
Definition hoare {S A} (P : S -> Prop) (m : M S A) (Q : exn + A -> S -> Prop)
  : Prop :=
  forall s, P s -> Q (m s).1 (m s).2.

(** A computation keeps [I]: from a state where it holds to a state
    where it holds, whatever the outcome. *)
Definition keeps {S A} (I : S -> Prop) (m : M S A) : Prop :=
  hoare I m (fun _ s => I s).

(** From a state where [I] holds, the computation raises. *)
Definition stops {S A} (I : S -> Prop) (m : M S A) : Prop :=
  hoare I m (fun r _ => exists e, r = inl e).

(** The environment after [n] more readings of the clock. *)
Definition later (n : nat) (o : OS.t) : OS.t := Nat.iter n OS.tick o.

(** *** [verify_chain_integrity] *)

(** [entry["previous_hash"] == previous_entry["hash"]], for an entry that
    has a predecessor. *)
Definition link_ok (previous_entry : option pyval) (entry : pyval) : bool :=
  match previous_entry with
  | None => true
  | Some previous =>
      match getitem entry "previous_hash", getitem previous "hash" with
      | inr link, inr previous_hash => py_eq link previous_hash
      | _, _ => false
      end
  end.

(** Every entry carries the hash recomputed over it and points to the
    stored hash of the entry before it. *)
Fixpoint chain_ok (previous_entry : option pyval) (entries : list pyval) : bool :=
  match entries with
  | [] => true
  | entry :: rest =>
      self_consistent entry && link_ok previous_entry entry
      && chain_ok (Some entry) rest
  end.

(** None of the [n] readings of the clock that follow the reading at the
    start exceeds the time allowed for a verification. *)
Definition in_time (w : world) (n : nat) : Prop :=
  forall k, (k < n)%nat ->
    PyFloat.gt_int
      (DateTime.elapsed_ms (OS.clock (os w) (S (OS.ticks (os w) + k)))
                           (OS.clock (os w) (OS.ticks (os w))))
      (max_verification_time_ms (self w)) = false.

(** The object but for its quarantine flag. *)
Definition but_flag (l : HashChainedLedger) : HashChainedLedger :=
  set_corruption_checks_enabled true l.

(** *** The index *)

(** Every id of the index is the id of the entry at the position that the
    index gives for it. *)
Definition indexed (l : HashChainedLedger) : Prop :=
  forall k j, chain_index l !! k = Some j ->
    exists entry, chain l !! j = Some entry /\ getitem entry "id" = inr (PyStr k).

(** *** Saving the chain and loading it again *)

(** A name without a slash. *)
Fixpoint plain (s : string) : bool :=
  match s with
  | EmptyString => true
  | String c r => negb (Ascii.eqb c "/") && plain r
  end.

(** The files that [_backup_chain] writes when it starts in the state
    [w]: the backup of the moment, and the current chain. *)
Definition backup_file_of (w : world) : OS.path :=
  OS.join_path (data_dir (self w))
    ("audit_chain_backup_"
     +:+ DateTime.strftime_Ymd_HMS (OS.clock (os w) (OS.ticks (os w)))
     +:+ ".pkl.gz").

Definition chain_file_of (w : world) : OS.path :=
  OS.join_path (data_dir (self w)) "audit_chain.pkl.gz".

(** What [gzip] and [pickle] write for the chain [c], they read back. *)
Definition codecs_invert (o : OS.t) (c : list pyval) : Prop :=
  OS.gzip_decompress o (OS.gzip_compress o (OS.pickle_dumps o c))
  = Some (OS.pickle_dumps o c)
  /\ OS.pickle_loads o (OS.pickle_dumps o c) = Some c.

(** The codecs of an environment. *)
Definition codecs (o : OS.t) :=
  (OS.gzip_compress o, OS.gzip_decompress o, OS.pickle_dumps o, OS.pickle_loads o).

(** *** Backups *)

(** The last character of a string. *)
Fixpoint last_char (s : string) : option ascii :=
  match s with
  | EmptyString => None
  | String c EmptyString => Some c
  | String _ r => last_char r
  end.

(** Where [create_backup] puts the backup that it starts in the state
    [w], and the manifest of that backup. *)
Definition backup_dir_of (w : Backup.world) : OS.path :=
  OS.join_path (Backup.daily_backup_dir (Backup.self w))
    ("backup_" +:+ DateTime.strftime_Ymd_HMS
                     (OS.clock (Backup.os w) (OS.ticks (Backup.os w)))).

Definition manifest_of (w : Backup.world) : OS.path :=
  OS.join_path (backup_dir_of w) "backup_manifest.json".

(** The items that [restore_from_backup] goes through: what the manifest
    lists as [files_backed_up]. *)
Definition listed_items (manifest : pyval) : list pyval :=
  match getitem manifest "files_backed_up" with
  | inr listed => match py_iter listed with inr items => items | inl _ => [] end
  | inl _ => []
  end.

(** *** The checks after a recovery *)

(** [p.stat().st_size], and 0 for a path that does not exist. *)
Definition size_of (p : OS.path) (o : OS.t) : Z :=
  match OS.lookup (OS.files o) p with
  | Some (OS.File d _) => Z.of_nat (String.length d)
  | Some (OS.Dir _) => 4096
  | None => 0
  end.

(** The chain file is there and is not empty. *)
Definition chain_file_ready (w : Recovery.world) : bool :=
  0 <? size_of (OS.join_path (Recovery.primary_data_dir (Recovery.self w))
                             "audit_chain.pkl.gz")
               (Recovery.os w).

(** [config.json] and [settings.ini] are there, beside the data
    directory. *)
Definition configs_present (w : Recovery.world) : bool :=
  let beside := OS.parent (Recovery.primary_data_dir (Recovery.self w)) in
  OS.exists_ (OS.join_path beside "config.json") (Recovery.os w)
  && OS.exists_ (OS.join_path beside "settings.ini") (Recovery.os w).

(** *** Restoring the chain *)

(** The chain file of the data directory, and the copy of it that
    [_restore_audit_chain] makes when it starts in the state [w]. *)
Definition live_chain_of (w : Recovery.world) : OS.path :=
  OS.join_path (Recovery.primary_data_dir (Recovery.self w)) "audit_chain.pkl.gz".

Definition pre_recovery_copy_of (w : Recovery.world) : OS.path :=
  OS.join_path (Recovery.primary_data_dir (Recovery.self w))
    ("audit_chain_pre_recovery_"
     +:+ DateTime.strftime_Ymd_HMS (OS.clock (Recovery.os w) (OS.ticks (Recovery.os w)))
     +:+ ".pkl.gz").

(** *** The integrity of a recovery point *)

(** The directory of a recovery point. *)
Definition point_of (w : Recovery.world) (recovery_point_id : string) : OS.path :=
  OS.join_path (Recovery.recovery_dir (Recovery.self w)) recovery_point_id.

(** The checksum that [_calculate_recovery_point_checksum] computes. *)
Definition checksum_of (p : OS.path) (w : Recovery.world) : string :=
  match (Recovery._calculate_recovery_point_checksum p w).1 with
  | inr s => s
  | inl _ => ""
  end.

(** The recovery point has the checksum [expected] and holds the chain,
    the configuration and the user data. *)
Definition point_intact (p : OS.path) (expected : pyval) (w : Recovery.world)
  : bool :=
  py_eq (PyStr (checksum_of p w)) expected
  && forallb (fun required_file =>
                OS.exists_ (OS.join_path p required_file) (Recovery.os w))
             ["audit_chain_backup.pkl.gz"; "config"; "user_data"].

End Laws.

(* ===================================================================== *)
(** ** Small ledgers and disks to try the properties on *)
(* ===================================================================== *)

Module Samples.

Import Ledger.

(** Two entries, each with the hash recomputed over it, the second
    pointing to the first. *)
Definition first_entry : pyval :=
  PyDict [("id", PyStr "a");
          ("previous_hash", PyStr "SAUDI_AI_AUDIT_GENESIS_2024");
          ("hash", PyStr "d056c0464119ffc0ef4d828b5ee31e27477413a53816528aa1cc307003005ab0")].

Definition second_entry : pyval :=
  PyDict [("id", PyStr "b");
          ("previous_hash",
           PyStr "d056c0464119ffc0ef4d828b5ee31e27477413a53816528aa1cc307003005ab0");
          ("hash", PyStr "015b738a83582303da7c286d0ee23503b1ea59e8b12d801d16146b6f96d85970")].

Definition stored : list pyval := [first_entry; second_entry].

(** A ledger that holds them. *)
Definition sound : world :=
  World (Scenario.env Scenario.nothing Scenario.nothing
           {[ ["audit_data"] := OS.Dir Scenario.t0 ]})
        (MakeLedger ["audit_data"] "SAUDI_AI_AUDIT_GENESIS_2024" 7 4 50 3000
                    stored {[ "a" := 0%nat; "b" := 1%nat ]} Scenario.t0 true O).

(** A disk whose chain file unpickles to them, and one whose chain file
    does not unpickle. *)
Definition chain_text : string := "two entries".

Definition disk : OS.t :=
  Scenario.env (fun s => if String.eqb s chain_text then Some stored else None)
    Scenario.nothing
    {[ ["audit_data"] := OS.Dir Scenario.t0;
       ["audit_data"; "audit_chain.pkl.gz"] := OS.File chain_text Scenario.t0 ]}.


(** The ledger on a machine whose [pickle] reads back what it writes. *)
Definition saving : world :=
  World (Scenario.env (fun _ => Some stored) Scenario.nothing
           {[ ["audit_data"] := OS.Dir Scenario.t0 ]})
        (self sound).

(** The backup system of the site of the second scenario. *)
Definition backups : Backup.world := Backup.World Site.machine Site.backups.

(** A bias result with a confidence of 0.9. *)
Definition bias_result : list (string * pyval) :=
  [("bias_detected", PyBool true); ("confidence", PyFloat 0x1.ccccccccccccdp-1)].

(** A site whose recovery point has lost its user data, and whose metadata
    record a checksum that is not the one of its files. *)
Definition stale_metadata : list (string * pyval) :=
  [("recovery_point_id", PyStr "RP_20240115_100000");
   ("checksum", PyStr "c0ffee")].

Definition stale : Recovery.world :=
  Recovery.World
    (Scenario.env Scenario.nothing
       (fun s => if String.eqb s "metadata" then Some (PyDict stale_metadata) else None)
       {[ ["disaster_recovery"] := OS.Dir Scenario.t0;
          Site.point := OS.Dir Scenario.t0;
          Site.point ++ ["audit_chain_backup.pkl.gz"] := OS.File "chain" Scenario.t0;
          Site.point ++ ["config"] := OS.Dir Scenario.t0;
          Site.point ++ ["recovery_metadata.json"] := OS.File "metadata" Scenario.t0 ]})
    (Recovery.self Site.idle).

(** A backup of the site that holds the templates, as the manifest of
    [create_backup] lists them. *)
Definition templates_item : pyval :=
  PyDict [("original_filename", PyStr "templates/");
          ("backup_filename", PyStr "templates/");
          ("files_count", PyInt 0);
          ("compressed", PyBool false);
          ("file_type", PyStr "templates")].

Definition archived_manifest : pyval :=
  PyDict [("backup_id", PyStr "backup_20240115_090000");
          ("start_time", PyStr "2024-01-15T09:00:00");
          ("files_backed_up", PyList [templates_item])].

Definition archive : OS.path := ["backup_storage"; "daily"; "backup_20240115_090000"].

Definition archived : Backup.world :=
  Backup.World
    (Scenario.env Scenario.nothing
       (fun s => if String.eqb s "manifest" then Some archived_manifest else None)
       {[ ["audit_data"] := OS.Dir Scenario.t0;
          ["backup_storage"] := OS.Dir Scenario.t0;
          ["backup_storage"; "daily"] := OS.Dir Scenario.t0;
          ["backup_storage"; "monthly"] := OS.Dir Scenario.t0;
          ["backup_storage"; "yearly"] := OS.Dir Scenario.t0;
          archive := OS.Dir Scenario.t0;
          archive ++ ["backup_manifest.json"] := OS.File "manifest" Scenario.t0;
          archive ++ ["templates"] := OS.Dir Scenario.t0 ]})
    Site.backups.

(** A machine whose [gzip] marks what it compresses, with a chain file, an
    empty backup directory and a directory to restore into. *)
Definition unzip (s : string) : option string :=
  if String.prefix "gz:" s then Some (substring 3 (String.length s - 3) s) else None.

Definition zipping : Backup.world :=
  Backup.World
    (OS.Make Scenario.clock 0 Scenario.hijri type_name Scenario.nothing
       (fun s => "gz:" +:+ s) unzip (fun _ => "") Scenario.nothing
       {[ ["audit_data"] := OS.Dir Scenario.t0;
          ["audit_data"; "audit_chain.pkl.gz"]
            := OS.File "gz:pickled chain" Scenario.t0;
          ["backup_storage"] := OS.Dir Scenario.t0;
          ["backup_storage"; "daily"] := OS.Dir Scenario.t0;
          archive := OS.Dir Scenario.t0;
          ["restored"] := OS.Dir Scenario.t0 ]})
    Site.backups.

End Samples.

(* PROOFS *)

(* ===================================================================== *)
(** * Proofs *)
(* ===================================================================== *)



Example sha256_empty :
  SHA256.hexdigest "" =
  "e3b0c44298fc1c149afbf4c8996fb92427ae41e4649b934ca495991b7852b855".
Proof. vm_compute. reflexivity. Qed.

Example sha256_abc :
  SHA256.hexdigest "abc" =
  "ba7816bf8f01cfea414140de5dae2223b00361a396177a9cb410ff61f20015ad".
Proof. vm_compute. reflexivity. Qed.

Example sha256_two_blocks :
  SHA256.hexdigest "abcdbcdecdefdefgefghfghighijhijkijkljklmklmnlmnomnopnopq" =
  "248d6a61d20638b8e5c026930c3e6039a33ce45964ff2167f6ecedd419db06c1".
Proof. vm_compute. reflexivity. Qed.

(** ** The monad *)

Lemma bind_ok {S A B} (m : M S A) (k : A -> M S B) s a s' :
  m s = (inr a, s') -> bind m k s = k a s'.
Proof. intros H. unfold bind. now rewrite H. Qed.

Lemma bind_raise {S A B} (m : M S A) (k : A -> M S B) s e s' :
  m s = (inl e, s') -> bind m k s = (inl e, s').
Proof. intros H. unfold bind. now rewrite H. Qed.

(** The outcome of a run, from its result alone. *)
Lemma run_result {A B} (p : A * B) (a : A) : p.1 = a -> p = (a, p.2).
Proof. destruct p. simpl. now intros ->. Qed.

Lemma ledger_world_eta (w : Ledger.world) :
  Ledger.World (Ledger.os w) (Ledger.self w) = w.
Proof. now destruct w. Qed.

(** ** [json.dumps]: a dictionary is encoded when its values are *)

Definition encoded {A} (r : exn + A) : Prop :=
  match r with inr _ => True | inl _ => False end.

Lemma collect_encoded {A} (l : list (exn + A)) :
  encoded (Json.collect l) <-> Forall encoded l.
Proof.
  induction l as [|[e|a] l IH]; simpl.
  - split; auto.
  - split; [tauto | intros H; inversion H; subst; tauto].
  - destruct (Json.collect l); simpl in *.
    + split; [tauto | intros H; inversion H; subst; tauto].
    + split; [intros _; constructor; simpl; tauto | trivial].
Qed.

Lemma Forall_insert_by_key {A} (P : string * A -> Prop) x l :
  Forall P (Json.insert_by_key x l) <-> P x /\ Forall P l.
Proof.
  induction l as [|y l IH]; simpl.
  - split; [intros H; inversion H; auto | intros [? ?]; auto].
  - destruct (String.ltb x.1 y.1).
    + split; [intros H; inversion H; auto | intros [? ?]; auto].
    + split.
      * intros H. inversion H as [|? ? Hy Hr]; subst.
        apply IH in Hr. destruct Hr. auto.
      * intros [Hx H]. inversion H; subst. constructor; [assumption|].
        apply IH. auto.
Qed.

Lemma Forall_sort_items {A} (P : string * A -> Prop) l :
  Forall P (Json.sort_items l) <-> Forall P l.
Proof.
  induction l as [|x l IH]; simpl; [tauto|].
  unfold Json.sort_items in *. simpl. rewrite Forall_insert_by_key, IH.
  split; [intros [? ?]; auto | intros H; inversion H; auto].
Qed.

Lemma dumps_dict_encoded d :
  encoded (Json.dumps (PyDict d))
  <-> Forall (fun kv : string * pyval => encoded (Json.dumps kv.2)) d.
Proof.
  change (Json.dumps (PyDict d)) with
    (match Json.collect
             (map Json.member
                  (Json.sort_items (map (fun kv => (kv.1, Json.dumps kv.2)) d))) with
     | inl e => inl e
     | inr parts => inr ("{" +:+ str_join ", " parts +:+ "}")
     end).
  transitivity
    (encoded (Json.collect
                (map Json.member
                     (Json.sort_items (map (fun kv => (kv.1, Json.dumps kv.2)) d))))).
  { destruct (Json.collect _); simpl; tauto. }
  rewrite collect_encoded, Forall_map.
  rewrite (Forall_sort_items (fun x => encoded (Json.member x))).
  rewrite Forall_map. apply Forall_iff. intros [k v]. simpl.
  unfold Json.member. simpl. destruct (Json.dumps v); simpl; tauto.
Qed.

(** ** [append_entry] *)

Section Append.

Import Ledger Props.

Ltac run_append :=
  cbv [bind ret raise lift gets modify when sys update zoom try_except
       OS.now os self append_entry _generate_entry_id _should_backup
       get_hijri_date _get_latest_hash and_then id].

(** The two outcomes of a call: an exception that leaves the object and the
    files as they were, or a new last entry and its index. *)
Lemma append_entry_inv d w r w' :
  append_entry d w = (r, w') ->
  OS.files (os w') = OS.files (os w) /\
  ((exists msg, r = inl (Exception msg) /\ self w' = self w) \/
   (exists entry_id ts hj prev h until,
       r = inr entry_id /\
       _get_latest_hash w = (inr prev, w) /\
       _calculate_hash
         (appended_entry entry_id d ts hj prev None (length (chain (self w))) until)
         false = inr h /\
       chain (self w') =
         chain (self w)
         ++ [appended_entry entry_id d ts hj prev (Some h)
                            (length (chain (self w))) until] /\
       chain_index (self w') =
         <[entry_id := length (chain (self w))]> (chain_index (self w)) /\
       genesis_hash (self w') = genesis_hash (self w) /\
       data_dir (self w') = data_dir (self w) /\
       max_verification_time_ms (self w') = max_verification_time_ms (self w))).
Proof.
  destruct w as [o l]. run_append.
  destruct (last (chain l)) as [entry|] eqn:Hlast;
    [destruct (getitem entry "hash") as [e|prev] eqn:Hh;
     [intros [= <- <-]; split; [reflexivity | left; eauto] |] |];
    (destruct (DateTime.add _ _) as [e|until] eqn:Hadd;
     [intros [= <- <-]; split; [reflexivity | left; eauto] |];
     destruct (_calculate_hash _ _) as [e|h] eqn:Hcalc;
     [intros [= <- <-]; split; [reflexivity | left; eauto] |];
     destruct (_ <? _); intros [= <- <-]; (split; [reflexivity |]); right;
     do 6 eexists; (split; [reflexivity |]); (split; [reflexivity |]);
     (split; [exact Hcalc |]); repeat split; reflexivity).
Qed.

(** What [_get_latest_hash] returns. *)
Lemma latest_hash_inv w prev :
  _get_latest_hash w = (inr prev, w) ->
  match last (chain (self w)) with
  | None => prev = PyStr (genesis_hash (self w))
  | Some entry => getitem entry "hash" = inr prev
  end.
Proof.
  unfold _get_latest_hash, bind, gets, ret, lift.
  destruct (last (chain (self w))); [|now intros [= <-]].
  destruct (getitem p "hash"); now intros [= <-].
Qed.

Lemma linked_snoc g c e prev :
  linked g c ->
  getitem e "previous_hash" = inr prev ->
  match last c with
  | None => prev = PyStr g
  | Some p => getitem p "hash" = inr prev
  end ->
  linked g (c ++ [e]).
Proof.
  intros [Hfirst Hnext] He Hlast. split.
  - intros e0 H0. destruct c as [|x c].
    + simpl in *. injection H0 as <-. now rewrite He, Hlast.
    + apply Hfirst. exact H0.
  - intros i p e' Hp He'.
    destruct (decide (S i < length c)%nat) as [Hlt|Hge].
    + rewrite lookup_app_l in Hp by lia. rewrite lookup_app_l in He' by lia.
      eauto.
    + assert (Hi : S i = length c).
      { apply lookup_lt_Some in He'. rewrite length_app in He'. simpl in He'. lia. }
      rewrite lookup_app_l in Hp by lia.
      rewrite lookup_app_r in He' by lia.
      rewrite Hi, Nat.sub_diag in He'. simpl in He'. injection He' as <-.
      rewrite last_lookup in Hlast.
      replace (pred (length c)) with i in Hlast by lia.
      rewrite Hp in Hlast. eauto.
Qed.

(** C5.  In every state that calls of [append_entry] reach from an empty
    chain, the first entry's [previous_hash] is the genesis sentinel and
    every later entry's [previous_hash] is the [hash] of the entry before
    it. *)
Theorem append_keeps_chain_linked w :
  built w -> linked (genesis_hash (self w)) (chain (self w)).
Proof.
  induction 1 as [w Hempty | w w' Hb IH (o & d & r & Happ)].
  - rewrite Hempty. split; intros; discriminate.
  - apply append_entry_inv in Happ as [_ [(msg & _ & Hself) | Hnew]].
    + now rewrite Hself.
    + destruct Hnew as (entry_id & ts & hj & prev & h & until & _ & Hlatest & _
                        & Hchain & _ & Hgen & _).
      simpl in *. rewrite Hchain, Hgen.
      apply linked_snoc with (prev := prev); [exact IH | reflexivity |].
      apply latest_hash_inv in Hlatest. exact Hlatest.
Qed.

(** C6.  A payload that [json] cannot encode makes [append_entry] raise,
    and the object (chain, index and all) and the files stay as they
    were. *)
Theorem append_rejects_unserializable d w e :
  Json.dumps (PyDict d) = inl e ->
  exists msg w',
    append_entry d w = (inl (Exception msg), w')
    /\ self w' = self w
    /\ OS.files (os w') = OS.files (os w).
Proof.
  intros Hd.
  destruct (append_entry d w) as [r w'] eqn:Happ.
  destruct (append_entry_inv _ _ _ _ Happ) as [Hfiles [(msg & -> & Hself) | Hnew]].
  - eauto.
  - exfalso.
    destruct Hnew as (entry_id & ts & hj & prev & h & until & _ & _ & Hcalc & _).
    unfold _calculate_hash, appended_entry in Hcalc. cbn [andb] in Hcalc.
    match type of Hcalc with
    | match ?x with _ => _ end = _ =>
        assert (Henc : encoded x) by (destruct x; [discriminate | exact I])
    end.
    apply dumps_dict_encoded in Henc.
    inversion Henc as [|? ? _ Hrest]; subst.
    inversion Hrest as [|? ? Hdata _]; subst.
    change (encoded (Json.dumps (PyDict d))) in Hdata.
    rewrite Hd in Hdata. exact Hdata.
Qed.

(** C10.  Without a ['confidence'] key [log_bias_alert] raises a
    [KeyError] before it appends: the object and the files stay as they
    were. *)
Theorem bias_alert_needs_confidence entry_id bias_result w :
  dict_lookup "confidence" bias_result = None ->
  exists w',
    log_bias_alert entry_id bias_result w = (inl (KeyError "confidence"), w')
    /\ self w' = self w
    /\ OS.files (os w') = OS.files (os w).
Proof.
  intros H. destruct w as [o l].
  cbv [log_bias_alert bind ret lift gets sys zoom OS.now os self getitem].
  rewrite H. eexists. split; [reflexivity |]. split; reflexivity.
Qed.

End Append.

(** ** [verify_range] *)

Section Range.

Import Ledger Props.

Lemma in_range_selects s e f entry keep :
  in_range s e f entry = inr keep -> keep = selects s e f entry.
Proof.
  unfold in_range, selects, and_then.
  destruct (entry_date entry) as [x|t]; [discriminate|].
  destruct ((s <=? t) && (t <=? e)); simpl; [|now intros [= <-]].
  destruct f as [wanted|]; [|now intros [= <-]].
  destruct (getitem entry "data") as [x|data]; [discriminate|].
  destruct data; simpl; try discriminate. now intros [= <-].
Qed.

Lemma matching_filter s e f c m :
  matching s e f c = inr m -> m = List.filter (selects s e f) c.
Proof.
  revert m. induction c as [|entry c IH]; simpl; intros m.
  - now intros [= <-].
  - unfold and_then.
    destruct (in_range s e f entry) as [x|keep] eqn:Hk; [discriminate|].
    destruct (matching s e f c) as [x|more]; [discriminate|].
    intros [= <-]. apply in_range_selects in Hk. subst keep.
    rewrite (IH more eq_refl). reflexivity.
Qed.

Lemma range_check_report entry o :
  range_check entry = inr o ->
  o = if self_consistent entry then None else Some (mismatch_report entry).
Proof.
  unfold range_check, self_consistent, mismatch_report, and_then.
  destruct (_calculate_hash entry true) as [x|expected]; [discriminate|].
  destruct (getitem entry "hash") as [x|actual]; [discriminate|].
  destruct (py_eq actual (PyStr expected)); simpl; [now intros [= <-]|].
  destruct (getitem entry "id") as [x|entry_id]; [discriminate|].
  destruct (getitem entry "timestamp") as [x|ts]; [discriminate|].
  now intros [= <-].
Qed.

Lemma range_loop_reports m recs :
  range_loop m = inr recs ->
  recs = map mismatch_report (List.filter (fun e => negb (self_consistent e)) m).
Proof.
  revert recs. induction m as [|entry m IH]; simpl; intros recs.
  - now intros [= <-].
  - unfold and_then.
    destruct (range_check entry) as [x|o] eqn:Hc; [discriminate|].
    destruct (range_loop m) as [x|more]; [discriminate|].
    intros [= <-]. apply range_check_report in Hc. subst o.
    rewrite (IH more eq_refl).
    destruct (self_consistent entry); reflexivity.
Qed.

Lemma no_report_all_consistent m :
  match map mismatch_report (List.filter (fun e => negb (self_consistent e)) m) with
  | [] => false
  | _ => true
  end = negb (forallb self_consistent m).
Proof.
  induction m as [|entry m IH]; simpl; [reflexivity|].
  destruct (self_consistent entry); simpl; [exact IH | reflexivity].
Qed.

(** C9.  When [verify_range] returns, it has changed nothing, its
    [entries_count] is the number of entries whose timestamp lies in the
    range and whose decision type passes the filter, [valid] says that each
    of these is self-consistent (stored hash = recomputed hash), and
    [corrupted_entries] reports the others, one record each: the link of an
    entry to its predecessor plays no part. *)
Theorem verify_range_checks_selected_hashes w start_date end_date decision_type r w' :
  verify_range start_date end_date decision_type w = (inr r, w') ->
  let selected :=
    List.filter (selects start_date end_date decision_type) (chain (self w)) in
  w' = w
  /\ field r "entries_count" = Some (PyInt (Z.of_nat (length selected)))
  /\ field r "valid" = Some (PyBool (forallb self_consistent selected))
  /\ field r "corrupted_entries"
     = Some (PyList (map mismatch_report
                         (List.filter (fun e => negb (self_consistent e)) selected))).
Proof.
  unfold verify_range, verify_range_of, bind, gets, lift, and_then.
  destruct (matching _ _ _ _) as [x|m] eqn:Hm; [discriminate|].
  destruct (range_loop m) as [x|recs] eqn:Hr; [discriminate|].
  intros [= <- <-]. apply matching_filter in Hm. apply range_loop_reports in Hr.
  subst m recs. cbv zeta.
  split; [reflexivity|]. split; [reflexivity|]. split; [|reflexivity].
  cbn [field dict_lookup String.eqb Ascii.eqb Bool.eqb].
  rewrite no_report_all_consistent, negb_involutive. reflexivity.
Qed.

End Range.

(** ** [verify_chain_integrity] on a chain whose third entry was tampered
    with *)

Section Tampered.

Import Ledger Props.

Lemma well_formed_snoc c : forall prev pos entry_id d ts hj p h until,
  well_formed prev pos c ->
  match last c with
  | None => p = prev
  | Some e => getitem e "hash" = inr p
  end ->
  _calculate_hash (appended_entry entry_id d ts hj p None (pos + length c) until) false
  = inr h ->
  well_formed prev pos
    (c ++ [appended_entry entry_id d ts hj p (Some h) (pos + length c) until]).
Proof.
  induction c as [|e c IH]; intros prev pos entry_id d ts hj p h until Hwf Hlast Hcalc.
  - simpl in *. subst p. rewrite Nat.add_0_r in *.
    exists entry_id, d, ts, hj, until, h. auto.
  - destruct Hwf as (id0 & d0 & ts0 & hj0 & until0 & h0 & -> & Hc0 & Hwf).
    exists id0, d0, ts0, hj0, until0, h0. split; [reflexivity|]. split; [exact Hc0|].
    replace (pos + length (appended_entry id0 d0 ts0 hj0 prev (Some h0) pos until0 :: c))%nat
      with (S pos + length c)%nat in * by (simpl; lia).
    apply IH; [exact Hwf | | exact Hcalc].
    destruct c as [|e' c'].
    + simpl in Hlast. injection Hlast as <-. reflexivity.
    + change (last (_ :: e' :: c')) with (last (e' :: c')) in Hlast.
      destruct (last (e' :: c')) eqn:E; [exact Hlast|].
      apply last_None in E. discriminate.
Qed.

Lemma appended_well_formed n w :
  appended n w ->
  length (chain (self w)) = n
  /\ well_formed (PyStr (genesis_hash (self w))) 0 (chain (self w)).
Proof.
  induction 1 as [w Hempty | n w o d entry_id w' _ [Hlen Hwf] Happ].
  - rewrite Hempty. split; [reflexivity | exact I].
  - apply append_entry_inv in Happ as [_ [(msg & Hr & _) | Hnew]]; [discriminate|].
    destruct Hnew as (id' & ts & hj & prev & h & until & _ & Hlatest & Hcalc
                      & Hchain & _ & Hgen & _).
    simpl in *. rewrite Hchain, Hgen. split.
    + rewrite length_app. simpl. lia.
    + apply latest_hash_inv in Hlatest. simpl in Hlatest.
      apply (well_formed_snoc _ _ 0%nat); [exact Hwf | | exact Hcalc].
      destruct (last (chain (self w))); [exact Hlatest | exact Hlatest].
Qed.

(** The hash recomputed over an appended entry does not depend on the hash
    that is stored in it. *)
Lemma recompute_appended entry_id d ts hj prev pos until h :
  _calculate_hash (appended_entry entry_id d ts hj prev None pos until) false = inr h ->
  exists x, forall stored,
    _calculate_hash (appended_entry entry_id d ts hj prev stored pos until) true = inr x.
Proof.
  intros Hcalc.
  unfold _calculate_hash, appended_entry in Hcalc. cbn [andb] in Hcalc.
  match type of Hcalc with
  | match ?x with _ => _ end = _ =>
      assert (Henc : encoded x) by (destruct x; [discriminate | exact I])
  end.
  apply dumps_dict_encoded in Henc.
  set (rest := [("id", PyStr entry_id); ("data", PyDict d); ("timestamp", PyStr ts);
                ("timestamp_hijri", PyStr hj); ("previous_hash", prev);
                ("chain_position", PyInt (Z.of_nat pos));
                ("retention_until", PyStr until)]).
  assert (Henc' : encoded (Json.dumps (PyDict rest))).
  { apply dumps_dict_encoded. subst rest.
    repeat match goal with
           | H : Forall _ (_ :: _) |- _ => inversion H; subst; clear H
           end.
    repeat constructor; assumption. }
  destruct (Json.dumps (PyDict rest)) as [e|s] eqn:Hs; [contradiction|].
  exists (SHA256.hexdigest s). intros stored.
  unfold _calculate_hash, appended_entry.
  change (dict_mem "hash" _) with true. cbn [andb].
  change (dict_del "hash" _) with rest.
  rewrite Hs. reflexivity.
Qed.

Lemma any_app a b : any (a ++ b) = any a || any b.
Proof. destruct a; reflexivity. Qed.

Lemma found_any_list o : found_any o = any (option_list o).
Proof. destruct o; reflexivity. Qed.

(** The loop either stops on the time check, with a report that carries an
    [error], or ends with what [scan] collects. *)
Lemma verify_loop_outcome entries : forall start i prev found acc w recs,
  scan i prev entries = inr recs ->
  exists w',
    (exists report,
        verify_loop start i prev entries found acc w = (inr (inl report), w')
        /\ field report "valid" = Some (PyBool false)
        /\ field report "error" = Some (PyStr "Verification timeout"))
    \/ verify_loop start i prev entries found acc w
       = (inr (inr (found || any recs, acc ++ recs)), w').
Proof.
  induction entries as [|entry rest IH]; intros start i prev found acc w recs Hscan.
  - simpl in Hscan. injection Hscan as <-. exists w. right.
    simpl. unfold ret. rewrite orb_false_r, app_nil_r. reflexivity.
  - simpl in Hscan.
    destruct (check_hash i entry) as [e|a] eqn:Ha; [discriminate|].
    destruct (check_link i prev entry) as [e|b] eqn:Hb; [discriminate|].
    destruct (scan (S i) (Some entry) rest) as [e|more] eqn:Hmore; [discriminate|].
    injection Hscan as <-.
    cbn [verify_loop]. rewrite Ha, Hb.
    cbv [bind ret lift gets sys zoom OS.now os self].
    destruct w as [o l]. cbv [os self].
    destruct (PyFloat.gt_int _ _).
    + eexists. left. eexists. split; [reflexivity|]. split; reflexivity.
    + destruct (IH start (S i) (Some entry)
                   (found || found_any a || found_any b)
                   (acc ++ option_list a ++ option_list b)
                   (World (OS.tick o) l) more Hmore) as [w' [Hto | Hdone]].
      * exists w'. left. exact Hto.
      * exists w'. right. rewrite Hdone.
        rewrite !found_any_list, !any_app, <- !app_assoc, !orb_assoc. reflexivity.
Qed.

Lemma check_hash_appended i entry_id d ts hj prev stored pos until x :
  _calculate_hash (appended_entry entry_id d ts hj prev (Some stored) pos until) true
  = inr x ->
  check_hash i (appended_entry entry_id d ts hj prev (Some stored) pos until)
  = inr (if String.eqb stored x then None
         else Some (PyDict [("position", PyInt (Z.of_nat i));
                            ("entry_id", PyStr entry_id);
                            ("expected_hash", PyStr x);
                            ("actual_hash", PyStr stored)])).
Proof.
  intros Hx. unfold check_hash. rewrite Hx.
  unfold and_then, appended_entry.
  change (getitem (PyDict _) "hash") with (inr (PyStr stored) : exn + pyval).
  change (getitem (PyDict _) "id") with (inr (PyStr entry_id) : exn + pyval).
  cbn [py_eq]. destruct (String.eqb stored x); reflexivity.
Qed.

Lemma check_link_appended i id0 d0 ts0 hj0 prev0 h0 pos0 until0
      entry_id d ts hj link stored pos until :
  check_link i (Some (appended_entry id0 d0 ts0 hj0 prev0 (Some h0) pos0 until0))
             (appended_entry entry_id d ts hj (PyStr link) stored pos until)
  = inr (if String.eqb link h0 then None
         else Some (PyDict [("position", PyInt (Z.of_nat i));
                            ("entry_id", PyStr entry_id);
                            ("chain_link_broken", PyBool true)])).
Proof.
  unfold check_link, and_then, appended_entry.
  change (getitem (PyDict _) "previous_hash") with (inr (PyStr link) : exn + pyval).
  change (getitem (PyDict _) "hash") with (inr (PyStr h0) : exn + pyval).
  change (getitem (PyDict _) "id") with (inr (PyStr entry_id) : exn + pyval).
  cbn [py_eq]. destruct (String.eqb link h0); reflexivity.
Qed.

Lemma check_link_first i entry : check_link i None entry = inr None.
Proof. reflexivity. Qed.

(** C3, amended.  Five entries appended to an empty chain, the stored hash
    of entry 2 replaced by a string that is neither the stored hash nor the
    hash recomputed over the entry, and a ledger that has loaded that
    chain: [verify_chain_integrity] always returns [valid = False]; unless
    its report carries an [error] (the time check stopped it, or the
    corruption report could not be written), [corrupted_entries] holds a
    hash record for position 2 and a [chain_link_broken] record for
    position 3, for entry 3 still points to the hash that was replaced.
    The records are two at least, and the score, 1 - records/5, is at
    most 0.6. *)
Theorem mutated_hash_is_reported_twice w5 w new_hash entry :
  appended 5 w5 ->
  chain (self w5) !! 2%nat = Some entry ->
  getitem entry "hash" <> inr (PyStr new_hash) ->
  _calculate_hash entry true <> inr new_hash ->
  chain (self w) = alter (mutate_hash new_hash) 2%nat (chain (self w5)) ->
  exists r w',
    verify_chain_integrity w = (inr r, w')
    /\ field r "valid" = Some (PyBool false)
    /\ (field r "error" = None ->
        exists records,
          field r "corrupted_entries" = Some (PyList records)
          /\ (exists entry_id x,
                 In (PyDict [("position", PyInt 2); ("entry_id", entry_id);
                             ("expected_hash", PyStr x);
                             ("actual_hash", PyStr new_hash)]) records)
          /\ (exists entry_id,
                 In (PyDict [("position", PyInt 3); ("entry_id", entry_id);
                             ("chain_link_broken", PyBool true)]) records)
          /\ (2 <= length records)%nat
          /\ field r "integrity_score"
             = Some (PyFloat (integrity_score (length records) 5))
          /\ PrimFloat.leb (integrity_score (length records) 5)
                           0x1.3333333333333p-1 = true).
Proof.
  intros Happ Hentry Hstored Hrecomputed Hchain.
  apply appended_well_formed in Happ as [Hlen Hwf].
  destruct (chain (self w5)) as [|e0 [|e1 [|e2 [|e3 [|e4 [|? ?]]]]]]; try discriminate.
  cbn [well_formed] in Hwf.
  destruct Hwf as (id0 & d0 & ts0 & hj0 & until0 & h0 & -> & Hc0 & Hwf).
  destruct Hwf as (id1 & d1 & ts1 & hj1 & until1 & h1 & -> & Hc1 & Hwf).
  destruct Hwf as (id2 & d2 & ts2 & hj2 & until2 & h2 & -> & Hc2 & Hwf).
  destruct Hwf as (id3 & d3 & ts3 & hj3 & until3 & h3 & -> & Hc3 & Hwf).
  destruct Hwf as (id4 & d4 & ts4 & hj4 & until4 & h4 & -> & Hc4 & _).
  injection Hentry as <-.
  apply recompute_appended in Hc0 as [x0 Hx0].
  apply recompute_appended in Hc1 as [x1 Hx1].
  apply recompute_appended in Hc2 as [x2 Hx2].
  apply recompute_appended in Hc3 as [x3 Hx3].
  apply recompute_appended in Hc4 as [x4 Hx4].
  assert (Hne_stored : String.eqb h2 new_hash = false).
  { apply String.eqb_neq. intros ->. apply Hstored. reflexivity. }
  assert (Hne_recomputed : String.eqb new_hash x2 = false).
  { apply String.eqb_neq. intros ->. apply Hrecomputed.
    apply (Hx2 (Some h2)). }
  change (alter (mutate_hash new_hash) 2%nat _) with
    [appended_entry id0 d0 ts0 hj0 (PyStr (genesis_hash (self w5))) (Some h0) 0 until0;
     appended_entry id1 d1 ts1 hj1 (PyStr h0) (Some h1) 1 until1;
     appended_entry id2 d2 ts2 hj2 (PyStr h1) (Some new_hash) 2 until2;
     appended_entry id3 d3 ts3 hj3 (PyStr h2) (Some h3) 3 until3;
     appended_entry id4 d4 ts4 hj4 (PyStr h3) (Some h4) 4 until4] in Hchain.
  match type of Hchain with _ = ?c => set (mutated := c) in * end.
  assert (Hscan : exists recs,
             scan 0 None mutated = inr recs
             /\ (exists entry_id x,
                    In (PyDict [("position", PyInt 2); ("entry_id", entry_id);
                                ("expected_hash", PyStr x);
                                ("actual_hash", PyStr new_hash)]) recs)
             /\ (exists entry_id,
                    In (PyDict [("position", PyInt 3); ("entry_id", entry_id);
                                ("chain_link_broken", PyBool true)]) recs)
             /\ (2 <= length recs)%nat
             /\ PrimFloat.leb (integrity_score (length recs) 5)
                              0x1.3333333333333p-1 = true).
  { subst mutated. cbn [scan].
    rewrite check_link_first, !check_link_appended.
    rewrite (check_hash_appended _ _ _ _ _ _ _ _ _ _ (Hx0 _)).
    rewrite (check_hash_appended _ _ _ _ _ _ _ _ _ _ (Hx1 _)).
    rewrite (check_hash_appended _ _ _ _ _ _ _ _ _ _ (Hx2 _)).
    rewrite (check_hash_appended _ _ _ _ _ _ _ _ _ _ (Hx3 _)).
    rewrite (check_hash_appended _ _ _ _ _ _ _ _ _ _ (Hx4 _)).
    rewrite !String.eqb_refl, Hne_stored, Hne_recomputed.
    destruct (String.eqb h0 x0), (String.eqb h1 x1), (String.eqb h3 x3),
             (String.eqb h4 x4);
      (eexists; split; [reflexivity|];
       split; [exists (PyStr id2), x2; cbn; tauto|];
       split; [exists (PyStr id3); cbn; tauto|];
       split; [cbn; lia | vm_compute; reflexivity]). }
  destruct Hscan as (recs & Hscan & Hpos2 & Hpos3 & Hlen2 & Hscore).
  destruct w as [o l]. cbn [self] in Hchain.
  destruct (verify_loop_outcome mutated (OS.clock o (OS.ticks o)) 0 None false []
              (World (OS.tick o) l) recs Hscan) as [w1 [(report & Hloop & Hvalid & Herror) | Hloop]].
  - exists report, w1.
    cbv [verify_chain_integrity bind gets ret sys zoom OS.now try_except os self].
    rewrite Hchain. unfold mutated at 1. cbv iota. 
    cbv [bind] in Hloop |- *. rewrite Hloop.
    split; [reflexivity|]. split; [exact Hvalid|].
    rewrite Herror. discriminate.
  - assert (Hany : any recs = true).
    { destruct recs; [simpl in Hlen2; lia | reflexivity]. }
    cbn [orb app] in Hloop. rewrite Hany in Hloop.
    cbv [verify_chain_integrity bind gets ret sys zoom OS.now try_except os self when].
    rewrite Hchain. unfold mutated at 1. cbv iota.
    cbv [bind] in Hloop |- *. rewrite Hloop.
    destruct w1 as [o1 l1]. cbv [os self].
    destruct (_handle_corruption recs _) as [[e|[]] w2].
    + eexists _, _. split; [reflexivity|]. split; [reflexivity|].
      cbn. discriminate.
    + eexists _, _. split; [reflexivity|]. split; [reflexivity|].
      intros _. exists recs.
      split; [reflexivity|]. split; [exact Hpos2|]. split; [exact Hpos3|].
      split; [exact Hlen2|]. split; [reflexivity | exact Hscore].
Qed.

End Tampered.

(** ** [restore_from_backup] and [perform_recovery] *)

Section Restore.

Import Props Backup.

Ltac split_match :=
  match goal with
  | |- context [match ?x with _ => _ end] =>
      match x with
      | context [match _ with _ => _ end] => fail 1
      | _ => destruct x eqn:?
      end
  end.

(** [_verify_backup] only reads. *)
Lemma verify_backup_reads backup_dir w r w' :
  _verify_backup backup_dir w = (r, w') ->
  OS.files (os w') = OS.files (os w) /\ self w' = self w /\ exists v, r = inr v.
Proof.
  destruct w as [o b].
  cbv [_verify_backup bind ret raise lift gets sys zoom try_except
       OS.json_load OS.read_bytes OS.now os self id].
  repeat split_match; intros [= <- <-]; repeat split; eauto.
Qed.

(** C8.  When the backup id is found in no tier, or when the backup found
    fails [_verify_backup], [restore_from_backup] returns a failure and
    has written nothing: the files are those of before the call, and so is
    the object. *)
Theorem restore_refuses_without_writing backup_id restore_path w :
  (_find_backup backup_id (self w) (os w) = None
   \/ exists backup_dir v w1,
        _find_backup backup_id (self w) (os w) = Some backup_dir
        /\ _verify_backup backup_dir (World (OS.tick (os w)) (self w)) = (inr v, w1)
        /\ field v "valid" = Some (PyBool false)) ->
  exists r w',
    restore_from_backup backup_id restore_path w = (inr r, w')
    /\ field r "success" = Some (PyBool false)
    /\ OS.files (os w') = OS.files (os w)
    /\ self w' = self w.
Proof.
  destruct w as [o b]. cbn [os self].
  change (_find_backup backup_id b o) with (_find_backup backup_id b (OS.tick o)).
  intros H.
  unfold restore_from_backup.
  cbv [bind ret raise lift gets sys zoom try_except OS.now os self].
  destruct H as [Hnone | (backup_dir & v & w1 & Hsome & Hverify & Hvalid)].
  - rewrite Hnone. eexists _, _. split; [reflexivity|]. repeat split.
  - rewrite Hsome.
    destruct (OS.exists_ _ _); cbn [negb];
      [| eexists _, _; split; [reflexivity|]; repeat split].
    destruct (OS.json_load _ _) as [[e|manifest] o'] eqn:Hload.
    + assert (Hfiles : OS.files o' = OS.files o).
      { revert Hload. cbv [OS.json_load OS.read_bytes bind ret raise gets id].
        repeat split_match; intros Heq; inversion Heq; subst; reflexivity. }
      eexists _, _. split; [reflexivity|]. cbn [os self]. repeat split. exact Hfiles.
    + assert (Ho' : o' = OS.tick o).
      { revert Hload. cbv [OS.json_load OS.read_bytes bind ret raise gets id].
        repeat split_match; intros Heq; inversion Heq; subst; reflexivity. }
      subst o'. rewrite Hverify.
      destruct (verify_backup_reads _ _ _ _ Hverify) as (Hf & Hs & _).
      destruct w1 as [o1 b1]. cbn [os self] in *. subst b1.
      destruct v as [| | | | | |d|]; try discriminate. cbn [field] in Hvalid.
      cbn [getitem]. rewrite Hvalid. cbn [truthy negb].
      eexists _, _. split; [reflexivity|]. cbn [os self]. repeat split. exact Hf.
Qed.

End Restore.

Section SingleFlight.

Import Props Recovery.

(** C7.  While a recovery is in progress, [perform_recovery] returns at
    once the result that says so, and changes nothing: neither the object
    (flag, history) nor the files. *)
Theorem second_recovery_is_refused recovery_point_id target_time verification_mode w :
  recovery_in_progress (self w) = true ->
  perform_recovery recovery_point_id target_time verification_mode w
  = (inr (PyDict [("success", PyBool false);
                  ("error", PyStr "Recovery operation already in progress");
                  ("current_recovery", PyBool true)]), w).
Proof.
  intros H. unfold perform_recovery, bind, gets, ret. rewrite H. reflexivity.
Qed.
End SingleFlight.

(* ===================================================================== *)
(** * Further properties *)

Section Frames.

Import Laws.

Context {S X : Type} (f : S -> X).

Lemma same_ret {A} (a : A) : preserves (same f) (ret a).
Proof. intros s. reflexivity. Qed.

Lemma same_raise {A} e : preserves (same f) (raise (A := A) e).
Proof. intros s. reflexivity. Qed.

Lemma same_lift {A} (r : exn + A) : preserves (same f) (lift r).
Proof. intros s. reflexivity. Qed.

Lemma same_gets {A} (g : S -> A) : preserves (same f) (gets g).
Proof. intros s. reflexivity. Qed.

Lemma same_bind {A B} (m : M S A) (k : A -> M S B) :
  preserves (same f) m -> (forall a, preserves (same f) (k a)) ->
  preserves (same f) (bind m k).
Proof.
  intros Hm Hk s. unfold bind. specialize (Hm s).
  destruct (m s) as [[e|a] s1]; [exact Hm|].
  specialize (Hk a s1). unfold same in *. simpl in *. congruence.
Qed.

Lemma same_try_except {A} (m : M S A) (h : exn -> M S A) :
  preserves (same f) m -> (forall e, preserves (same f) (h e)) ->
  preserves (same f) (try_except m h).
Proof.
  intros Hm Hh s. unfold try_except. specialize (Hm s).
  destruct (m s) as [[e|a] s1]; [|exact Hm].
  specialize (Hh e s1). unfold same in *. simpl in *. congruence.
Qed.

Lemma same_try_finally {A} (m : M S A) (fin : M S unit) :
  preserves (same f) m -> preserves (same f) fin ->
  preserves (same f) (try_finally m fin).
Proof.
  intros Hm Hf s. unfold try_finally. specialize (Hm s).
  destruct (m s) as [r s1]. specialize (Hf s1).
  destruct (fin s1) as [[e|u] s2]; unfold same in *; simpl in *; congruence.
Qed.

Lemma same_when (c : bool) (m : M S unit) :
  preserves (same f) m -> preserves (same f) (when c m).
Proof. intros Hm. destruct c; [exact Hm | apply same_ret]. Qed.

Lemma same_for_each {A} (l : list A) (body : A -> M S unit) :
  (forall a, preserves (same f) (body a)) -> preserves (same f) (for_each l body).
Proof.
  intros Hb. induction l as [|a l IH]; simpl; [apply same_ret|].
  apply same_bind; [apply Hb | intros _; exact IH].
Qed.

Lemma same_gather {A} (l : list A) (step : A -> M S (list pyval)) :
  (forall a, preserves (same f) (step a)) -> preserves (same f) (gather l step).
Proof.
  intros Hb. induction l as [|a l IH]; simpl; [apply same_ret|].
  apply same_bind; [apply Hb | intros x].
  apply same_bind; [exact IH | intros y; apply same_ret].
Qed.

Lemma returns_ret {A} (a : A) : returns (S := S) (ret a).
Proof. intros s. now exists a. Qed.

Lemma returns_gets {A} (g : S -> A) : returns (gets g).
Proof. intros s. now exists (g s). Qed.

Lemma returns_bind {A B} (m : M S A) (k : A -> M S B) :
  returns m -> (forall a, returns (k a)) -> returns (bind m k).
Proof.
  intros Hm Hk s. unfold bind. destruct (Hm s) as [a Ha].
  destruct (m s) as [r s1]. simpl in Ha. subst r. apply Hk.
Qed.

Lemma returns_try_except {A} (m : M S A) (h : exn -> M S A) :
  (forall e, returns (h e)) -> returns (try_except m h).
Proof.
  intros Hh s. unfold try_except.
  destruct (m s) as [[e|a] s1]; [apply Hh | now exists a].
Qed.

Lemma returns_run {A} (m : M S A) s :
  returns m -> exists a s', m s = (inr a, s').
Proof.
  intros Hm. destruct (Hm s) as [a Ha]. destruct (m s) as [r s']. simpl in Ha.
  subst r. eauto.
Qed.

End Frames.

(** One step of a proof that a computation preserves [same f]: the monad's
    own combinators, then the branches of the code. *)
Ltac frame_step :=
  first
    [ apply same_ret | apply same_raise | apply same_lift | apply same_gets
    | apply same_bind; [| intros ?]
    | apply same_try_except; [| intros ?]
    | apply same_try_finally
    | apply same_when
    | apply same_for_each; intros ?
    | apply same_gather; intros ?
    | match goal with
      | |- Laws.preserves _ (if ?c then _ else _) => destruct c
      | |- Laws.preserves _ (match ?x with _ => _ end) => destruct x
      end ].

Section LedgerLaws.

Import Ledger Props Laws.

Lemma ledger_sys_self {A X} (g : HashChainedLedger -> X) (m : M OS.t A) :
  preserves (same (fun w => g (self w))) (sys m).
Proof. intros [o l]. unfold sys, zoom, same. simpl. destruct (m o). reflexivity. Qed.

Lemma ledger_sys_os {A X} (g : OS.t -> X) (m : M OS.t A) :
  preserves (same g) m -> preserves (same (fun w => g (os w))) (sys m).
Proof.
  intros Hm [o l]. unfold sys, zoom, same. simpl. specialize (Hm o).
  destruct (m o). exact Hm.
Qed.

Lemma ledger_update_os {X} (g : OS.t -> X) u :
  preserves (same (fun w => g (os w))) (update u).
Proof. intros [o l]. reflexivity. Qed.

Lemma check_hash_consistent i entry :
  check_hash i entry = inr None <-> self_consistent entry = true.
Proof.
  unfold check_hash, self_consistent, and_then.
  destruct (_calculate_hash entry true) as [e|expected]; [split; discriminate|].
  destruct (getitem entry "hash") as [e|actual]; [split; discriminate|].
  destruct (py_eq actual (PyStr expected)); simpl; [tauto|].
  destruct (getitem entry "id"); split; discriminate.
Qed.

Lemma check_link_ok i previous_entry entry :
  check_link i previous_entry entry = inr None <-> link_ok previous_entry entry = true.
Proof.
  unfold check_link, link_ok, and_then.
  destruct previous_entry as [previous|]; [|tauto].
  destruct (getitem entry "previous_hash") as [e|link]; [split; discriminate|].
  destruct (getitem previous "hash") as [e|h]; [split; discriminate|].
  destruct (py_eq link h); simpl; [tauto|].
  destruct (getitem entry "id"); split; discriminate.
Qed.

Lemma later_tick n o : later n (OS.tick o) = OS.tick (later n o).
Proof. induction n as [|n IH]; simpl; [reflexivity | now rewrite IH]. Qed.

Lemma later_view n o :
  OS.clock (later n o) = OS.clock o
  /\ OS.ticks (later n o) = (OS.ticks o + n)%nat
  /\ OS.files (later n o) = OS.files o.
Proof.
  induction n as [|n (Hc & Ht & Hf)]; simpl.
  - repeat split. lia.
  - rewrite Hc, Ht, Hf. repeat split. lia.
Qed.

(** The loop over entries that all pass, when the time check lets it run:
    it collects nothing and reads the clock once for each entry. *)
Lemma verify_loop_clean entries : forall start i prev found acc o l,
  chain_ok prev entries = true ->
  (forall k, (k < length entries)%nat ->
     PyFloat.gt_int (DateTime.elapsed_ms (OS.clock o (OS.ticks o + k)) start)
                    (max_verification_time_ms l) = false) ->
  verify_loop start i prev entries found acc (World o l)
  = (inr (inr (found, acc)), World (later (length entries) o) l).
Proof.
  induction entries as [|entry rest IH]; intros start i prev found acc o l Hok Ht.
  - reflexivity.
  - simpl in Hok. apply andb_prop in Hok as [Hok Hrest]. apply andb_prop in Hok as [Hh Hl].
    apply (check_hash_consistent i) in Hh. apply (check_link_ok i) in Hl.
    cbn [verify_loop]. rewrite Hh, Hl.
    cbv [bind ret lift gets sys zoom OS.now os self].
    pose proof (Ht 0%nat ltac:(simpl; lia)) as H0. rewrite Nat.add_0_r in H0. rewrite H0.
    cbn [found_any option_list app]. rewrite !orb_false_r, app_nil_r.
    rewrite (IH start (S i) (Some entry) found acc (OS.tick o) l Hrest).
    + cbn [length]. rewrite later_tick. reflexivity.
    + intros k Hk. simpl. replace (S (OS.ticks o + k)) with (OS.ticks o + S k)%nat by lia.
      apply Ht. simpl. lia.
Qed.

(** What the loop returns when it ends without a finding. *)
Lemma verify_loop_found entries : forall start i prev found acc w recs w',
  verify_loop start i prev entries found acc w = (inr (inr (false, recs)), w') ->
  found = false /\ chain_ok prev entries = true.
Proof.
  induction entries as [|entry rest IH]; intros start i prev found acc w recs w'.
  - simpl. unfold ret. intros [= -> _ _]. split; reflexivity.
  - cbn [verify_loop].
    destruct (check_hash i entry) as [e|a] eqn:Ha;
      [cbv [bind lift]; discriminate|].
    destruct (check_link i prev entry) as [e|b] eqn:Hb;
      [cbv [bind lift]; discriminate|].
    cbv [bind ret lift gets sys zoom OS.now os self]. destruct w as [o l]. cbv [os self].
    destruct (PyFloat.gt_int _ _); [discriminate|].
    intros Hloop. apply IH in Hloop as [Hf Hrest].
    apply orb_false_elim in Hf as [Hf Hb']. apply orb_false_elim in Hf as [Hf Ha'].
    destruct a; [discriminate|]. destruct b; [discriminate|].
    apply check_hash_consistent in Ha. apply check_link_ok in Hb.
    split; [exact Hf|]. simpl. now rewrite Ha, Hb, Hrest.
Qed.

(** A report that the time check returns says [valid = False]. *)
Lemma verify_loop_timeout entries : forall start i prev found acc w report w',
  verify_loop start i prev entries found acc w = (inr (inl report), w') ->
  field report "valid" = Some (PyBool false).
Proof.
  induction entries as [|entry rest IH]; intros start i prev found acc w report w'.
  - simpl. unfold ret. discriminate.
  - cbn [verify_loop].
    destruct (check_hash i entry) as [e|a] eqn:Ha;
      [cbv [bind lift]; discriminate|].
    destruct (check_link i prev entry) as [e|b] eqn:Hb;
      [cbv [bind lift]; discriminate|].
    cbv [bind ret lift gets sys zoom OS.now os self]. destruct w as [o l]. cbv [os self].
    destruct (PyFloat.gt_int _ _); [intros [= <- _]; reflexivity|].
    apply IH.
Qed.


Lemma now_files : preserves (same OS.files) OS.now.
Proof. intros o. reflexivity. Qed.

Lemma verify_loop_frame {X} (g : HashChainedLedger -> X) entries :
  forall start i prev found acc,
    preserves (same (fun w => g (self w)))
              (verify_loop start i prev entries found acc)
    /\ preserves (same (fun w => OS.files (os w)))
                 (verify_loop start i prev entries found acc).
Proof.
  induction entries as [|entry rest IH]; intros start i prev found acc;
    cbn [verify_loop]; split.
  1,2: apply same_ret.
  - repeat first [ apply ledger_sys_self | apply (proj1 (IH _ _ _ _ _)) | frame_step ].
  - repeat first [ apply ledger_sys_os, now_files | apply (proj2 (IH _ _ _ _ _)) | frame_step ].
Qed.

(** X1.  When every entry of the chain carries the hash recomputed over
    it and points to the stored hash of its predecessor, and the time
    check does not stop the loop, [verify_chain_integrity] returns
    [valid = True] with the number of entries, and changes neither the
    object nor the files; an empty chain gets a score of 1.0. *)
Theorem consistent_chain_verifies w :
  chain_ok None (chain (self w)) = true ->
  in_time w (length (chain (self w))) ->
  exists v w',
    verify_chain_integrity w = (inr v, w')
    /\ field v "valid" = Some (PyBool true)
    /\ field v "entries_count" = Some (PyInt (Z.of_nat (length (chain (self w)))))
    /\ field v "integrity_score"
       = Some (PyFloat match chain (self w) with
                       | [] => 1
                       | _ => integrity_score 0 (length (chain (self w)))
                       end)
    /\ self w' = self w
    /\ OS.files (os w') = OS.files (os w).
Proof.
  destruct w as [o l]. unfold in_time. cbn [os self]. intros Hok Ht.
  unfold verify_chain_integrity.
  cbv [bind ret gets sys zoom OS.now os self try_except].
  destruct (chain l) as [|entry rest] eqn:Hc.
  - do 2 eexists. split; [reflexivity|]. repeat split.
  - rewrite (verify_loop_clean (entry :: rest) _ 0 None false [] (OS.tick o) l Hok).
    2:{ intros k Hk. apply Ht. exact Hk. }
    cbv [when ret]. do 2 eexists. split; [reflexivity|].
    repeat split. cbn [os OS.files OS.tick].
    now rewrite (proj2 (proj2 (later_view _ _))).
Qed.


(** X2.  A verdict [valid = True] of [verify_chain_integrity] means that
    every entry carries the hash recomputed over it and points to the
    stored hash of its predecessor; the call has then changed neither the
    object nor the files. *)
Theorem valid_verdict_means_consistent w v w' :
  verify_chain_integrity w = (inr v, w') ->
  field v "valid" = Some (PyBool true) ->
  chain_ok None (chain (self w)) = true
  /\ self w' = self w
  /\ OS.files (os w') = OS.files (os w).
Proof.
  destruct w as [o l]. cbn [os self].
  unfold verify_chain_integrity.
  cbv [bind ret gets sys zoom OS.now os self try_except].
  destruct (chain l) as [|entry rest] eqn:Hc.
  - intros [= <- <-] _. repeat split.
  - destruct (verify_loop _ _ _ _ _ _ _) as [[e|[report|[found recs]]] w1] eqn:Hloop.
    + intros [= <- _]. discriminate.
    + intros [= <- _] Hv. apply verify_loop_timeout in Hloop. congruence.
    + destruct (verify_loop_frame id (entry :: rest) (OS.clock o (OS.ticks o))
                                  0 None false []) as [Hs Hf].
      specialize (Hs (World (OS.tick o) l)). specialize (Hf (World (OS.tick o) l)).
      unfold same in Hs, Hf. rewrite Hloop in Hs, Hf.
      destruct w1 as [o1 l1]. cbn in Hs, Hf.
      destruct found.
      * cbv [when]. destruct (_handle_corruption recs _) as [[e|u] w2];
          intros [= <- _]; discriminate.
      * cbv [when ret]. intros [= <- <-] _. apply verify_loop_found in Hloop as [_ Hok].
        split; [exact Hok|]. split; [exact Hs | exact Hf].
Qed.


Lemma ledger_sys_returns {A} (m : M OS.t A) : returns m -> returns (sys m).
Proof.
  intros Hm [o l]. unfold sys, zoom. cbn [os]. destruct (Hm o) as [a Ha].
  destruct (m o) as [r o']. simpl in *. eauto.
Qed.

Lemma now_returns : returns OS.now.
Proof. intros o. eexists. reflexivity. Qed.

(** X3.  [verify_chain_integrity] never raises, and of the object it can
    only change the flag [_corruption_checks_enabled]: chain, index and
    settings are as before. *)
Theorem verification_keeps_the_chain w :
  exists v w',
    verify_chain_integrity w = (inr v, w')
    /\ but_flag (self w') = but_flag (self w).
Proof.
  assert (Hr : returns verify_chain_integrity).
  { unfold verify_chain_integrity.
    apply returns_bind; [apply ledger_sys_returns, now_returns | intros start].
    apply returns_try_except. intros e.
    apply returns_bind; [apply ledger_sys_returns, now_returns | intros t].
    apply returns_ret. }
  assert (Hp : preserves (same (fun w => but_flag (self w))) verify_chain_integrity).
  { unfold verify_chain_integrity, _handle_corruption.
    repeat first [ apply ledger_sys_self
                 | apply (proj1 (verify_loop_frame but_flag _ _ _ _ _ _))
                 | frame_step ].
    all: intros [? ?]; reflexivity. }
  destruct (returns_run _ w Hr) as (v & w' & Hrun).
  exists v, w'. split; [exact Hrun|].
  specialize (Hp w). rewrite Hrun in Hp. exact Hp.
Qed.


Lemma ledger_update_self {X} (g : HashChainedLedger -> X) u :
  (forall l, g (u l) = g l) -> preserves (same (fun w => g (self w))) (update u).
Proof. intros H [o l]. unfold same. simpl. apply H. Qed.

Lemma hijri_files : preserves (same OS.files) get_hijri_date.
Proof. intros o. reflexivity. Qed.

(** X4.  [append_entry] writes no file, whatever its outcome, and leaves
    [_last_backup], the quarantine flag and [data_dir] as they were: the
    chain reaches the disk only when [_backup_chain] runs. *)
Theorem append_never_writes_files d w r w' :
  append_entry d w = (r, w') ->
  OS.files (os w') = OS.files (os w)
  /\ _last_backup (self w') = _last_backup (self w)
  /\ _corruption_checks_enabled (self w') = _corruption_checks_enabled (self w)
  /\ data_dir (self w') = data_dir (self w).
Proof.
  intros Hrun.
  assert (Hf : preserves (same (fun w => OS.files (os w))) (append_entry d)).
  { unfold append_entry, _generate_entry_id, _get_latest_hash, _should_backup.
    repeat first [ apply ledger_sys_os, now_files | apply ledger_sys_os, hijri_files
                 | apply ledger_update_os | frame_step ]. }
  assert (Hs : preserves (same (fun w => (_last_backup (self w),
                                          _corruption_checks_enabled (self w),
                                          data_dir (self w))))
                         (append_entry d)).
  { unfold append_entry, _generate_entry_id, _get_latest_hash, _should_backup.
    repeat first [ apply (ledger_sys_self (fun l => (_last_backup l,
                                            _corruption_checks_enabled l, data_dir l)))
                 | apply (ledger_update_self (fun l => (_last_backup l,
                                            _corruption_checks_enabled l, data_dir l)));
                   intros ?; reflexivity
                 | frame_step ]. }
  specialize (Hf w). specialize (Hs w). unfold same in Hf, Hs.
  rewrite Hrun in Hf, Hs. cbn [snd] in Hf, Hs.
  split; [exact Hf|]. now injection Hs as -> -> ->.
Qed.


(** X5.  After [append_entry] has returned an id, the chain is the old
    chain followed by one entry, the index maps the id to the position of
    that entry, the entry holds the id, the payload and its position, and
    the index is unchanged for every other id. *)
Theorem appended_entry_is_indexed d w entry_id w' :
  append_entry d w = (inr entry_id, w') ->
  exists entry,
    chain (self w') = chain (self w) ++ [entry]
    /\ chain_index (self w') !! entry_id = Some (length (chain (self w)))
    /\ chain (self w') !! length (chain (self w)) = Some entry
    /\ getitem entry "id" = inr (PyStr entry_id)
    /\ getitem entry "data" = inr (PyDict d)
    /\ getitem entry "chain_position"
       = inr (PyInt (Z.of_nat (length (chain (self w)))))
    /\ (forall k, k <> entry_id ->
          chain_index (self w') !! k = chain_index (self w) !! k).
Proof.
  intros Hrun. apply append_entry_inv in Hrun as [_ [(msg & Hr & _) | Hnew]];
    [discriminate|].
  destruct Hnew as (id' & ts & hj & prev & h & until & [= <-] & _ & _ & Hc & Hix & _).
  eexists. split; [exact Hc|]. rewrite Hix, Hc.
  split; [apply lookup_insert_eq|].
  split; [rewrite lookup_app_r by lia; now rewrite Nat.sub_diag|].
  repeat split. intros k Hk. now apply lookup_insert_ne.
Qed.


Lemma pickle_gz_load_reads p o : (OS.pickle_gz_load p o).2 = o.
Proof.
  unfold OS.pickle_gz_load, OS.gzip_read, OS.read_bytes, bind, gets, ret, raise, id.
  destruct (OS.lookup (OS.files o) p) as [[m|data m]|]; try reflexivity.
  destruct (OS.gzip_decompress o data); [|reflexivity].
  destruct (OS.pickle_loads o s); reflexivity.
Qed.

(** [_load_existing_chain] leaves the chain it found, the chain it has
    read with its index, or an empty chain. *)
Lemma load_existing_chain_inv w :
  exists c ix,
    _load_existing_chain w = (inr tt, World (os w) (set_chain c ix (self w)))
    /\ ((OS.exists_ (OS.join_path (data_dir (self w)) "audit_chain.pkl.gz") (os w) = false
         /\ c = chain (self w) /\ ix = chain_index (self w))
        \/ (OS.exists_ (OS.join_path (data_dir (self w)) "audit_chain.pkl.gz") (os w) = true
            /\ ((c = [] /\ ix = ∅
                 /\ forall c', (OS.pickle_gz_load
                                  (OS.join_path (data_dir (self w)) "audit_chain.pkl.gz")
                                  (os w)).1 = inr c' ->
                               exists e, rebuild_index 0 c' ∅ = inl e)
                \/ ((OS.pickle_gz_load
                       (OS.join_path (data_dir (self w)) "audit_chain.pkl.gz")
                       (os w)).1 = inr c
                    /\ rebuild_index 0 c ∅ = inr ix)))).
Proof.
  destruct w as [o l]. unfold _load_existing_chain.
  cbv [bind gets ret os self].
  destruct (OS.exists_ _ o) eqn:Hex.
  - cbv [try_except bind sys zoom update modify lift os self].
    pose proof (pickle_gz_load_reads (OS.join_path (data_dir l) "audit_chain.pkl.gz") o) as Hsame.
    destruct (OS.pickle_gz_load _ o) as [[e|c] o1]; simpl in Hsame; subst o1.
    + exists [], ∅. split; [reflexivity|]. right. split; [reflexivity|]. left.
      repeat split. discriminate.
    + destruct (rebuild_index 0 c ∅) as [e|ix] eqn:Hix.
      * exists [], ∅. split; [reflexivity|]. right. split; [reflexivity|]. left.
        repeat split. intros c' [= <-]. eauto.
      * exists c, ix. split; [reflexivity|]. right. split; [reflexivity|]. right.
        split; [reflexivity | exact Hix].
  - exists (chain l), (chain_index l). split; [now destruct l|]. left. auto.
Qed.


(** X7.  [append_entry] keeps the index sound, whatever its outcome:
    every id of the index still is the id of the entry at its position. *)
Theorem append_keeps_index d w r w' :
  indexed (self w) -> append_entry d w = (r, w') -> indexed (self w').
Proof.
  intros Hix Hrun. apply append_entry_inv in Hrun as [_ [(msg & _ & ->) | Hnew]];
    [exact Hix|].
  destruct Hnew as (id' & ts & hj & prev & h & until & _ & _ & _ & Hc & Hi & _).
  intros k j. rewrite Hi, Hc. destruct (decide (id' = k)) as [->|Hne].
  - rewrite lookup_insert_eq. intros [= <-]. eexists.
    split; [rewrite lookup_app_r by lia; now rewrite Nat.sub_diag | reflexivity].
  - rewrite lookup_insert_ne by exact Hne. intros Hk.
    destruct (Hix _ _ Hk) as (entry & He & Hid). exists entry. split; [|exact Hid].
    apply lookup_app_l_Some. exact He.
Qed.



(** The id that [append_entry] returns. *)
Lemma append_entry_id d w entry_id w' :
  append_entry d w = (inr entry_id, w') ->
  entry_id
  = py_str (os w) (default (PyStr "UNKNOWN") (dict_lookup "decision_type" d))
    +:+ "_" +:+ py_str (os w) (default (PyStr "SYSTEM") (dict_lookup "user_id" d))
    +:+ "_" +:+ DateTime.strftime_Ymd_HMS_f (OS.clock (os w) (S (OS.ticks (os w)))).
Proof.
  destruct w as [o l].
  cbv [bind ret raise lift gets modify when sys update zoom try_except
       OS.now os self append_entry _generate_entry_id _should_backup
       get_hijri_date _get_latest_hash and_then id].
  destruct (last (chain l)) as [entry|];
    [destruct (getitem entry "hash") as [e|prev]; [discriminate|] |];
    (destruct (DateTime.add _ _) as [e|until]; [discriminate|];
     destruct (_calculate_hash _ _) as [e|h]; [discriminate|];
     destruct (_ <? _); intros [= <- _]; reflexivity).
Qed.

(** X9.  When [log_bias_alert] returns, it has appended one entry whose
    payload is the alert, with severity HIGH when the confidence exceeds
    0.8 and MEDIUM otherwise; the id of that entry is not the
    [BIAS_ALERT_...] id of the alert but [UNKNOWN_SYSTEM_<timestamp>], for
    the alert names neither a decision type nor a user. *)
Theorem bias_alert_is_filed_under_system_id entry_id bias_result w w' :
  log_bias_alert entry_id bias_result w = (inr tt, w') ->
  exists confidence high alert entry,
    dict_lookup "confidence" bias_result = Some confidence
    /\ gt_float confidence 0x1.999999999999ap-1 = inr high
    /\ chain (self w') = chain (self w) ++ [entry]
    /\ getitem entry "data" = inr (PyDict alert)
    /\ dict_lookup "severity" alert = Some (PyStr (if high then "HIGH" else "MEDIUM"))
    /\ dict_lookup "related_entry" alert = Some (PyStr entry_id)
    /\ dict_lookup "bias_details" alert = Some (PyDict bias_result)
    /\ getitem entry "id"
       = inr (PyStr ("UNKNOWN_SYSTEM_"
                     +:+ DateTime.strftime_Ymd_HMS_f
                           (OS.clock (os w) (OS.ticks (os w) + 3)))).
Proof.
  destruct w as [o l]. unfold log_bias_alert.
  cbv [bind lift sys zoom OS.now os self getitem ret].
  destruct (dict_lookup "confidence" bias_result) as [confidence|] eqn:Hc;
    [|discriminate].
  destruct (gt_float confidence _) as [e|high] eqn:Hh; [discriminate|].
  match goal with
  | |- context [append_entry ?a ?s] =>
      destruct (append_entry a s) as [[e|new_id] w1] eqn:Hrun; [discriminate|]
  end.
  intros [= <-].
  pose proof (append_entry_id _ _ _ _ Hrun) as Hid.
  apply append_entry_inv in Hrun as [_ [(msg & Hr & _) | Hnew]]; [discriminate|].
  destruct Hnew as (id' & ts & hj & prev & h & until & [= <-] & _ & _ & Hchain & _).
  cbn [os self] in *.
  exists confidence, high. do 2 eexists.
  split; [first [reflexivity | exact Hc]|].
  split; [first [reflexivity | exact Hh]|].
  split; [exact Hchain|].
  split; [reflexivity|]. split; [reflexivity|]. split; [reflexivity|].
  split; [reflexivity|].
  cbn [appended_entry getitem dict_lookup String.eqb Ascii.eqb Bool.eqb].
  rewrite Hid. cbn [OS.tick OS.clock OS.ticks].
  replace (OS.ticks o + 3)%nat with (S (S (S (OS.ticks o)))) by lia. reflexivity.
Qed.

End LedgerLaws.

Section Runs.

Import Laws.

Context {S : Type}.

Lemma bind_inv {A B} (m : M S A) (k : A -> M S B) s r s2 :
  bind m k s = (r, s2) ->
  (exists e, m s = (inl e, s2) /\ r = inl e)
  \/ (exists a s1, m s = (inr a, s1) /\ k a s1 = (r, s2)).
Proof.
  unfold bind. destruct (m s) as [[e|a] s1].
  - intros [= <- <-]. left. eauto.
  - intros H. right. eauto.
Qed.

Lemma preserves_run {A X} (f : S -> X) (m : M S A) s r s' :
  preserves (same f) m -> m s = (r, s') -> f s' = f s.
Proof. intros Hp Hrun. specialize (Hp s). now rewrite Hrun in Hp. Qed.

(** A step that keeps the invariant [I], in a sequence that is to
    establish [Q]: an exception of the step ends the sequence. *)
Lemma hoare_step {A B} (I : S -> Prop) (m : M S A) (k : A -> M S B) Q :
  hoare I m (fun _ s => I s) ->
  (forall e s, I s -> Q (inl e) s) ->
  (forall a, hoare I (k a) Q) ->
  hoare I (bind m k) Q.
Proof.
  intros Hm He Hk s Hs. unfold bind. specialize (Hm s Hs).
  destruct (m s) as [[e|a] s1]; simpl in *; [now apply He | now apply Hk].
Qed.

Lemma hoare_same {A X} (f : S -> X) (x : X) (m : M S A) :
  preserves (same f) m -> hoare (fun s => f s = x) m (fun _ s => f s = x).
Proof. intros Hp s Hs. specialize (Hp s). unfold same in Hp. congruence. Qed.

Lemma hoare_run {A} (P : S -> Prop) (m : M S A) Q s r s' :
  hoare P m Q -> P s -> m s = (r, s') -> Q r s'.
Proof. intros H Hs Hrun. specialize (H s Hs). now rewrite Hrun in H. Qed.

Lemma hoare_bind {A B} (P : S -> Prop) (R : A -> S -> Prop)
    (m : M S A) (k : A -> M S B) Q :
  hoare P m (fun r s => match r with inr a => R a s | inl e => Q (inl e) s end) ->
  (forall a, hoare (R a) (k a) Q) ->
  hoare P (bind m k) Q.
Proof.
  intros Hm Hk s Hs. unfold bind. specialize (Hm s Hs).
  destruct (m s) as [[e|a] s1]; simpl in *; [exact Hm | now apply Hk].
Qed.

Lemma hoare_raise {A} (P : S -> Prop) e (Q : exn + A -> S -> Prop) :
  (forall s, P s -> Q (inl e) s) -> hoare P (raise e) Q.
Proof. intros H s Hs. now apply H. Qed.

Lemma hoare_ret {A} (P : S -> Prop) (a : A) (Q : exn + A -> S -> Prop) :
  (forall s, P s -> Q (inr a) s) -> hoare P (ret a) Q.
Proof. intros H s Hs. now apply H. Qed.

Lemma hoare_const {A} (P : Prop) (m : M S A) :
  hoare (fun _ => P) m (fun _ _ => P).
Proof. intros s H. exact H. Qed.

Lemma hoare_try_except {A} (P : S -> Prop) (R : exn -> S -> Prop)
    (m : M S A) (h : exn -> M S A) Q :
  hoare P m (fun r s => match r with inr a => Q (inr a) s | inl e => R e s end) ->
  (forall e, hoare (R e) (h e) Q) ->
  hoare P (try_except m h) Q.
Proof.
  intros Hm Hh s Hs. unfold try_except. specialize (Hm s Hs).
  destruct (m s) as [[e|a] s1]; simpl in *; [now apply Hh | exact Hm].
Qed.

End Runs.

Section BackupLaws.

Import Backup Props Laws.

Lemma backup_sys_self {A X} (g : AutomatedBackupSystem -> X) (m : M OS.t A) :
  preserves (same (fun w => g (self w))) (sys m).
Proof. intros [o l]. unfold sys, zoom, same. simpl. destruct (m o). reflexivity. Qed.

Lemma backup_sys_os {A X} (g : OS.t -> X) (m : M OS.t A) :
  preserves (same g) m -> preserves (same (fun w => g (os w))) (sys m).
Proof.
  intros Hm [o l]. unfold sys, zoom, same. simpl. specialize (Hm o).
  destruct (m o). exact Hm.
Qed.

Ltac backup_frame g :=
  repeat first [ apply (backup_sys_self g) | frame_step ].

(** What a backup copies and checks leaves the object as it was. *)
Lemma backup_steps_self {X} (g : AutomatedBackupSystem -> X) backup_dir :
  preserves (same (fun w => g (self w))) (_backup_audit_chain backup_dir)
  /\ preserves (same (fun w => g (self w))) (_backup_configurations backup_dir)
  /\ preserves (same (fun w => g (self w))) (_backup_reports_templates backup_dir)
  /\ preserves (same (fun w => g (self w))) (_backup_logs backup_dir)
  /\ preserves (same (fun w => g (self w))) (_verify_backup backup_dir)
  /\ preserves (same (fun w => g (self w))) (_copy_to_remote backup_dir).
Proof.
  repeat split.
  - unfold _backup_audit_chain. backup_frame g.
  - unfold _backup_configurations, backup_configuration. backup_frame g.
  - unfold _backup_reports_templates. backup_frame g.
  - unfold _backup_logs, backup_log. backup_frame g.
  - unfold _verify_backup. backup_frame g.
  - unfold _copy_to_remote. backup_frame g.
Qed.

Lemma copy_to_remote_returns backup_dir : returns (_copy_to_remote backup_dir).
Proof.
  unfold _copy_to_remote. apply returns_bind; [apply returns_gets | intros me].
  destruct (remote_backup_dir me); [|apply returns_ret].
  apply returns_try_except. intros _. apply returns_ret.
Qed.

(** X10.  [create_backup] never raises.  When it reports a success the
    status is "completed", [last_backup_time] is set and [backup_errors]
    is as before; when it reports a failure the status is "failed",
    [last_backup_time] is as before and [backup_errors] has one more
    record, with the reported error. *)
Theorem create_backup_records_its_outcome backup_type w :
  exists v w',
    create_backup backup_type w = (inr v, w')
    /\ ((field v "success" = Some (PyBool true)
         /\ backup_status (self w') = "completed"
         /\ backup_errors (self w') = backup_errors (self w)
         /\ exists t, last_backup_time (self w') = Some t)
        \/ (field v "success" = Some (PyBool false)
            /\ backup_status (self w') = "failed"
            /\ last_backup_time (self w') = last_backup_time (self w)
            /\ exists record,
                 backup_errors (self w') = backup_errors (self w) ++ [record]
                 /\ field record "error" = field v "error")).
Proof.
  set (b := self w).
  set (Q := fun (r : exn + pyval) (w' : world) =>
              exists v, r = inr v /\
                ((field v "success" = Some (PyBool true)
                  /\ backup_status (self w') = "completed"
                  /\ backup_errors (self w') = backup_errors b
                  /\ exists t, last_backup_time (self w') = Some t)
                 \/ (field v "success" = Some (PyBool false)
                     /\ backup_status (self w') = "failed"
                     /\ last_backup_time (self w') = last_backup_time b
                     /\ exists record,
                          backup_errors (self w') = backup_errors b ++ [record]
                          /\ field record "error" = field v "error"))).
  assert (H : hoare (fun w => self w = b) (create_backup backup_type) Q).
  { unfold create_backup.
    apply (hoare_bind _ (fun _ w => self w = b));
      [intros [o b'] Hs; exact Hs | intros start_time].
    cbv zeta. apply (hoare_try_except _ (fun _ w => self w = b)).
    - do 10 (apply hoare_step;
             [ apply (hoare_same (fun w => self w));
               first [ apply same_gets | apply (backup_sys_self id)
                     | apply (backup_steps_self id) ]
             | intros e s Hs; exact Hs
             | intros ? ]).
      intros [o b'] Hs. cbn [self] in Hs. subst b'.
      rewrite (bind_ok (gets self) _ _ _ _ eq_refl).
      rewrite (bind_ok (update _) _ _ tt _ eq_refl).
      match goal with
      | |- context [bind (_copy_to_remote ?d) ?k ?s] =>
          destruct (returns_run _ s (copy_to_remote_returns d)) as ([] & w2 & Hrun);
          pose proof (preserves_run (fun w => self w) _ _ _ _
                        (proj2 (proj2 (proj2 (proj2 (proj2 (backup_steps_self id d))))))
                        Hrun) as Hself;
          rewrite (bind_ok _ _ _ _ _ Hrun)
      end.
      cbn [ret fst snd self] in *. eexists. split; [reflexivity|]. left.
      rewrite Hself. cbn. repeat split. eauto.
    - intros e [o b'] Hs. cbn [self] in Hs. subst b'.
      cbv [bind sys zoom OS.now gets update modify ret os self fst snd].
      eexists. split; [reflexivity|]. right. cbn. repeat split.
      eexists. split; reflexivity. }
  destruct (H w eq_refl) as (v & Hr & Hcase).
  exists v, (create_backup backup_type w).2. split; [|exact Hcase].
  destruct (create_backup backup_type w) as [r w']. simpl in *. now subst r.
Qed.

End BackupLaws.

Section Files.

Import Laws.

Implicit Types (p q : OS.path) (o : OS.t) (fs : gmap OS.path OS.node).

(** Stamping the parent of [p] adds and removes nothing. *)
Lemma touch_parent_is_Some p t fs q :
  is_Some (OS.touch_parent p t fs !! q) <-> is_Some (fs !! q).
Proof.
  unfold OS.touch_parent. destruct (OS.parent p) as [|a r]; [tauto|].
  destruct (fs !! (a :: r)) as [[m|d m]|] eqn:E; try tauto.
  destruct (decide (q = a :: r)) as [->|Hne].
  - rewrite lookup_insert_eq, E. split; eauto.
  - now rewrite lookup_insert_ne.
Qed.

Lemma exists_put q p data m o :
  q <> p ->
  OS.exists_ q (OS.with_files (<[p := OS.File data m]> (OS.files o)) o)
  = OS.exists_ q o.
Proof.
  intros Hne. unfold OS.exists_, OS.lookup. cbn [OS.files OS.with_files].
  destruct q; [reflexivity|]. now rewrite lookup_insert_ne.
Qed.

Lemma exists_touch q p t o :
  OS.exists_ q (OS.with_files (OS.touch_parent p t (OS.files o)) o) = OS.exists_ q o.
Proof.
  unfold OS.exists_, OS.lookup. cbn [OS.files OS.with_files].
  destruct q as [|a r]; [reflexivity|].
  pose proof (touch_parent_is_Some p t (OS.files o) (a :: r)) as [H1 H2].
  destruct (OS.touch_parent p t (OS.files o) !! (a :: r)) eqn:E1;
    destruct (OS.files o !! (a :: r)) eqn:E2; try reflexivity.
  - destruct H1 as [x Hx]; [eauto | discriminate].
  - destruct H2 as [x Hx]; [eauto | discriminate].
Qed.

Lemma exists_insert_touched q p n t o :
  q <> p ->
  OS.exists_ q (OS.with_files (<[p := n]> (OS.touch_parent p t (OS.files o))) o)
  = OS.exists_ q o.
Proof.
  intros Hne. rewrite <- (exists_touch q p t o).
  unfold OS.exists_, OS.lookup. cbn [OS.files OS.with_files].
  destruct q; [reflexivity|]. now rewrite lookup_insert_ne.
Qed.

Lemma put_file_exists q p data m :
  q <> p -> preserves (same (OS.exists_ q)) (fun o => OS.put_file p data m o).
Proof.
  intros Hne o. unfold same, OS.put_file.
  destruct p as [|a r]; [reflexivity|].
  destruct (OS.lookup (OS.files o) (OS.parent (a :: r))) as [[pm|pd pm]|];
    destruct (OS.lookup (OS.files o) (a :: r)) as [[fm|fd fm]|];
    try reflexivity; cbn [snd];
    first [ now apply exists_put | now apply exists_insert_touched ].
Qed.

Lemma write_bytes_exists q p data :
  q <> p -> preserves (same (OS.exists_ q)) (OS.write_bytes p data).
Proof. intros Hne o. apply (put_file_exists q p data _ Hne). Qed.

Lemma mkdir_exists q p exist_ok :
  q <> p -> preserves (same (OS.exists_ q)) (OS.mkdir p exist_ok).
Proof.
  intros Hne o. unfold same, OS.mkdir.
  destruct (OS.lookup (OS.files o) p) as [[m|d m]|]; [destruct exist_ok| |];
    try reflexivity.
  destruct (OS.lookup (OS.files o) (OS.parent p)) as [[pm|pd pm]|];
    try reflexivity. cbn [snd].
  now apply exists_insert_touched.
Qed.

Lemma copy2_exists q src dst :
  q <> dst -> q <> dst ++ [OS.name src] ->
  preserves (same (OS.exists_ q)) (OS.copy2 src dst).
Proof.
  intros H1 H2 o. unfold same, OS.copy2.
  destruct (OS.lookup (OS.files o) src) as [[m|d m]|]; try reflexivity.
  destruct (OS.is_dir dst o); now apply put_file_exists.
Qed.


Lemma same_for_each_in {S X A} (f : S -> X) (l : list A) (body : A -> M S unit) :
  (forall a, a ∈ l -> preserves (same f) (body a)) ->
  preserves (same f) (for_each l body).
Proof.
  induction l as [|a l IH]; intros Hb; simpl; [apply same_ret|].
  apply same_bind; [apply Hb; left | intros _; apply IH].
  intros b Hin. apply Hb. now right.
Qed.

Lemma same_gather_in {S X A} (f : S -> X) (l : list A) (step : A -> M S (list pyval)) :
  (forall a, a ∈ l -> preserves (same f) (step a)) ->
  preserves (same f) (gather l step).
Proof.
  induction l as [|a l IH]; intros Hb; simpl; [apply same_ret|].
  apply same_bind; [apply Hb; left | intros x].
  apply same_bind; [apply IH | intros y; apply same_ret].
  intros b Hin. apply Hb. now right.
Qed.

(** *** Paths *)

Lemma is_prefix_spec p q : OS.is_prefix p q = true <-> exists r, q = p ++ r.
Proof.
  revert q. induction p as [|a p IH]; intros q; simpl.
  - split; eauto.
  - destruct q as [|b q]; [split; [discriminate | intros [r Hr]; discriminate]|].
    rewrite andb_true_iff, IH. split.
    + intros [Hab [r ->]]. apply String.eqb_eq in Hab as ->. eauto.
    + intros [r [= -> ->]]. split; [apply String.eqb_refl | eauto].
Qed.

Lemma is_prefix_app p r : OS.is_prefix p (p ++ r) = true.
Proof. apply is_prefix_spec. eauto. Qed.

Lemma not_prefix_ne p q : OS.is_prefix p q = false -> forall r, q <> p ++ r.
Proof.
  intros H r ->. rewrite is_prefix_app in H. discriminate.
Qed.

(** Two paths that part after a common stem: neither is a prefix of the
    other. *)
Lemma is_prefix_parted p a r1 b r2 :
  a <> b -> OS.is_prefix (p ++ a :: r1) (p ++ b :: r2) = false.
Proof.
  intros Hab. destruct (OS.is_prefix _ _) eqn:E; [|reflexivity].
  apply is_prefix_spec in E as [r Hr]. rewrite <- app_assoc in Hr.
  apply app_inv_head in Hr. injection Hr as Hr _. congruence.
Qed.

Lemma prefixes_spec p pre : pre ∈ OS.prefixes p -> exists r, p = pre ++ r.
Proof.
  revert pre. induction p as [|a p IH]; intros pre; simpl.
  - intros H. inversion H.
  - intros H. apply elem_of_cons in H as [->|H]; [exists p; reflexivity|].
    apply list_elem_of_In, in_map_iff in H as (x & <- & Hx).
    apply list_elem_of_In in Hx.
    destruct (IH _ Hx) as [r ->]. exists r. reflexivity.
Qed.

Lemma parent_prefix (p : OS.path) : exists r, p = OS.parent p ++ r.
Proof.
  unfold OS.parent. destruct (decide (p = [])) as [->|Hne]; [exists []; reflexivity|].
  exists [List.last p ""]. now apply app_removelast_last.
Qed.

(** *** Creating directories and copying trees *)

Lemma makedirs_exists q p :
  OS.is_prefix q p = false -> preserves (same (OS.exists_ q)) (OS.makedirs p).
Proof.
  intros Hq. unfold OS.makedirs. apply same_for_each_in. intros pre Hin.
  apply mkdir_exists. intros ->. apply prefixes_spec in Hin as [r ->].
  rewrite is_prefix_app in Hq. discriminate.
Qed.

Lemma copy_entries_exists q src dst l : forall failed,
  OS.is_prefix dst q = false ->
  preserves (same (OS.exists_ q)) (OS.copy_entries src dst l failed).
Proof.
  induction l as [|[q' n] l IH]; intros failed Hq; simpl; [apply same_ret|].
  apply same_bind; [|intros failed'; now apply IH].
  intros o. unfold same, OS.copy_entry.
  assert (Hne : q <> dst ++ skipn (length src) q') by now apply not_prefix_ne.
  destruct n as [m|d m].
  - pose proof (mkdir_exists q _ true Hne o) as H. unfold same in H.
    destruct (OS.mkdir _ true o) as [[e|u] o']; exact H.
  - pose proof (put_file_exists q _ d m Hne o) as H. unfold same in H.
    destruct (OS.put_file _ d m o) as [[e|u] o']; exact H.
Qed.

Lemma copytree_exists q src dst dirs_exist_ok :
  OS.is_prefix q dst = false -> OS.is_prefix dst q = false ->
  preserves (same (OS.exists_ q)) (OS.copytree src dst dirs_exist_ok).
Proof.
  intros H1 H2. unfold OS.copytree.
  apply same_bind; [apply same_gets | intros o].
  destruct (negb (OS.is_dir src o)); [apply same_raise|].
  apply same_bind; [|intros _].
  { apply makedirs_exists. destruct (OS.is_prefix q (OS.parent dst)) eqn:E; [|reflexivity].
    apply is_prefix_spec in E as [r Hr]. destruct (parent_prefix dst) as [r' Hr'].
    rewrite Hr, <- app_assoc in Hr'. rewrite Hr', is_prefix_app in H1. discriminate. }
  apply same_bind; [|intros _].
  { apply mkdir_exists. intros ->. rewrite <- (app_nil_r dst) in H1 at 2.
    rewrite is_prefix_app in H1. discriminate. }
  apply same_bind; [now apply copy_entries_exists | intros failed].
  destruct failed; [apply same_raise | apply same_ret].
Qed.

End Files.

Section Contents.

Import Laws.

Implicit Types (p q : OS.path) (o : OS.t) (fs : gmap OS.path OS.node).

Lemma touch_parent_lookup p t fs q :
  q <> OS.parent p -> OS.touch_parent p t fs !! q = fs !! q.
Proof.
  intros Hne. unfold OS.touch_parent. destruct (OS.parent p) as [|a r]; [reflexivity|].
  destruct (fs !! (a :: r)) as [[m|d m]|]; try reflexivity.
  now rewrite lookup_insert_ne.
Qed.

Lemma unlink_lookup q p :
  q <> p -> q <> OS.parent p ->
  preserves (same (fun o => OS.files o !! q)) (OS.unlink p).
Proof.
  intros Hp Hpar o. unfold same, OS.unlink.
  destruct (OS.lookup (OS.files o) p) as [[m|d m]|]; try reflexivity.
  cbn [snd OS.files OS.with_files].
  rewrite touch_parent_lookup by exact Hpar. now rewrite lookup_delete_ne.
Qed.

Lemma put_file_lookup q p data m :
  q <> p -> q <> OS.parent p ->
  preserves (same (fun o => OS.files o !! q)) (fun o => OS.put_file p data m o).
Proof.
  intros Hp Hpar o. unfold same, OS.put_file.
  destruct p as [|a r]; [reflexivity|].
  destruct (OS.lookup (OS.files o) (OS.parent (a :: r))) as [[pm|pd pm]|];
    destruct (OS.lookup (OS.files o) (a :: r)) as [[fm|fd fm]|];
    try reflexivity; cbn [snd OS.files OS.with_files];
    rewrite lookup_insert_ne by congruence; [reflexivity|].
  now apply touch_parent_lookup.
Qed.

Lemma st_mtime_reads p o : (OS.st_mtime p o).2 = o.
Proof. unfold OS.st_mtime. now destruct (OS.lookup _ _) as [[]|]. Qed.

Lemma removelast_snoc {A} (l : list A) x : removelast (l ++ [x]) = l.
Proof. apply removelast_last. Qed.

(** What [iterdir] and [glob] list lies directly in the directory. *)
Lemma children_spec d p o :
  p ∈ OS.children d o ->
  (exists x, p = d ++ [x]) /\ OS.parent p = d /\ is_Some (OS.files o !! p).
Proof.
  unfold OS.children, OS.descendants. intros H.
  apply list_elem_of_fmap in H as ([p' n] & -> & H).
  apply list_elem_of_filter in H as [Hlen H]. apply bool_decide_unpack in Hlen.
  apply list_elem_of_filter in H as [Hpre H]. apply bool_decide_unpack in Hpre as [Hpre _].
  apply elem_of_map_to_list in H. cbn [fst] in *.
  apply is_prefix_spec in Hpre as [r ->]. rewrite length_app in Hlen.
  destruct r as [|x [|y r]]; simpl in Hlen; try lia.
  split; [eauto|]. split; [apply removelast_snoc | eauto].
Qed.

Lemma glob_spec d pre suf p o :
  p ∈ OS.glob d pre suf o ->
  OS.parent p = d /\ OS.glob_match pre suf (OS.name p) = true.
Proof.
  unfold OS.glob. intros H. apply list_elem_of_filter in H as [Hm H].
  apply bool_decide_unpack in Hm. apply children_spec in H as (_ & H & _). auto.
Qed.

Lemma glob_child d pre suf p o : p ∈ OS.glob d pre suf o -> p <> d.
Proof.
  unfold OS.glob. intros H. apply list_elem_of_filter in H as [_ H].
  apply children_spec in H as ([x ->] & _). intros E.
  apply (f_equal length) in E. rewrite length_app in E. simpl in E. lia.
Qed.

Lemma returns_for_each {S A} (l : list A) (body : A -> M S unit) :
  (forall a, returns (body a)) -> returns (for_each l body).
Proof.
  intros Hb. induction l as [|a l IH]; simpl; [apply returns_ret|].
  apply returns_bind; [apply Hb | intros _; exact IH].
Qed.

End Contents.

Section LedgerCleanup.

Import Ledger Props Laws.

Lemma unlink_is_dir q p :
  q <> p -> preserves (same (OS.is_dir q)) (OS.unlink p).
Proof.
  intros Hp o. unfold same, OS.unlink.
  destruct (OS.lookup (OS.files o) p) as [[m|d m]|] eqn:E; try reflexivity.
  cbn [snd]. unfold OS.is_dir, OS.lookup. cbn [OS.files OS.with_files].
  destruct q as [|b q]; [reflexivity|].
  unfold OS.touch_parent. destruct (OS.parent p) as [|c s].
  - now rewrite lookup_delete_ne.
  - destruct (delete p (OS.files o) !! (c :: s)) as [[dm|dd dm]|] eqn:Ed;
      try now rewrite lookup_delete_ne.
    destruct (decide (b :: q = c :: s)) as [->|Hne].
    + rewrite lookup_insert_eq. apply lookup_delete_Some in Ed as [_ Ed].
      now rewrite Ed.
    + rewrite lookup_insert_ne by congruence. now rewrite lookup_delete_ne.
Qed.

Lemma unlink_codecs p : preserves (same codecs) (OS.unlink p).
Proof. intros o. unfold same, OS.unlink. now destruct (OS.lookup _ _) as [[]|]. Qed.

(** What [_cleanup_old_backups] does: it removes backup files of the data
    directory, and nothing else; the only error it lets out is the one of
    the cutoff date. *)
Lemma cleanup_old_backups_inv w :
  exists r w',
    _cleanup_old_backups w = (r, w')
    /\ (r = inr tt \/ r = inl (OverflowError "date value out of range"))
    /\ (30 * DateTime.us_per_day <= OS.stamp (os w) < DateTime.end_dt -> r = inr tt)
    /\ self w' = self w
    /\ (forall q,
          q <> data_dir (self w) ->
          (OS.parent q = data_dir (self w) ->
           OS.glob_match "audit_chain_backup_" ".pkl.gz" (OS.name q) = false) ->
          OS.files (os w') !! q = OS.files (os w) !! q)
    /\ OS.is_dir (data_dir (self w)) (os w') = OS.is_dir (data_dir (self w)) (os w)
    /\ codecs (os w') = codecs (os w).
Proof.
  destruct (_cleanup_old_backups w) as [r w'] eqn:Hrun. exists r, w'.
  split; [reflexivity|].
  destruct w as [o l]. cbn [self os] in *.
  unfold _cleanup_old_backups in Hrun.
  rewrite (bind_ok (sys OS.now) _ (World o l) (OS.clock o (OS.ticks o))
                   (World (OS.tick o) l) eq_refl) in Hrun.
  unfold OS.stamp.
  destruct (DateTime.add (OS.clock o (OS.ticks o)) (- (30 * DateTime.us_per_day)))
    as [e|cutoff_date] eqn:Ea.
  { (* no cutoff date *)
    rewrite (bind_raise (lift (inl e)) _ _ e _ eq_refl) in Hrun.
    injection Hrun as <- <-. cbn [self os].
    unfold DateTime.add in Ea.
    destruct (_ && _) eqn:Ec in Ea; [discriminate|]. injection Ea as <-.
    repeat apply conj; try reflexivity; [now right|].
    intros Hin. exfalso.
    unfold DateTime.min_dt, DateTime.end_dt, DateTime.us_per_day,
      DateTime.us_per_second in *.
    apply andb_false_iff in Ec as [Ec|Ec]; lia. }
  rewrite (bind_ok (lift (inr cutoff_date)) _ _ _ _ eq_refl) in Hrun.
  rewrite (bind_ok (gets self) _ _ _ _ eq_refl) in Hrun.
  rewrite (bind_ok (gets os) _ _ _ _ eq_refl) in Hrun.
  cbn [self os] in Hrun.
  assert (Hr : r = inr tt).
  { match type of Hrun with
    | for_each ?ps ?body ?s = _ =>
        destruct (returns_for_each ps body
                    (fun p => returns_try_except _ _ (fun _ => returns_ret tt)) s)
          as [[] Hret]
    end.
    rewrite Hrun in Hret. exact Hret. }
  split; [now left|]. split; [now intros _|]. split.
  { apply (preserves_run (fun w => self w) _ _ _ _) in Hrun; [exact Hrun|].
    repeat first [ apply (ledger_sys_self id) | frame_step ]. }
  split; [|split].
  - intros q Hq Hname.
    apply (preserves_run (fun w => OS.files (os w) !! q) _ _ _ _) in Hrun;
      [exact Hrun|].
    apply same_for_each_in. intros p Hp. apply glob_spec in Hp as [Hpar Hmatch].
    repeat first [ apply (ledger_sys_os (fun o => OS.files o !! q))
                 | frame_step ].
    + intros o1. unfold same. now rewrite st_mtime_reads.
    + apply unlink_lookup.
      * intros ->. rewrite (Hname Hpar) in Hmatch. discriminate.
      * now rewrite Hpar.
  - apply (preserves_run (fun w => OS.is_dir (data_dir l) (os w)) _ _ _ _) in Hrun;
      [exact Hrun|].
    apply same_for_each_in. intros p Hp. apply glob_child in Hp.
    repeat first [ apply (ledger_sys_os (OS.is_dir (data_dir l)))
                 | frame_step ].
    + intros o1. unfold same. now rewrite st_mtime_reads.
    + apply unlink_is_dir. congruence.
  - apply (preserves_run (fun w => codecs (os w)) _ _ _ _) in Hrun; [exact Hrun|].
    apply same_for_each_in. intros p Hp.
    repeat first [ apply (ledger_sys_os codecs) | frame_step ].
    + intros o1. unfold same. now rewrite st_mtime_reads.
    + apply unlink_codecs.
Qed.

(** X15.  [_cleanup_old_backups] of the ledger removes backup files only:
    the object is as before, the data directory still is a directory, and
    every other path that is not a file [audit_chain_backup_*.pkl.gz]
    directly in it is as before; the current chain file
    [audit_chain.pkl.gz] among them.  It raises nothing, unless the clock
    reads a date less than 30 days after [datetime.min]: then the cutoff
    date raises [OverflowError], which the method lets out. *)
Theorem cleanup_removes_backups_only w :
  exists r w',
    _cleanup_old_backups w = (r, w')
    /\ (r = inr tt \/ r = inl (OverflowError "date value out of range"))
    /\ (30 * DateTime.us_per_day <= OS.stamp (os w) < DateTime.end_dt -> r = inr tt)
    /\ self w' = self w
    /\ (forall q,
          q <> data_dir (self w) ->
          (OS.parent q = data_dir (self w) ->
           OS.glob_match "audit_chain_backup_" ".pkl.gz" (OS.name q) = false) ->
          OS.files (os w') !! q = OS.files (os w) !! q)
    /\ OS.is_dir (data_dir (self w)) (os w') = OS.is_dir (data_dir (self w)) (os w).
Proof.
  destruct (cleanup_old_backups_inv w) as (r & w' & H1 & H2 & H3 & H4 & H5 & H6 & _).
  exists r, w'. auto 7.
Qed.

End LedgerCleanup.

Section PlainNames.

Import Laws.

Lemma plain_app a b : plain (a +:+ b) = plain a && plain b.
Proof.
  induction a as [|x a IH]; [reflexivity|].
  change (plain (String x (a +:+ b)) = plain (String x a) && plain b).
  cbn [plain]. rewrite IH. now rewrite andb_assoc.
Qed.

Lemma plain_digit z : Ascii.eqb (digit_char (z mod 10)) "/" = false.
Proof.
  assert (H : 0 <= z mod 10 < 10) by (apply Z.mod_pos_bound; lia).
  assert (Hc : z mod 10 = 0 \/ z mod 10 = 1 \/ z mod 10 = 2 \/ z mod 10 = 3
               \/ z mod 10 = 4 \/ z mod 10 = 5 \/ z mod 10 = 6 \/ z mod 10 = 7
               \/ z mod 10 = 8 \/ z mod 10 = 9) by lia.
  destruct Hc as [->|[->|[->|[->|[->|[->|[->|[->|[->| ->]]]]]]]]]; reflexivity.
Qed.

Lemma plain_digits_fuel fuel : forall z acc,
  plain acc = true -> plain (digits_fuel fuel z acc) = true.
Proof.
  induction fuel as [|k IH]; intros z acc Hacc; [exact Hacc|].
  cbn [digits_fuel].
  assert (H : plain (String (digit_char (z mod 10)) acc) = true).
  { cbn [plain]. now rewrite plain_digit, Hacc. }
  destruct (z <? 10); [exact H | now apply IH].
Qed.

Lemma plain_repeat_zero n : plain (repeat_str "0" n) = true.
Proof.
  induction n as [|n IH]; [reflexivity|].
  cbn [repeat_str]. now rewrite plain_app, IH.
Qed.

Lemma plain_zpad w z : plain (zpad w z) = true.
Proof.
  unfold zpad. rewrite plain_app, plain_repeat_zero.
  unfold digits. now rewrite plain_digits_fuel.
Qed.

Lemma plain_strftime_Ymd_HMS t : plain (DateTime.strftime_Ymd_HMS t) = true.
Proof.
  unfold DateTime.strftime_Ymd_HMS, DateTime.strftime_Ymd.
  destruct (DateTime.date_of t) as [[y m] d].
  rewrite !plain_app, !plain_zpad. reflexivity.
Qed.

(** A name without a slash is one component of a path. *)
Lemma split_slash_plain s : forall cur,
  plain s = true -> cur +:+ s <> "" -> OS.split_slash s cur = [cur +:+ s].
Proof.
  induction s as [|a s IH]; intros cur Hs Hne.
  - cbn [OS.split_slash]. replace (cur +:+ "") with cur in *
      by (clear; induction cur as [|x c IH];
          [reflexivity | change (String x c = String x (c +:+ "")); now f_equal]).
    destruct (String.eqb cur "") eqn:E; [|reflexivity].
    apply String.eqb_eq in E. congruence.
  - cbn [plain] in Hs. apply andb_prop in Hs as [Ha Hs].
    cbn [OS.split_slash]. destruct (Ascii.eqb a "/"); [discriminate|].
    rewrite IH; [| exact Hs |].
    + f_equal. clear. induction cur as [|x c IH]; [reflexivity|].
      change (String x ((c +:+ String a "") +:+ s) = String x (c +:+ String a s)).
      now f_equal.
    + destruct cur; discriminate.
Qed.

End PlainNames.

Section SaveAndLoad.

Import Ledger Props Laws.

Implicit Types (p q : OS.path) (o : OS.t).

(** A file written in a directory, where no directory has its name. *)
Lemma put_file_ok p data m o :
  p <> [] -> OS.is_dir (OS.parent p) o = true -> OS.is_dir p o = false ->
  exists fs,
    OS.put_file p data m o = (inr tt, OS.with_files fs o)
    /\ fs !! p = Some (OS.File data m)
    /\ (forall q, q <> p -> OS.is_dir q (OS.with_files fs o) = OS.is_dir q o)
    /\ (forall q, q <> p -> q <> OS.parent p -> fs !! q = OS.files o !! q).
Proof.
  intros Hp Hpar Hnd. unfold OS.put_file, OS.is_dir in *.
  destruct p as [|a r]; [congruence|].
  destruct (OS.lookup (OS.files o) (OS.parent (a :: r))) as [[pm|pd pm]|];
    try discriminate.
  destruct (OS.lookup (OS.files o) (a :: r)) as [[fm|fd fm]|] eqn:E;
    try discriminate; eexists; (split; [reflexivity|]);
    (split; [apply lookup_insert_eq|]); split.
  - intros q Hq. unfold OS.lookup. cbn [OS.files OS.with_files].
    destruct q; [reflexivity|]. now rewrite lookup_insert_ne.
  - intros q Hq _. now rewrite lookup_insert_ne.
  - intros q Hq. unfold OS.lookup. cbn [OS.files OS.with_files].
    destruct q as [|b q]; [reflexivity|]. rewrite lookup_insert_ne by congruence.
    unfold OS.touch_parent. destruct (OS.parent (a :: r)) as [|c s]; [reflexivity|].
    destruct (OS.files o !! (c :: s)) as [[dm|dd dm]|] eqn:Ed; try reflexivity.
    destruct (decide (b :: q = c :: s)) as [->|Hne].
    + now rewrite lookup_insert_eq, Ed.
    + now rewrite lookup_insert_ne.
  - intros q Hq Hqp. rewrite lookup_insert_ne by congruence.
    now apply touch_parent_lookup.
Qed.


Lemma join_plain d s :
  plain s = true -> s <> "" -> OS.join_path d s = d ++ [s].
Proof.
  intros Hs Hne. unfold OS.join_path.
  destruct s as [|a s]; [congruence|].
  cbn [plain] in Hs. apply andb_prop in Hs as [Ha Hs].
  assert (Hpre : String.prefix "/" (String a s) = false).
  { cbn [String.prefix]. destruct (ascii_dec "/" a) as [<-|]; [discriminate | reflexivity]. }
  rewrite Hpre. f_equal.
  apply (split_slash_plain (String a s) ""); [cbn [plain]; now rewrite Ha, Hs | discriminate].
Qed.

Lemma backup_name_plain t :
  plain ("audit_chain_backup_" +:+ DateTime.strftime_Ymd_HMS t +:+ ".pkl.gz") = true.
Proof. now rewrite !plain_app, plain_strftime_Ymd_HMS. Qed.

Lemma is_dir_tick q o : OS.is_dir q (OS.tick o) = OS.is_dir q o.
Proof. reflexivity. Qed.

(** [pickle.dump(chain, gzip.open(p, 'wb'))] in a directory, where no
    directory has the name of the file. *)
Lemma pickle_gz_dump_ok p c o :
  p <> [] -> OS.is_dir (OS.parent p) o = true -> OS.is_dir p o = false ->
  exists fs,
    OS.pickle_gz_dump p c o = (inr tt, OS.with_files fs o)
    /\ fs !! p = Some (OS.File (OS.gzip_compress o (OS.pickle_dumps o c)) (OS.stamp o))
    /\ (forall q, q <> p -> OS.is_dir q (OS.with_files fs o) = OS.is_dir q o)
    /\ (forall q, q <> p -> q <> OS.parent p -> fs !! q = OS.files o !! q).
Proof.
  intros Hp Hpar Hnd. unfold OS.pickle_gz_dump.
  rewrite (bind_ok (gets id) _ _ _ _ eq_refl). unfold OS.write_bytes, id.
  now apply put_file_ok.
Qed.


(** X16.  What [_backup_chain] saves, the constructor loads: in a data
    directory where the two files can be written, with codecs that read
    back what they write and entries that have string ids,
    [_backup_chain] raises nothing, and a ledger constructed afterwards on
    the same directory has the chain that was saved, with its index. *)
Theorem saved_chain_is_loaded_again dir w ix :
  data_dir (self w) = OS.join_path [] dir ->
  OS.is_dir (data_dir (self w)) (os w) = true ->
  OS.is_dir (backup_file_of w) (os w) = false ->
  OS.is_dir (chain_file_of w) (os w) = false ->
  codecs_invert (os w) (chain (self w)) ->
  rebuild_index 0 (chain (self w)) ∅ = inr ix ->
  exists w1 l o2,
    _backup_chain w = (inr tt, w1)
    /\ __init__ dir (os w1) = (inr l, o2)
    /\ chain l = chain (self w)
    /\ chain_index l = ix.
Proof.
  destruct w as [o l]. unfold backup_file_of, chain_file_of. cbn [os self].
  set (d := data_dir l). set (c := chain l).
  set (bname := "audit_chain_backup_"
                +:+ DateTime.strftime_Ymd_HMS (OS.clock o (OS.ticks o)) +:+ ".pkl.gz").
  intros Hd Hdir Hb Hc [Hgz Hpk] Hix.
  assert (Ebfile : OS.join_path d bname = d ++ [bname]).
  { apply join_plain; [apply backup_name_plain | discriminate]. }
  assert (Ecfile : OS.join_path d "audit_chain.pkl.gz" = d ++ ["audit_chain.pkl.gz"])
    by reflexivity.
  rewrite Ebfile in Hb. rewrite Ecfile in Hc.
  assert (Hne : d ++ ["audit_chain.pkl.gz"] <> d ++ [bname]).
  { intros E. apply app_inv_head in E.
    apply (f_equal (fun names => match names with
                                 | [name] => String.get 11 name
                                 | _ => None
                                 end)) in E.
    lazy in E. discriminate. }
  (* the backup of the moment *)
  destruct (pickle_gz_dump_ok (d ++ [bname]) c (OS.tick o)) as (fs2 & Hw2 & _ & Hd2 & Hl2).
  { destruct d; discriminate. }
  { unfold OS.parent. now rewrite removelast_snoc. }
  { exact Hb. }
  set (o2 := OS.with_files fs2 (OS.tick o)) in *.
  (* the current chain *)
  destruct (pickle_gz_dump_ok (d ++ ["audit_chain.pkl.gz"]) c o2) as (fs3 & Hw3 & Hf3 & Hd3 & Hl3).
  { destruct d; discriminate. }
  { unfold OS.parent. rewrite removelast_snoc. rewrite Hd2; [exact Hdir|].
    intros E. apply (f_equal length) in E. rewrite length_app in E. simpl in E. lia. }
  { rewrite Hd2 by exact Hne. exact Hc. }
  set (o3 := OS.with_files fs3 o2) in *.
  (* the old backups *)
  destruct (cleanup_old_backups_inv
              (World (OS.tick o3) (set_last_backup (OS.clock o3 (OS.ticks o3)) l)))
    as (r5 & w5 & Hclean & _ & _ & Hself5 & Hl5 & Hd5 & Hc5).
  cbn [os self data_dir set_last_backup] in Hl5, Hd5, Hc5. fold d in Hl5, Hd5.
  exists w5.
  assert (Hrun : _backup_chain (World o l) = (inr tt, w5)).
  { unfold _backup_chain, try_except.
    rewrite (bind_ok (sys OS.now) _ (World o l) (OS.clock o (OS.ticks o))
                     (World (OS.tick o) l) eq_refl).
    rewrite (bind_ok (gets self) _ _ _ _ eq_refl). cbn [self]. fold d c bname.
    rewrite Ebfile, Ecfile.
    rewrite (bind_ok (sys (OS.pickle_gz_dump (d ++ [bname]) c)) _
                     (World (OS.tick o) l) tt (World o2 l))
      by (unfold sys, zoom; cbn [os self]; now rewrite Hw2).
    rewrite (bind_ok (sys (OS.pickle_gz_dump (d ++ ["audit_chain.pkl.gz"]) c)) _
                     (World o2 l) tt (World o3 l))
      by (unfold sys, zoom; cbn [os self]; now rewrite Hw3).
    rewrite (bind_ok (sys OS.now) _ (World o3 l) (OS.clock o3 (OS.ticks o3))
                     (World (OS.tick o3) l) eq_refl).
    rewrite (bind_ok (update _) _ _ tt _ eq_refl).
    cbv [os self]. rewrite Hclean. now destruct r5 as [e|[]]. }
  (* the constructor *)
  assert (Hfile : OS.files (os w5) !! (d ++ ["audit_chain.pkl.gz"])
                  = Some (OS.File (OS.gzip_compress o (OS.pickle_dumps o c)) (OS.stamp o2))).
  { rewrite Hl5; [exact Hf3 | |].
    - intros E. apply (f_equal length) in E. rewrite length_app in E. simpl in E. lia.
    - intros _. unfold OS.name. rewrite last_last. reflexivity. }
  assert (Hdir5 : OS.is_dir d (os w5) = true).
  { rewrite Hd5. change (OS.is_dir d (OS.tick o3)) with (OS.is_dir d o3).
    unfold o3. rewrite Hd3, Hd2; [exact Hdir | |];
      intros E; apply (f_equal length) in E; rewrite length_app in E; simpl in E; lia. }
  assert (Hcodecs : codecs (os w5) = codecs o) by (rewrite Hc5; reflexivity).
  injection Hcodecs as _ Hgz5 _ Hpk5.
  assert (Hload : OS.pickle_gz_load (OS.join_path d "audit_chain.pkl.gz") (os w5)
                  = (inr c, os w5)).
  { rewrite Ecfile. unfold OS.pickle_gz_load, OS.gzip_read, OS.read_bytes, OS.lookup.
    cbv [bind gets ret id].
    destruct (d ++ ["audit_chain.pkl.gz"]) as [|x r] eqn:E; [destruct d; discriminate|].
    rewrite Hfile, Hgz5, Hgz, Hpk5, Hpk. reflexivity. }
  unfold __init__. rewrite <- Hd. fold d.
  assert (Hmk : OS.mkdir d true (os w5) = (inr tt, os w5)).
  { unfold OS.mkdir. unfold OS.is_dir in Hdir5.
    destruct (OS.lookup (OS.files (os w5)) d) as [[m|dd m]|]; try discriminate.
    reflexivity. }
  rewrite (bind_ok _ _ _ _ _ Hmk).
  unfold construct.
  match goal with
  | |- context [bind _load_existing_chain ?k ?s] =>
      destruct (load_existing_chain_inv s) as (c' & ix' & Hrun' & Hcase);
      rewrite (bind_ok _ _ _ _ _ Hrun')
  end.
  cbn [os self data_dir] in Hcase. fold d in Hcase. rewrite Hload in Hcase.
  cbv [bind sys zoom OS.now update modify os self].
  do 2 eexists. split; [exact Hrun|]. split; [reflexivity|].
  cbn [chain chain_index set_last_backup set_chain].
  destruct Hcase as [(Hno & _) | (_ & [(_ & _ & Hbad) | (Hc' & Hix')])].
  - unfold OS.exists_ in Hno. rewrite Ecfile in Hno. unfold OS.lookup in Hno.
    destruct (d ++ ["audit_chain.pkl.gz"]) as [|x r] eqn:E; [discriminate|].
    rewrite Hfile in Hno. discriminate.
  - destruct (Hbad c eq_refl) as [e He]. fold c in Hix. congruence.
  - cbn [fst] in Hc'. injection Hc' as <-. fold c in Hix. split; congruence.
Qed.

End SaveAndLoad.

Section Names.

Import Laws.

Lemma last_char_app s x : last_char (s +:+ String x "") = Some x.
Proof.
  induction s as [|a s IH]; [reflexivity|].
  change (last_char (String a (s +:+ String x "")) = Some x).
  destruct (s +:+ String x "") as [|b r] eqn:E; [destruct s; discriminate|].
  exact IH.
Qed.

Lemma append_assoc (a b c : string) : (a +:+ b) +:+ c = a +:+ (b +:+ c).
Proof.
  induction a as [|x a IH]; [reflexivity|].
  change (String x ((a +:+ b) +:+ c) = String x (a +:+ (b +:+ c))). now f_equal.
Qed.

Lemma split_slash_nonempty s : forall cur x,
  Ascii.eqb x "/" = false -> OS.split_slash (s +:+ String x "") cur <> [].
Proof.
  induction s as [|a s IH]; intros cur x Hx.
  - change ("" +:+ String x "") with (String x ""). cbn [OS.split_slash].
    rewrite Hx. destruct (String.eqb _ "") eqn:E; [|discriminate].
    apply String.eqb_eq in E. destruct cur; discriminate.
  - change (String a s +:+ String x "") with (String a (s +:+ String x "")).
    cbn [OS.split_slash].
    destruct (Ascii.eqb a "/"); [destruct (String.eqb cur "")|];
      try apply IH; try exact Hx. discriminate.
Qed.

(** The last component of a path ends as the text that was split. *)
Lemma split_slash_last s : forall cur x c,
  Ascii.eqb x "/" = false ->
  last (OS.split_slash (s +:+ String x "") cur) = Some c ->
  last_char c = Some x.
Proof.
  induction s as [|a s IH]; intros cur x c Hx.
  - change ("" +:+ String x "") with (String x ""). cbn [OS.split_slash].
    rewrite Hx. destruct (String.eqb _ "") eqn:E; [discriminate|].
    intros [= <-]. apply last_char_app.
  - change (String a s +:+ String x "") with (String a (s +:+ String x "")).
    cbn [OS.split_slash].
    destruct (Ascii.eqb a "/"); [destruct (String.eqb cur "")|];
      try (apply IH; exact Hx).
    pose proof (split_slash_nonempty s "" x Hx) as Hne.
    destruct (OS.split_slash (s +:+ String x "") "") as [|y l] eqn:E; [congruence|].
    change (last (cur :: y :: l)) with (last (y :: l)). rewrite <- E.
    apply IH. exact Hx.
Qed.

(** No file of the logs is written where the manifest goes. *)
Lemma log_is_not_manifest (backup_dir : OS.path) stem :
  OS.join_path (OS.join_path backup_dir "logs") (stem +:+ ".log.gz")
  <> OS.join_path backup_dir "backup_manifest.json".
Proof.
  change (OS.join_path backup_dir "logs") with (backup_dir ++ ["logs"]).
  change (OS.join_path backup_dir "backup_manifest.json")
    with (backup_dir ++ ["backup_manifest.json"]).
  unfold OS.join_path. destruct (String.prefix "/" _).
  - intros H. apply (f_equal last) in H.
    rewrite last_snoc in H.
    change (stem +:+ ".log.gz") with (stem +:+ (".log.g" +:+ "z")) in H.
    rewrite <- append_assoc in H.
    pose proof (split_slash_nonempty (stem +:+ ".log.g") "" "z" eq_refl) as Hne.
    destruct (OS.split_slash _ "") as [|y l] eqn:E; [congruence|].
    change (last ("/" :: y :: l)) with (last (y :: l)) in H. rewrite <- E in H.
    apply split_slash_last in H; [discriminate | reflexivity].
  - rewrite <- app_assoc. intros H. apply app_inv_head in H. discriminate.
Qed.

End Names.

Section FreshBackup.

Import Backup Props Laws.

Lemma hijri_exists q : preserves (same (OS.exists_ q)) get_hijri_date.
Proof. intros o. reflexivity. Qed.

Lemma now_exists q : preserves (same (OS.exists_ q)) OS.now.
Proof. intros o. reflexivity. Qed.

Lemma st_size_exists q p : preserves (same (OS.exists_ q)) (OS.st_size p).
Proof. intros o. unfold OS.st_size, same. now destruct (OS.lookup _ _) as [[]|]. Qed.

Lemma read_bytes_exists q p : preserves (same (OS.exists_ q)) (OS.read_bytes p).
Proof. intros o. unfold OS.read_bytes, same. now destruct (OS.lookup _ _) as [[]|]. Qed.

(** The paths that the code builds from names it spells out. *)
Ltac spell_paths :=
  repeat match goal with
         | |- context [OS.join_path ?p ?s] =>
             let l := eval vm_compute in (OS.split_slash s "") in
             lazymatch l with
             | [] => idtac
             | _ :: _ => idtac
             end;
             change (OS.join_path p s) with (p ++ l)
         end.

(** Two paths are not the same when they part after a common stem, or
    when one is longer. *)
Ltac parted :=
  let H := fresh in
  intros H;
  first [ apply app_inv_head in H; discriminate
        | rewrite <- ?app_assoc in H; apply app_inv_head in H; discriminate
        | apply (f_equal length) in H; rewrite ?length_app in H; simpl in H; lia ].

(** What a backup copies does not make a manifest. *)
Lemma backup_steps_manifest backup_dir :
  preserves (same (fun w => OS.exists_ (OS.join_path backup_dir "backup_manifest.json")
                                       (os w)))
            (_backup_audit_chain backup_dir)
  /\ preserves (same (fun w => OS.exists_ (OS.join_path backup_dir "backup_manifest.json")
                                          (os w)))
               (_backup_configurations backup_dir)
  /\ preserves (same (fun w => OS.exists_ (OS.join_path backup_dir "backup_manifest.json")
                                          (os w)))
               (_backup_reports_templates backup_dir)
  /\ preserves (same (fun w => OS.exists_ (OS.join_path backup_dir "backup_manifest.json")
                                          (os w)))
               (_backup_logs backup_dir).
Proof.
  repeat apply conj.
  - unfold _backup_audit_chain.
    repeat first [ apply backup_sys_os;
                   first [ apply st_size_exists
                         | apply copy2_exists; spell_paths; parted ]
                 | frame_step ].
  - unfold _backup_configurations, backup_configuration. cbn [gather].
    repeat first [ apply backup_sys_os;
                   first [ apply st_size_exists
                         | apply copy2_exists; spell_paths; parted ]
                 | frame_step ].
  - unfold _backup_reports_templates.
    repeat first [ apply backup_sys_os, copytree_exists; spell_paths;
                   apply (is_prefix_parted backup_dir _ [] _ []); discriminate
                 | frame_step ].
  - unfold _backup_logs, backup_log.
    repeat first [ apply backup_sys_os;
                   first [ apply st_size_exists | apply read_bytes_exists
                         | apply mkdir_exists; spell_paths; parted
                         | apply write_bytes_exists, not_eq_sym, log_is_not_manifest ]
                 | frame_step ].
Qed.

Lemma verify_backup_without_manifest backup_dir w :
  OS.exists_ (OS.join_path backup_dir "backup_manifest.json") (os w) = false ->
  _verify_backup backup_dir w
  = (inr (PyDict [("valid", PyBool false); ("error", PyStr "Manifest file missing")]), w).
Proof.
  intros H. unfold _verify_backup, try_except.
  rewrite (bind_ok (gets os) _ _ _ _ eq_refl). rewrite H. reflexivity.
Qed.

(** X14.  A backup made where no manifest is yet is recorded as not
    verified: [create_backup] checks the backup before it writes the
    manifest, so when it reports a success, the verification in its result
    is [valid = False], "Manifest file missing". *)
Theorem fresh_backup_is_recorded_unverified backup_type w v w' :
  OS.exists_ (manifest_of w) (os w) = false ->
  create_backup backup_type w = (inr v, w') ->
  field v "success" = Some (PyBool true) ->
  field v "verification"
  = Some (PyDict [("valid", PyBool false); ("error", PyStr "Manifest file missing")]).
Proof.
  destruct w as [o b]. unfold manifest_of, backup_dir_of. cbn [os self].
  set (start_time := OS.clock o (OS.ticks o)).
  set (backup_dir := OS.join_path (daily_backup_dir b)
                       ("backup_" +:+ DateTime.strftime_Ymd_HMS start_time)).
  set (q := OS.join_path backup_dir "backup_manifest.json").
  intros Hfresh. unfold create_backup.
  rewrite (bind_ok (sys OS.now) _ (World o b) start_time (World (OS.tick o) b) eq_refl).
  unfold try_except. cbv zeta.
  rewrite (bind_ok (gets self) _ _ _ _ eq_refl). cbn [self]. fold backup_dir.
  match goal with
  | |- context [match ?body ?w1 with _ => _ end] =>
      assert (Hbody : hoare (fun w => OS.exists_ q (os w) = false) body
                (fun r _ =>
                   match r with
                   | inr v =>
                       field v "verification"
                       = Some (PyDict [("valid", PyBool false);
                                       ("error", PyStr "Manifest file missing")])
                   | inl _ => True
                   end));
      [| destruct (body w1) as [[e|v1] w2] eqn:Hrun;
         [ cbv [bind sys zoom OS.now gets update modify ret os self];
           intros [= <- _] Hs; discriminate
         | intros [= <- _] _;
           exact (hoare_run _ _ _ w1 _ _ Hbody Hfresh Hrun) ] ]
  end.
  destruct (backup_steps_manifest backup_dir) as (H1 & H2 & H3 & H4).
  do 6 (apply hoare_step;
        [ apply (hoare_same (fun w => OS.exists_ q (os w)));
          first [ apply backup_sys_os;
                  first [ apply hijri_exists | apply mkdir_exists; subst q; spell_paths; parted ]
                | exact H1 | exact H2 | exact H3 | exact H4 ]
        | intros e s Hs; exact I
        | intros ? ]).
  apply (hoare_bind _ (fun v _ => v = PyDict [("valid", PyBool false);
                                             ("error", PyStr "Manifest file missing")])).
  { intros s Hs. now rewrite (verify_backup_without_manifest _ _ Hs). }
  intros verification_result.
  do 5 (apply hoare_step; [ apply hoare_const | intros e s Hs; exact I | intros ? ]).
  apply hoare_ret. intros s ->. reflexivity.
Qed.

End FreshBackup.

Section RecoveryLaws.

Import Recovery Props Laws.

Lemma recovery_sys_self {A X} (g : DisasterRecoverySystem -> X) (m : M OS.t A) :
  preserves (same (fun w => g (self w))) (sys m).
Proof. intros [o l]. unfold sys, zoom, same. simpl. destruct (m o). reflexivity. Qed.

Lemma recovery_update_self {X} (g : DisasterRecoverySystem -> X) u :
  (forall d, g (u d) = g d) -> preserves (same (fun w => g (self w))) (update u).
Proof. intros H [o l]. unfold same. simpl. apply H. Qed.

(** A method of the backup system changes, of the recovery system, the
    backup system only. *)
Lemma on_backup_system_self {A X} (g : DisasterRecoverySystem -> X)
    (m : M Backup.world A) :
  (forall b d, g (set_backup_system b d) = g d) ->
  preserves (same (fun w => g (self w))) (on_backup_system m).
Proof.
  intros H [o d]. unfold on_backup_system, zoom, same. simpl.
  destruct (m _) as [r [o' b']]. simpl. apply H.
Qed.

(** X11.  [perform_recovery] always gives the lock back: started with
    [recovery_in_progress] off, it ends with [recovery_in_progress] off,
    whether it returns a success, returns a failure or raises. *)
Theorem recovery_flag_is_always_cleared recovery_point_id target_time
    verification_mode w r w' :
  recovery_in_progress (self w) = false ->
  perform_recovery recovery_point_id target_time verification_mode w = (r, w') ->
  recovery_in_progress (self w') = false.
Proof.
  destruct w as [o d]. cbn [self]. intros Hfree.
  unfold perform_recovery.
  rewrite (bind_ok (gets self) _ _ _ _ eq_refl). cbn [self]. rewrite Hfree.
  rewrite (bind_ok (update _) _ _ tt _ eq_refl).
  rewrite (bind_ok (sys OS.now) _ _ _ _ eq_refl).
  unfold try_finally.
  match goal with
  | |- context [match ?m ?s with _ => _ end] => destruct (m s) as [r1 [o1 d1]]
  end.
  cbv [update modify os self]. intros [= _ <-]. reflexivity.
Qed.


Section Steps.

Context {X : Type} (g : DisasterRecoverySystem -> X).
Hypothesis Hg : forall b d, g (set_backup_system b d) = g d.

Ltac recovery_frame :=
  repeat first [ apply (recovery_sys_self g)
               | apply (on_backup_system_self g); exact Hg
               | frame_step ].

(** The steps of a recovery change, of the recovery system, the backup
    system at most. *)
Lemma recovery_steps_self :
  (forall p, preserves (same (fun w => g (self w))) (_find_recovery_point p))
  /\ (forall p, preserves (same (fun w => g (self w))) (_load_recovery_metadata p))
  /\ (forall p m, preserves (same (fun w => g (self w)))
                            (_verify_recovery_point_integrity p m))
  /\ preserves (same (fun w => g (self w))) _create_pre_recovery_backup
  /\ (forall p t, preserves (same (fun w => g (self w))) (_restore_audit_chain p t))
  /\ (forall p, preserves (same (fun w => g (self w))) (_restore_system_config p))
  /\ (forall p, preserves (same (fun w => g (self w))) (_restore_user_data p))
  /\ (forall m, preserves (same (fun w => g (self w))) (_verify_recovery_success m))
  /\ (forall r, preserves (same (fun w => g (self w))) (_log_recovery_operation r)).
Proof.
  repeat apply conj; intros.
  - unfold _find_recovery_point. recovery_frame.
  - unfold _load_recovery_metadata. recovery_frame.
  - unfold _verify_recovery_point_integrity, _calculate_recovery_point_checksum.
    recovery_frame.
  - unfold _create_pre_recovery_backup. recovery_frame.
  - unfold _restore_audit_chain. recovery_frame.
  - unfold _restore_system_config. recovery_frame.
  - unfold _restore_user_data. recovery_frame.
  - unfold _verify_recovery_success, _check_audit_chain_exists,
      _check_config_files_exist, _check_chain_integrity,
      _check_system_functionality, _check_performance_metrics,
      _check_compliance_requirements.
    recovery_frame.
  - unfold _log_recovery_operation. recovery_frame.
Qed.

End Steps.

Lemma history_of_backup_system b d :
  recovery_history (set_backup_system b d) = recovery_history d.
Proof. reflexivity. Qed.

(** The [try] block: an exception leaves the history as it was; a result
    is a success, and the history has one more record. *)
Lemma recover_history recovery_point_id target_time verification_mode start_time h :
  hoare (fun w => recovery_history (self w) = h)
    (recover recovery_point_id target_time verification_mode start_time)
    (fun r w =>
       match r with
       | inl _ => recovery_history (self w) = h
       | inr v =>
           field v "success" = Some (PyBool true)
           /\ exists record,
                recovery_history (self w) = h ++ [record]
                /\ field record "recovery_point_id" = Some (PyStr recovery_point_id)
       end).
Proof.
  destruct (recovery_steps_self recovery_history history_of_backup_system)
    as (H1 & H2 & H3 & H4 & H5 & H6 & H7 & H8 & H9).
  unfold recover.
  repeat first
    [ apply hoare_step;
      [ apply (hoare_same (fun w => recovery_history (self w)));
        first [ apply same_gets | apply same_lift | apply H1 | apply H2 | apply H3
              | apply H4 | apply H5 | apply H6 | apply H7 | apply H8 | apply H9
              | apply (recovery_sys_self recovery_history) ]
      | intros e s Hs; exact Hs
      | intros ? ]
    | apply hoare_raise; intros s Hs; exact Hs
    | match goal with
      | |- hoare _ (match ?x with _ => _ end) _ => destruct x
      | |- hoare _ (if ?c then _ else _) _ => destruct c
      end ].
  intros [o d] Hs. cbn [self] in Hs.
  cbv [bind update modify ret os self fst snd].
  split; [reflexivity|]. eexists. split; [now rewrite Hs | reflexivity].
Qed.

(** The [except] block leaves the history as it is, and reports a
    failure. *)
Lemma recovery_failed_history recovery_point_id start_time e h :
  hoare (fun w => recovery_history (self w) = h)
    (recovery_failed recovery_point_id start_time e)
    (fun r w =>
       recovery_history (self w) = h
       /\ match r with
          | inr v => field v "success" = Some (PyBool false)
          | inl _ => True
          end).
Proof.
  destruct (recovery_steps_self recovery_history history_of_backup_system)
    as (_ & _ & _ & _ & _ & _ & _ & _ & H9).
  unfold recovery_failed.
  do 3 (apply hoare_step;
        [ apply (hoare_same (fun w => recovery_history (self w)));
          first [ apply H9 | apply (recovery_sys_self recovery_history) ]
        | intros e' s Hs; split; [exact Hs | exact I]
        | intros ? ]).
  intros s Hs. split; [exact Hs | reflexivity].
Qed.

(** X12.  [recovery_history] records the completed recoveries only: when
    [perform_recovery] reports a success, the history has exactly one more
    record, for that recovery point; when it reports a failure, or raises
    because the failure could not be logged, the history is as before. *)
Theorem recovery_history_records_completed_runs_only recovery_point_id target_time
    verification_mode w r w' :
  recovery_in_progress (self w) = false ->
  perform_recovery recovery_point_id target_time verification_mode w = (r, w') ->
  (exists v record,
      r = inr v /\ field v "success" = Some (PyBool true)
      /\ recovery_history (self w') = recovery_history (self w) ++ [record]
      /\ field record "recovery_point_id" = Some (PyStr recovery_point_id))
  \/ (recovery_history (self w') = recovery_history (self w)
      /\ match r with
         | inr v => field v "success" = Some (PyBool false)
         | inl _ => True
         end).
Proof.
  destruct w as [o d]. cbn [self]. intros Hfree.
  unfold perform_recovery.
  rewrite (bind_ok (gets self) _ _ _ _ eq_refl). cbn [self]. rewrite Hfree.
  rewrite (bind_ok (update _) _ _ tt _ eq_refl).
  rewrite (bind_ok (sys OS.now) _ _ _ _ eq_refl).
  unfold try_finally, try_except. cbv [update modify os self].
  match goal with
  | |- context [recover ?a ?b ?c ?t ?s] =>
      destruct (recover a b c t s) as [[e|v] [o1 d1]] eqn:Hrun;
      pose proof (hoare_run _ _ _ s _ _
                    (recover_history a b c t (recovery_history d)) eq_refl Hrun) as H
  end; cbn [self] in H.
  - match goal with
    | |- context [recovery_failed ?a ?t ?e ?s] =>
        destruct (recovery_failed a t e s) as [r2 [o2 d2]] eqn:Hfail;
        pose proof (hoare_run _ _ _ s _ _
                      (recovery_failed_history a t e (recovery_history d)) H Hfail)
          as [Hh Hr]
    end; cbn [self] in Hh.
    intros [= <- <-]. right. cbn [self recovery_history set_recovery_in_progress].
    split; [exact Hh | exact Hr].
  - destruct H as [Hv (record & Hh & Hrec)].
    intros [= <- <-]. left. exists v, record.
    cbn [self recovery_history set_recovery_in_progress]. auto.
Qed.


Lemma check_audit_chain_exists_run w :
  exists c,
    _check_audit_chain_exists w = (inr (PyDict (("success", PyBool (chain_file_ready w)) :: c)), w).
Proof.
  destruct w as [o d].
  unfold _check_audit_chain_exists, chain_file_ready, size_of.
  cbv [bind gets ret sys zoom OS.st_size OS.exists_ os self].
  destruct (OS.lookup (OS.files o) _) as [[m|data m]|] eqn:E;
    cbv beta iota zeta; rewrite ?E; eexists; reflexivity.
Qed.

Lemma check_config_files_exist_run w :
  exists c,
    _check_config_files_exist w = (inr (PyDict (("success", PyBool (configs_present w)) :: c)), w).
Proof.
  destruct w as [o d].
  unfold _check_config_files_exist, configs_present.
  cbv [bind gets ret OS.exists_ os self].
  rewrite !filter_cons, filter_nil. cbv beta.
  destruct (OS.lookup (OS.files o) (OS.join_path _ "config.json"));
    destruct (OS.lookup (OS.files o) (OS.join_path _ "settings.ini"));
    cbn [negb]; repeat case_decide; try done; eexists; reflexivity.
Qed.

(** X13.  The verdict of [_verify_recovery_success] does not depend on the
    verification mode: whatever the mode, [overall_success] says that the
    chain file is there and not empty and that [config.json] and
    [settings.ini] are there; the checks that "standard" and "full" add
    always pass.  The call raises nothing and changes neither the object
    nor the files. *)
Theorem recovery_verdict_ignores_mode verification_mode w :
  exists v w',
    _verify_recovery_success verification_mode w = (inr v, w')
    /\ field v "overall_success"
       = Some (PyBool (chain_file_ready w && configs_present w))
    /\ self w' = self w
    /\ OS.files (os w') = OS.files (os w).
Proof.
  destruct (check_audit_chain_exists_run w) as [c1 H1].
  destruct (check_config_files_exist_run w) as [c2 H2].
  unfold _verify_recovery_success, try_except.
  rewrite (bind_ok _ _ _ _ _ H1), (bind_ok _ _ _ _ _ H2).
  unfold _check_chain_integrity, _check_system_functionality,
    _check_performance_metrics, _check_compliance_requirements.
  destruct w as [o d].
  destruct (chain_file_ready _), (configs_present _);
    destruct (String.eqb verification_mode "standard");
    destruct (String.eqb verification_mode "full");
    cbv [bind ret lift sys zoom OS.now os self orb app record_checks and_then
         getitem dict_lookup String.eqb Ascii.eqb Bool.eqb truthy negb];
    do 2 eexists; (split; [reflexivity|]); repeat apply conj; reflexivity.
Qed.

End RecoveryLaws.

Section LedgerSamples.

Import Ledger Props Laws Samples.

Lemma sound_chain_ok : chain_ok None (chain (self sound)) = true.
Proof. vm_compute. reflexivity. Qed.

Lemma sound_in_time : in_time sound (length (chain (self sound))).
Proof.
  intros k Hk. change (length (chain (self sound))) with 2%nat in Hk.
  destruct k as [|[|k]]; [vm_compute; reflexivity | vm_compute; reflexivity | lia].
Qed.

Lemma consistent_chain_verifies_witness :
  exists v w',
    verify_chain_integrity sound = (inr v, w')
    /\ field v "valid" = Some (PyBool true)
    /\ field v "entries_count" = Some (PyInt 2)
    /\ field v "integrity_score" = Some (PyFloat (integrity_score 0 2))
    /\ self w' = self sound
    /\ OS.files (os w') = OS.files (os sound).
Proof. exact (consistent_chain_verifies sound sound_chain_ok sound_in_time). Defined.

Lemma sound_verified :
  verify_chain_integrity sound
  = (inr (PyDict [("valid", PyBool true);
                  ("entries_count", PyInt 2);
                  ("integrity_score", PyFloat 1);
                  ("verification_time_ms", PyFloat 3);
                  ("corrupted_entries", PyList [])]),
     World (later 4 (os sound)) (self sound)).
Proof. vm_compute. reflexivity. Qed.

Lemma valid_verdict_means_consistent_witness :
  chain_ok None (chain (self sound)) = true
  /\ self (World (later 4 (os sound)) (self sound)) = self sound
  /\ OS.files (os (World (later 4 (os sound)) (self sound))) = OS.files (os sound).
Proof.
  exact (valid_verdict_means_consistent sound _ _ sound_verified eq_refl).
Defined.

Lemma first_append :
  append_entry (Scenario.payload "1234567890") Scenario.w0
  = (inr "procurement_1234567890_20240115_103000_001000", Scenario.w1).
Proof.
  change Scenario.w1
    with (append_entry (Scenario.payload "1234567890") Scenario.w0).2.
  apply run_result. vm_compute. reflexivity.
Qed.

Lemma append_never_writes_files_witness :
  OS.files (os Scenario.w1) = OS.files (os Scenario.w0)
  /\ _last_backup (self Scenario.w1) = _last_backup (self Scenario.w0)
  /\ _corruption_checks_enabled (self Scenario.w1)
     = _corruption_checks_enabled (self Scenario.w0)
  /\ data_dir (self Scenario.w1) = data_dir (self Scenario.w0).
Proof. exact (append_never_writes_files _ _ _ _ first_append). Defined.

Lemma appended_entry_is_indexed_witness :
  exists entry,
    chain (self Scenario.w1) = chain (self Scenario.w0) ++ [entry]
    /\ chain_index (self Scenario.w1)
         !! "procurement_1234567890_20240115_103000_001000"
       = Some (length (chain (self Scenario.w0)))
    /\ chain (self Scenario.w1) !! length (chain (self Scenario.w0)) = Some entry
    /\ getitem entry "id"
       = inr (PyStr "procurement_1234567890_20240115_103000_001000")
    /\ getitem entry "data" = inr (PyDict (Scenario.payload "1234567890"))
    /\ getitem entry "chain_position"
       = inr (PyInt (Z.of_nat (length (chain (self Scenario.w0)))))
    /\ (forall k, k <> "procurement_1234567890_20240115_103000_001000" ->
          chain_index (self Scenario.w1) !! k = chain_index (self Scenario.w0) !! k).
Proof. exact (appended_entry_is_indexed _ _ _ _ first_append). Defined.

Lemma sound_indexed : indexed (self sound).
Proof.
  intros k j. change (chain_index (self sound))
    with ({[ "a" := 0%nat; "b" := 1%nat ]} : gmap string nat).
  intros H. apply lookup_insert_Some in H as [[<- <-]|[_ H]].
  - exists first_entry. split; reflexivity.
  - apply lookup_singleton_Some in H as [<- <-].
    exists second_entry. split; reflexivity.
Qed.

Lemma append_keeps_index_witness :
  indexed (self (append_entry (Scenario.payload "1234567890") sound).2).
Proof.
  apply (append_keeps_index (Scenario.payload "1234567890") sound
           (append_entry (Scenario.payload "1234567890") sound).1 _ sound_indexed).
  now destruct (append_entry _ sound).
Defined.




Lemma bias_alert_filed :
  (log_bias_alert "procurement_1234567890_20240115_103000_001000" bias_result
                  Scenario.w0).1 = inr tt.
Proof. vm_compute. reflexivity. Qed.

Lemma bias_alert_is_filed_under_system_id_witness :
  exists confidence high alert entry,
    dict_lookup "confidence" bias_result = Some confidence
    /\ gt_float confidence 0x1.999999999999ap-1 = inr high
    /\ chain (self (log_bias_alert "procurement_1234567890_20240115_103000_001000"
                                   bias_result Scenario.w0).2)
       = chain (self Scenario.w0) ++ [entry]
    /\ getitem entry "data" = inr (PyDict alert)
    /\ dict_lookup "severity" alert = Some (PyStr (if high then "HIGH" else "MEDIUM"))
    /\ dict_lookup "related_entry" alert
       = Some (PyStr "procurement_1234567890_20240115_103000_001000")
    /\ dict_lookup "bias_details" alert = Some (PyDict bias_result)
    /\ getitem entry "id"
       = inr (PyStr ("UNKNOWN_SYSTEM_"
                     +:+ DateTime.strftime_Ymd_HMS_f
                           (OS.clock (os Scenario.w0) (OS.ticks (os Scenario.w0) + 3)))).
Proof.
  apply (bias_alert_is_filed_under_system_id _ bias_result Scenario.w0).
  apply run_result. exact bias_alert_filed.
Defined.

End LedgerSamples.

Section MoreSamples.

Import Props Laws Samples.

Lemma recovery_flag_is_always_cleared_witness :
  Recovery.recovery_in_progress
    (Recovery.self
       (Recovery.perform_recovery "RP_20240115_100000" None "quick" Site.idle).2)
  = false.
Proof.
  apply (recovery_flag_is_always_cleared "RP_20240115_100000" None "quick" Site.idle
           (Recovery.perform_recovery "RP_20240115_100000" None "quick" Site.idle).1).
  - reflexivity.
  - now destruct (Recovery.perform_recovery _ _ _ Site.idle).
Defined.

Lemma recovery_history_records_completed_runs_only_witness :
  let run := Recovery.perform_recovery "RP_20240115_100000" None "quick" Site.idle in
  (exists v record,
      run.1 = inr v /\ field v "success" = Some (PyBool true)
      /\ Recovery.recovery_history (Recovery.self run.2)
         = Recovery.recovery_history (Recovery.self Site.idle) ++ [record]
      /\ field record "recovery_point_id" = Some (PyStr "RP_20240115_100000"))
  \/ (Recovery.recovery_history (Recovery.self run.2)
      = Recovery.recovery_history (Recovery.self Site.idle)
      /\ match run.1 with
         | inr v => field v "success" = Some (PyBool false)
         | inl _ => True
         end).
Proof.
  apply (recovery_history_records_completed_runs_only
           "RP_20240115_100000" None "quick" Site.idle).
  - reflexivity.
  - now destruct (Recovery.perform_recovery _ _ _ Site.idle).
Defined.

Lemma backups_made :
  (Backup.create_backup "manual" backups).1
  = inr (or_none (Backup.create_backup "manual" backups).1).
Proof. vm_compute. reflexivity. Qed.

Lemma fresh_backup_is_recorded_unverified_witness :
  field (or_none (Backup.create_backup "manual" backups).1) "verification"
  = Some (PyDict [("valid", PyBool false); ("error", PyStr "Manifest file missing")]).
Proof.
  apply (fresh_backup_is_recorded_unverified "manual" backups _
           (Backup.create_backup "manual" backups).2).
  - vm_compute. reflexivity.
  - apply run_result. exact backups_made.
  - vm_compute. reflexivity.
Defined.

Lemma saved_chain_is_loaded_again_witness :
  exists w1 l o2,
    Ledger._backup_chain saving = (inr tt, w1)
    /\ Ledger.__init__ "audit_data" (Ledger.os w1) = (inr l, o2)
    /\ Ledger.chain l = stored
    /\ Ledger.chain_index l = {[ "a" := 0%nat; "b" := 1%nat ]}.
Proof.
  apply (saved_chain_is_loaded_again "audit_data" saving).
  - reflexivity.
  - reflexivity.
  - vm_compute. reflexivity.
  - vm_compute. reflexivity.
  - split; reflexivity.
  - vm_compute. reflexivity.
Defined.

End MoreSamples.

(** ** The scenarios *)

Section Scenarios.

Import Ledger Props Scenario.

Example new_ledger_in_empty_directory :
  (__init__ "audit_data" (os w0)).1 = inr (set_last_backup (clock 0) (self w0)).
Proof. vm_compute. reflexivity. Qed.

Example reloaded_chain_is_mutated : chain (self reloaded) = mutated.
Proof. vm_compute. reflexivity. Qed.

Ltac step_scenario :=
  match goal with
  | |- ?run = (?a, ?w) =>
      let w' := eval red in w in
      let w'' := eval cbv beta delta [after] in w' in
      change (run = (a, w'')); apply (run_result run a); vm_compute; reflexivity
  end.

Lemma five_appended : appended 5 w5.
Proof.
  assert (H0 : appended 0 w0) by (apply appended_0; reflexivity).
  assert (H1 : appended 1 w1).
  { apply (appended_S 0 w0 (os w0) (payload "1234567890")
             "procurement_1234567890_20240115_103000_001000" w1 H0).
    rewrite ledger_world_eta. step_scenario. }
  assert (H2 : appended 2 w2).
  { apply (appended_S 1 w1 (os w1) (payload "1234567891")
             "procurement_1234567891_20240115_103000_008000" w2 H1).
    rewrite ledger_world_eta. step_scenario. }
  assert (H3 : appended 3 w3).
  { apply (appended_S 2 w2 (os w2) (payload "1234567892")
             "procurement_1234567892_20240115_103000_015000" w3 H2).
    rewrite ledger_world_eta. step_scenario. }
  assert (H4 : appended 4 w4).
  { apply (appended_S 3 w3 (os w3) (payload "1234567893")
             "procurement_1234567893_20240115_103000_022000" w4 H3).
    rewrite ledger_world_eta. step_scenario. }
  apply (appended_S 4 w4 (os w4) (payload "1234567894")
           "procurement_1234567894_20240115_103000_029000" w5 H4).
  rewrite ledger_world_eta. step_scenario.
Defined.

(** C1 (the code departs from it).  Five entries appended to a new ledger
    and nothing else: [verify_chain_integrity] reports [valid = False],
    every entry as corrupted and a score of 0.0, because [append_entry]
    hashes the entry with its [hash] field set to [None] and the
    verification hashes it without the field. *)
Theorem appended_chain_fails_verification :
  appended 5 w5
  /\ exists result w',
      verify_chain_integrity w5 = (inr result, w')
      /\ field result "valid" = Some (PyBool false)
      /\ field result "integrity_score" = Some (PyFloat 0)
      /\ (exists records,
             field result "corrupted_entries" = Some (PyList records)
             /\ length records = 5%nat)
      /\ _corruption_checks_enabled (self w') = false.
Proof.
  split; [exact five_appended|].
  exists (or_none (verify_chain_integrity w5).1), (verify_chain_integrity w5).2.
  split; [apply run_result; vm_compute; reflexivity|].
  split; [vm_compute; reflexivity|].
  split; [vm_compute; reflexivity|].
  split; [|vm_compute; reflexivity].
  eexists. split; [vm_compute; reflexivity | reflexivity].
Qed.

(** C2 (the code departs from it).  Once [verify_chain_integrity] has found
    the tampered entry it has written its report and cleared
    [_corruption_checks_enabled]; the next [append_entry] succeeds all the
    same, for it never reads the flag. *)
Theorem append_succeeds_in_quarantine :
  verify_chain_integrity reloaded = (inr verdict, quarantined)
  /\ field verdict "valid" = Some (PyBool false)
  /\ _corruption_checks_enabled (self quarantined) = false
  /\ OS.is_file ["audit_data"; "corruption_report_20240115_103000.json"]
                (os quarantined) = true
  /\ exists w',
      append_entry (payload "1234567895") quarantined
      = (inr "procurement_1234567895_20240115_103000_016000", w')
      /\ length (chain (self w')) = 6%nat.
Proof.
  split; [step_scenario|].
  split; [vm_compute; reflexivity|].
  split; [vm_compute; reflexivity|].
  split; [vm_compute; reflexivity|].
  exists (append_entry (payload "1234567895") quarantined).2.
  split; [apply run_result|]; vm_compute; reflexivity.
Qed.

(** C3, as stated, fails.  In the scenario of the claim the verdict has six
    records, not one, and a score of 1 - 6/5, not 0.8: every entry is
    reported for its hash (see C1) and entry 3 once more for its link to
    the overwritten hash. *)
Lemma tampered_scenario_score_is_not_0_8 :
  appended 5 w5
  /\ chain (self reloaded) = alter (mutate_hash new_hash) 2%nat (chain (self w5))
  /\ verify_chain_integrity reloaded = (inr verdict, quarantined)
  /\ (exists records,
         field verdict "corrupted_entries" = Some (PyList records)
         /\ length records = 6%nat)
  /\ field verdict "integrity_score" = Some (PyFloat (-0x1.9999999999998p-3))
  /\ field verdict "integrity_score" <> Some (PyFloat 0x1.999999999999ap-1).
Proof.
  split; [exact five_appended|].
  split; [vm_compute; reflexivity|].
  split; [step_scenario|].
  split; [eexists; split; [vm_compute; reflexivity | reflexivity]|].
  assert (Hscore : field verdict "integrity_score"
                   = Some (PyFloat (-0x1.9999999999998p-3)))
    by (vm_compute; reflexivity).
  split; [exact Hscore|].
  rewrite Hscore. intros H.
  apply (f_equal (fun o => match o with
                           | Some (PyFloat x) => PrimFloat.eqb x 0x1.999999999999ap-1
                           | _ => false
                           end)) in H.
  vm_compute in H. discriminate.
Qed.

(** The amended C3 at the scenario. *)
Lemma mutated_hash_is_reported_twice_witness :
  exists r w',
    verify_chain_integrity reloaded = (inr r, w')
    /\ field r "valid" = Some (PyBool false)
    /\ (field r "error" = None ->
        exists records,
          field r "corrupted_entries" = Some (PyList records)
          /\ (exists entry_id x,
                 In (PyDict [("position", PyInt 2); ("entry_id", entry_id);
                             ("expected_hash", PyStr x);
                             ("actual_hash", PyStr new_hash)]) records)
          /\ (exists entry_id,
                 In (PyDict [("position", PyInt 3); ("entry_id", entry_id);
                             ("chain_link_broken", PyBool true)]) records)
          /\ (2 <= length records)%nat
          /\ field r "integrity_score"
             = Some (PyFloat (integrity_score (length records) 5))
          /\ PrimFloat.leb (integrity_score (length records) 5)
                           0x1.3333333333333p-1 = true).
Proof.
  assert (Hstored : getitem third "hash"
                    = inr (PyStr "825dec4bf267dce8aea21ed16c06f2dbb60e14a8ff4ebdbbc64529e2da32a068"))
    by (vm_compute; reflexivity).
  assert (Hrecomputed : _calculate_hash third true
                        = inr "cd93f1e24c8506453d7fa0cfd9817373b649db5c494f823e8e4c6de845bf1505")
    by (vm_compute; reflexivity).
  apply (mutated_hash_is_reported_twice w5 reloaded new_hash third).
  - exact five_appended.
  - vm_compute. reflexivity.
  - rewrite Hstored. discriminate.
  - rewrite Hrecomputed. discriminate.
  - vm_compute. reflexivity.
Defined.

(** C5 at the first two appends of the scenario. *)
Lemma append_keeps_chain_linked_witness :
  built w2 /\ linked (genesis_hash (self w2)) (chain (self w2)).
Proof.
  assert (H : built w2).
  { apply (built_append w1 w2).
    - apply (built_append w0 w1).
      + apply built_empty. reflexivity.
      + exists (os w0), (payload "1234567890"),
          (inr "procurement_1234567890_20240115_103000_001000").
        rewrite ledger_world_eta. step_scenario.
    - exists (os w1), (payload "1234567891"),
        (inr "procurement_1234567891_20240115_103000_008000").
      rewrite ledger_world_eta. step_scenario. }
  split; [exact H | apply (append_keeps_chain_linked w2 H)].
Defined.

(** C6 at a payload that holds a [datetime]. *)
Lemma append_rejects_unserializable_witness :
  Json.dumps (PyDict unserializable)
  = inl (TypeError "Object of type datetime is not JSON serializable")
  /\ exists msg w',
      append_entry unserializable w1 = (inl (Exception msg), w')
      /\ self w' = self w1
      /\ OS.files (os w') = OS.files (os w1).
Proof.
  split; [vm_compute; reflexivity|].
  apply (append_rejects_unserializable unserializable w1
           (TypeError "Object of type datetime is not JSON serializable")).
  vm_compute. reflexivity.
Defined.

(** C10 at a bias result that has no confidence. *)
Lemma bias_alert_needs_confidence_witness :
  dict_lookup "confidence" no_confidence = None
  /\ exists w',
      log_bias_alert "procurement_1234567890_20240115_103000_001000"
                     no_confidence w1
      = (inl (KeyError "confidence"), w')
      /\ self w' = self w1
      /\ OS.files (os w') = OS.files (os w1).
Proof.
  split; [reflexivity|].
  apply (bias_alert_needs_confidence
           "procurement_1234567890_20240115_103000_001000" no_confidence w1).
  reflexivity.
Defined.

(** C9 at a range that holds the entries 1, 2 and 3 of the scenario. *)
Lemma verify_range_checks_selected_hashes_witness :
  let selected :=
    List.filter (selects range_start range_end (Some "procurement")) (chain (self w5)) in
  length selected = 3%nat
  /\ w5 = w5
  /\ field range_result "entries_count" = Some (PyInt (Z.of_nat (length selected)))
  /\ field range_result "valid" = Some (PyBool (forallb self_consistent selected))
  /\ field range_result "corrupted_entries"
     = Some (PyList (map mismatch_report
                         (List.filter (fun e => negb (self_consistent e)) selected))).
Proof.
  split; [vm_compute; reflexivity|].
  apply (verify_range_checks_selected_hashes w5 range_start range_end
           (Some "procurement") range_result w5).
  unfold verify_range, bind, gets, lift.
  apply (f_equal (fun r => (r, w5))). vm_compute. reflexivity.
Defined.

End Scenarios.

Section Sites.

Import Props.

(** C4 (the code departs from it).  A recovery after which the check of the
    configuration files fails: the verification reports
    [overall_success = False] and the record kept in the history says
    [success = False], yet [perform_recovery] returns [success = True]. *)
Theorem failed_verification_reported_as_success :
  exists result w',
    Recovery.perform_recovery "RP_20240115_100000" None "full" Site.idle
    = (inr result, w')
    /\ (exists v, field result "verification_result" = Some v
                  /\ field v "overall_success" = Some (PyBool false))
    /\ (exists record,
           last (Recovery.recovery_history (Recovery.self w')) = Some record
           /\ field record "success" = Some (PyBool false))
    /\ field result "success" = Some (PyBool true).
Proof.
  exists (or_none (Recovery.perform_recovery "RP_20240115_100000" None "full" Site.idle).1),
         (Recovery.perform_recovery "RP_20240115_100000" None "full" Site.idle).2.
  split; [apply run_result; vm_compute; reflexivity|].
  split; [eexists; split; vm_compute; reflexivity|].
  split; [eexists; split; vm_compute; reflexivity|].
  vm_compute. reflexivity.
Qed.

(** C7 at the site while a recovery runs. *)
Lemma second_recovery_is_refused_witness :
  Recovery.recovery_in_progress (Recovery.self Site.busy) = true
  /\ Recovery.perform_recovery "RP_20240115_100000" None "full" Site.busy
     = (inr (PyDict [("success", PyBool false);
                     ("error", PyStr "Recovery operation already in progress");
                     ("current_recovery", PyBool true)]), Site.busy).
Proof.
  split; [reflexivity|].
  apply (second_recovery_is_refused "RP_20240115_100000" None "full" Site.busy).
  reflexivity.
Defined.

(** C8 at a backup id that no tier of the site holds. *)
Lemma restore_refuses_without_writing_witness :
  Backup._find_backup "backup_20240101_000000" Site.backups Site.machine = None
  /\ exists r w',
      Backup.restore_from_backup "backup_20240101_000000" None
        (Backup.World Site.machine Site.backups) = (inr r, w')
      /\ field r "success" = Some (PyBool false)
      /\ OS.files (Backup.os w') = OS.files Site.machine
      /\ Backup.self w' = Site.backups.
Proof.
  split; [vm_compute; reflexivity|].
  apply (restore_refuses_without_writing "backup_20240101_000000" None
           (Backup.World Site.machine Site.backups)).
  left. vm_compute. reflexivity.
Defined.

End Sites.
